(** * lovestore-commerce-hub: cart and checkout

    A shallow embedding of the cart store ([Cart.tsx], the add-to-cart
    handlers of the product pages) and of the checkout page
    ([handlePlaceOrder] and what it calls), with the properties of the
    checkout workflow proved about it.

    Conventions.
    - A JavaScript [number] holding a quantity or a stock level is a [Z];
      a price or an amount of money is the exact rational [Q] its decimal
      denotes, where the code has the nearest binary double. What is
      proved of amounts is either the code's own formula or a rounding to
      cents that stays clear of ties, which the errors of doubles do not
      reach.
    - A JavaScript string is a [string], one character per UTF-16 code
      unit: the strings covered are those of code units below 256.
    - Handlers are computations in a state monad [M] that also threads a
      trace of externally visible events (toasts, navigation, requests sent
      to the backend) and the JavaScript completion ([Normal] or [Throw]).
    - [JSON.parse]/[JSON.stringify] of the cart kept under the local-storage
      key ['cart'] are the identity on [list CartItem.t]; an absent key is
      [None]. *)

From Stdlib Require Import ZArith QArith Qround Lia Ascii.
From stdpp Require Import base option list gmap strings.

Local Open Scope Z_scope.

(** ** Data model *)

(** [interface Product] of the product pages. *)
Module Product.
Record t : Type := mk {
  id : string;
  name : string;
  price : Q;
  image : string;
  stock : Z;
  category : string;
  description : string
}.
End Product.

(** [interface CartItem] of [Cart.tsx]: a product snapshot and a quantity. *)
Module CartItem.
Record t : Type := mk {
  id : string;
  name : string;
  price : Q;
  image : string;
  stock : Z;
  category : string;
  description : string;
  quantity : Z
}.

(** [{ ...item, quantity: q }] *)
Definition with_quantity (q : Z) (item : t) : t :=
  mk (id item) (name item) (price item) (image item) (stock item)
     (category item) (description item) q.

(** [{ ...product, quantity: q }] *)
Definition of_product (product : Product.t) (q : Z) : t :=
  mk (Product.id product) (Product.name product) (Product.price product)
     (Product.image product) (Product.stock product)
     (Product.category product) (Product.description product) q.
End CartItem.

(** The row inserted into the [orders] table. *)
Module Order.
Record t : Type := mk {
  user_id : string;
  products : list CartItem.t;
  total : Q;
  status : string
}.
End Order.

(** The toasts the pages raise, by title. *)
Inductive Toast : Type :=
| StockLimitReached (available : Z)   (* "Stock limit reached" *)
| ItemRemoved                         (* "Item removed" *)
| CartCleared                         (* "Cart cleared" *)
| AddedToCart (productName : string)  (* "Added to cart" *)
| AuthenticationRequired              (* "Authentication required" *)
| EmptyCart                           (* "Empty cart" *)
| MissingInformation                  (* "Missing information" *)
| StockUnavailable                    (* "Stock unavailable" *)
| OrderPlaced                         (* "Order placed successfully!" *)
| OrderFailed.                        (* "Order failed" *)

(** Externally visible effects of a handler, in the order they happen. *)
Inductive Event : Type :=
| ev_toast (t : Toast)
| ev_navigate (path : string)
| ev_setIsProcessing (b : bool)
| ev_select_stock (id : string)
| ev_update_stock (id : string) (newStock : Z)
| ev_insert_order (o : Order.t)
| ev_console_error.

(** ** The handler monad: state, trace, and JavaScript completions *)

Inductive Completion (A : Type) : Type :=
| Normal (a : A)
| Throw.
Arguments Normal {A} a.
Arguments Throw {A}.

Definition M (S A : Type) : Type := S → Completion A * S * list Event.

Section Monad.
Context {S : Type}.

Definition ret {A} (a : A) : M S A := λ s, (Normal a, s, []).

Definition bind {A B} (m : M S A) (f : A → M S B) : M S B := λ s,
  match m s with
  | (Normal a, s1, t1) => let '(r, s2, t2) := f a s1 in (r, s2, t1 ++ t2)
  | (Throw, s1, t1) => (Throw, s1, t1)
  end.

Definition throw {A} : M S A := λ s, (Throw, s, []).
Definition get : M S S := λ s, (Normal s, s, []).
Definition modify (f : S → S) : M S unit := λ s, (Normal tt, f s, []).
Definition emit (e : Event) : M S unit := λ s, (Normal tt, s, [e]).
Definition toast (t : Toast) : M S unit := emit (ev_toast t).
Definition navigate (path : string) : M S unit := emit (ev_navigate path).

(** [try { body } catch { handler } finally { final }] *)
Definition try_catch_finally (body handler final : M S unit) : M S unit := λ s,
  let '(r1, s1, t1) := body s in
  let '(r2, s2, t2) :=
    match r1 with
    | Normal _ => (Normal tt, s1, [])
    | Throw => handler s1
    end in
  let '(r3, s3, t3) := final s2 in
  (match r3 with Normal _ => r2 | Throw => Throw end, s3, t1 ++ t2 ++ t3).

(** [await Promise.all(promises)]: every promise of the array has been
    started before the await and runs to its end whether or not another
    one rejects; the await throws when at least one of them rejected. *)
Fixpoint Promise_all {A} (promises : list (M S A)) : M S (list A) :=
  match promises with
  | [] => ret []
  | p :: ps => λ s,
      let '(r, s1, t1) := p s in
      let '(rs, s2, t2) := Promise_all ps s1 in
      (match r, rs with
       | Normal a, Normal l => Normal (a :: l)
       | _, _ => Throw
       end, s2, t1 ++ t2)
  end.
End Monad.

(** [M S] with stdpp's monad notations; [mapM] is [array.map(callback)] for
    a callback with effects. *)
#[global] Instance M_ret {S} : MRet (M S) := @ret S.
#[global] Instance M_bind {S} : MBind (M S) := λ A B f m, bind m f.

(** Projections of the result of running a handler. *)
Definition completion {S A} (r : Completion A * S * list Event) : Completion A := r.1.1.
Definition final {S A} (r : Completion A * S * list Event) : S := r.1.2.
Definition trace {S A} (r : Completion A * S * list Event) : list Event := r.2.

(** ** JavaScript helpers *)

(** [array.findIndex(p)]: the first index whose element satisfies [p], or -1. *)
Fixpoint findIndex {A} (p : A → bool) (l : list A) : Z :=
  match l with
  | [] => -1
  | x :: l' => if p x then 0 else
                 let i := findIndex p l' in if i =? -1 then -1 else 1 + i
  end.

(** [x || 0] for a possibly undefined number. *)
Definition or_zero (x : option Z) : Z :=
  match x with
  | Some v => if v =? 0 then 0 else v
  | None => 0
  end.

(** A string is the sequence of its UTF-16 code units; the strings here
    are those whose code units are below 256 (the Latin-1 range), one
    [ascii] per code unit.

    ECMAScript WhiteSpace and LineTerminator, which [trim] strips: below 256
    these are TAB, LF, VT, FF, CR, SPACE and NO-BREAK SPACE (U+00A0). *)
Definition isWhiteSpace (c : ascii) : bool :=
  let n := nat_of_ascii c in
  ((9 <=? n) && (n <=? 13))%nat || (n =? 32)%nat || (n =? 160)%nat.

Fixpoint trimStart (s : string) : string :=
  match s with
  | EmptyString => EmptyString
  | String c s' => if isWhiteSpace c then trimStart s' else s
  end.

Definition trimEnd (s : string) : string := String.rev (trimStart (String.rev s)).

(** [s.trim()] *)
Definition trim (s : string) : string := trimEnd (trimStart s).

(** Truthiness of a string: non-empty. *)
Definition truthy (s : string) : bool :=
  match s with EmptyString => false | _ => true end.

(** The value of the local-storage key ['cart']. *)
Abbreviation Storage := (option (list CartItem.t)).

(** [JSON.parse(localStorage.getItem('cart') || '[]')] *)
Definition parse_cart_or_empty (saved : Storage) : list CartItem.t :=
  match saved with
  | Some cart => cart
  | None => []
  end.

(** ** The cart page ([Cart.tsx]) *)
Module Cart.
(** The component state [cartItems] and the local-storage key ['cart']. *)
Record State : Type := mk {
  cartItems : list CartItem.t;
  localStorage : Storage
}.

Definition loadCartFromStorage : M State unit :=
  s ← get;
  match localStorage s with
  | Some savedCart => modify (λ s, mk savedCart (localStorage s))
  | None => mret tt
  end.

Definition saveCartToStorage (items : list CartItem.t) : M State unit :=
  modify (λ _, mk items (Some items)).

Definition removeFromCart (itemId : string) : M State unit :=
  s ← get;
  let updatedItems := filter (λ item, CartItem.id item ≠ itemId) (cartItems s) in
  saveCartToStorage updatedItems;;
  toast ItemRemoved.

Definition updateQuantity (itemId : string) (newQuantity : Z) : M State unit :=
  if newQuantity <? 1 then removeFromCart itemId
  else
    s ← get;
    updatedItems ← mapM (λ item,
      if decide (CartItem.id item = itemId) then
        if CartItem.stock item <? newQuantity then
          toast (StockLimitReached (CartItem.stock item));;
          mret (CartItem.with_quantity (CartItem.stock item) item)
        else mret (CartItem.with_quantity newQuantity item)
      else mret item) (cartItems s);
    saveCartToStorage updatedItems.

Definition clearCart : M State unit :=
  saveCartToStorage [];;
  toast CartCleared.

Definition getTotalPrice (s : State) : Q :=
  fold_left (λ total item, total + CartItem.price item * inject_Z (CartItem.quantity item))%Q
            (cartItems s) 0%Q.

Definition getTotalItems (s : State) : Z :=
  fold_left (λ total item, total + CartItem.quantity item) (cartItems s) 0.
End Cart.

(** ** The product list ([Products], and [Home], which has the same handler) *)
Module Products.
Record State : Type := mk {
  localStorage : Storage
}.

Definition handleAddToCart (product : Product.t) : M State unit :=
  s ← get;
  let existingCart := parse_cart_or_empty (localStorage s) in
  let existingItemIndex :=
    findIndex (λ item, bool_decide (CartItem.id item = Product.id product)) existingCart in
  let existingCart :=
    if -1 <? existingItemIndex then
      alter (λ item, CartItem.with_quantity (CartItem.quantity item + 1) item)
            (Z.to_nat existingItemIndex) existingCart
    else existingCart ++ [CartItem.of_product product 1] in
  modify (λ _, mk (Some existingCart));;
  toast (AddedToCart (Product.name product)).
End Products.

(** ** The product page ([ProductDetail]) *)
Module ProductDetail.
Record State : Type := mk {
  product : option Product.t;
  quantity : Z;
  localStorage : Storage
}.

Definition setQuantity (q : Z) : M State unit :=
  modify (λ s, mk (product s) q (localStorage s)).

(** The [-] button, disabled when [quantity <= 1]:
    [setQuantity(Math.max(1, quantity - 1))]. *)
Definition decrement : M State unit :=
  s ← get;
  if quantity s <=? 1 then mret tt
  else setQuantity (Z.max 1 (quantity s - 1)).

(** The [+] button, rendered only for a product with [stock > 0] and
    disabled when [quantity >= product.stock]:
    [setQuantity(Math.min(product.stock, quantity + 1))]. *)
Definition increment : M State unit :=
  s ← get;
  match product s with
  | Some p =>
      if (0 <? Product.stock p) && negb (Product.stock p <=? quantity s)
      then setQuantity (Z.min (Product.stock p) (quantity s + 1))
      else mret tt
  | None => mret tt
  end.

Definition handleAddToCart : M State unit :=
  s ← get;
  match product s with
  | None => mret tt
  | Some product =>
      let existingCart := parse_cart_or_empty (localStorage s) in
      let existingItemIndex :=
        findIndex (λ item, bool_decide (CartItem.id item = Product.id product)) existingCart in
      let existingCart :=
        if -1 <? existingItemIndex then
          alter (λ item, CartItem.with_quantity (CartItem.quantity item + quantity s) item)
                (Z.to_nat existingItemIndex) existingCart
        else existingCart ++ [CartItem.of_product product (quantity s)] in
      modify (λ s, mk (ProductDetail.product s) (quantity s) (Some existingCart));;
      toast (AddedToCart (Product.name product))
  end.
End ProductDetail.

(** ** The checkout page ([Checkout]) *)

(** [interface ShippingInfo], with its keys. *)
Module ShippingInfo.
Module Key.
Inductive t : Type :=
| firstName | lastName | email | phone | address | city | state | zipCode.
End Key.

Record t : Type := mk {
  firstName : string;
  lastName : string;
  email : string;
  phone : string;
  address : string;
  city : string;
  state : string;
  zipCode : string
}.

(** [shippingInfo[key]] *)
Definition get (key : Key.t) (info : t) : string :=
  match key with
  | Key.firstName => firstName info
  | Key.lastName => lastName info
  | Key.email => email info
  | Key.phone => phone info
  | Key.address => address info
  | Key.city => city info
  | Key.state => state info
  | Key.zipCode => zipCode info
  end.

(** [{ ...info, [key]: value }] *)
Definition set (key : Key.t) (value : string) (info : t) : t :=
  match key with
  | Key.firstName =>
      mk value (lastName info) (email info) (phone info) (address info) (city info) (state info) (zipCode info)
  | Key.lastName =>
      mk (firstName info) value (email info) (phone info) (address info) (city info) (state info) (zipCode info)
  | Key.email =>
      mk (firstName info) (lastName info) value (phone info) (address info) (city info) (state info) (zipCode info)
  | Key.phone =>
      mk (firstName info) (lastName info) (email info) value (address info) (city info) (state info) (zipCode info)
  | Key.address =>
      mk (firstName info) (lastName info) (email info) (phone info) value (city info) (state info) (zipCode info)
  | Key.city =>
      mk (firstName info) (lastName info) (email info) (phone info) (address info) value (state info) (zipCode info)
  | Key.state =>
      mk (firstName info) (lastName info) (email info) (phone info) (address info) (city info) value (zipCode info)
  | Key.zipCode =>
      mk (firstName info) (lastName info) (email info) (phone info) (address info) (city info) (state info) value
  end.

Definition empty : t := mk "" "" "" "" "" "" "" "".
End ShippingInfo.

(** The signed-in user of the session, as far as the page reads it. *)
Module User.
Record t : Type := mk {
  id : string;
  email : option string
}.
End User.

(** One element of [stockChecks]. *)
Module StockCheck.
Record t : Type := mk {
  id : string;
  currentStock : Z;
  requestedQty : Z
}.
End StockCheck.

(** Which requests to the backend come back with an error. *)
Record Faults : Type := mkFaults {
  select_error : string → bool;
  update_error : string → bool;
  insert_error : bool
}.

Definition no_faults : Faults := mkFaults (λ _, false) (λ _, false) false.

Module Checkout.
(** The component state, the local-storage key ['cart'], and the two
    backend tables the page talks to: the [stock] column of [products]
    by product id, and the rows of [orders]. *)
Record State : Type := mk {
  user : option User.t;
  cartItems : list CartItem.t;
  isProcessing : bool;
  shippingInfo : ShippingInfo.t;
  localStorage : Storage;
  products : gmap string Z;
  orders : list Order.t
}.

Definition setUser (u : User.t) : M State unit :=
  modify (λ s, mk (Some u) (cartItems s) (isProcessing s) (shippingInfo s)
                  (localStorage s) (products s) (orders s)).

Definition setCartItems (items : list CartItem.t) : M State unit :=
  modify (λ s, mk (user s) items (isProcessing s) (shippingInfo s)
                  (localStorage s) (products s) (orders s)).

Definition with_isProcessing (b : bool) (s : State) : State :=
  mk (user s) (cartItems s) b (shippingInfo s) (localStorage s) (products s) (orders s).

Definition setIsProcessing (b : bool) : M State unit :=
  modify (with_isProcessing b);;
  emit (ev_setIsProcessing b).

Definition setShippingInfo (f : ShippingInfo.t → ShippingInfo.t) : M State unit :=
  modify (λ s, mk (user s) (cartItems s) (isProcessing s) (f (shippingInfo s))
                  (localStorage s) (products s) (orders s)).

Definition without_cart (s : State) : State :=
  mk (user s) (cartItems s) (isProcessing s) (shippingInfo s) None (products s) (orders s).

(** [localStorage.removeItem('cart')] *)
Definition localStorage_removeItem : M State unit := modify without_cart.

Definition with_products (f : gmap string Z → gmap string Z) (s : State) : State :=
  mk (user s) (cartItems s) (isProcessing s) (shippingInfo s)
     (localStorage s) (f (products s)) (orders s).

Definition with_orders (f : list Order.t → list Order.t) (s : State) : State :=
  mk (user s) (cartItems s) (isProcessing s) (shippingInfo s)
     (localStorage s) (products s) (f (orders s)).

(** The state of a freshly mounted page. *)
Definition initial (storage : Storage) (stock : gmap string Z) (placed : list Order.t) : State :=
  mk None [] false ShippingInfo.empty storage stock placed.

Definition loadCartFromStorage : M State unit :=
  s ← get;
  match localStorage s with
  | Some items =>
      if (length items =? 0)%nat then
        toast EmptyCart;;
        navigate "/cart"
      else setCartItems items
  | None => navigate "/cart"
  end.

(** The mount effect. The cart is loaded synchronously; the session
    arrives afterwards. *)
Definition mount (session : option User.t) : M State unit :=
  loadCartFromStorage;;
  match session with
  | None =>
      toast AuthenticationRequired;;
      navigate "/login"
  | Some u =>
      setUser u;;
      setShippingInfo (ShippingInfo.set ShippingInfo.Key.email (default "" (User.email u)))
  end.

Definition getTotalPrice (s : State) : Q :=
  fold_left (λ total item, total + CartItem.price item * inject_Z (CartItem.quantity item))%Q
            (cartItems s) 0%Q.

Definition getTotalItems (s : State) : Z :=
  fold_left (λ total item, total + CartItem.quantity item) (cartItems s) 0.

(** [orderData] of [handlePlaceOrder], for the signed-in user [u]. *)
Definition orderData (u : User.t) (s : State) : Order.t :=
  Order.mk (User.id u) (cartItems s) (getTotalPrice s * (108 # 100))%Q "pending".

Definition handleInputChange (name : ShippingInfo.Key.t) (value : string) : M State unit :=
  setShippingInfo (ShippingInfo.set name value).

Definition required : list ShippingInfo.Key.t :=
  [ShippingInfo.Key.firstName; ShippingInfo.Key.lastName; ShippingInfo.Key.email;
   ShippingInfo.Key.phone; ShippingInfo.Key.address; ShippingInfo.Key.city;
   ShippingInfo.Key.state; ShippingInfo.Key.zipCode].

(** The [for] loop of [validateForm] over the remaining fields. *)
Fixpoint validateForm_from (fields : list ShippingInfo.Key.t) : M State bool :=
  match fields with
  | [] => mret true
  | field :: rest =>
      s ← get;
      if negb (truthy (trim (ShippingInfo.get field (shippingInfo s)))) then
        toast MissingInformation;;
        mret false
      else validateForm_from rest
  end.

Definition validateForm : M State bool := validateForm_from required.

(** [stockChecks.filter(check => check.currentStock < check.requestedQty)] *)
Definition outOfStock (stockChecks : list StockCheck.t) : list StockCheck.t :=
  filter (λ check, StockCheck.currentStock check < StockCheck.requestedQty check) stockChecks.

(** [stockChecks.find(check => check.id === item.id)?.currentStock || 0] *)
Definition currentStock_of (stockChecks : list StockCheck.t) (item : CartItem.t) : Z :=
  or_zero (StockCheck.currentStock <$>
           find (λ check, bool_decide (StockCheck.id check = CartItem.id item)) stockChecks).

Section Backend.
(** The faults of the backend during one attempt, and what other
    sessions (customers, vendors) did to the stock column between the
    answers to the stock reads and the stock writes of this attempt. *)
Variable faults : Faults.
Variable interleaved : gmap string Z → gmap string Z.

(** [supabase.from('products').select('stock').eq('id', id).single()];
    [None] stands for a response with an error, which [.single()] also
    gives when no row has the id. *)
Definition select_stock (id : string) : M State (option Z) :=
  emit (ev_select_stock id);;
  s ← get;
  mret (if select_error faults id then None else products s !! id).

(** [supabase.from('products').update({ stock: newStock }).eq('id', id)];
    the result is the error flag. Only an existing row is updated. *)
Definition update_stock (id : string) (newStock : Z) : M State bool :=
  emit (ev_update_stock id newStock);;
  if update_error faults id then mret true
  else
    modify (with_products (alter (λ _, newStock) id));;
    mret false.

(** [supabase.from('orders').insert(orderData)]; the result is the
    error flag. *)
Definition insert_order (orderData : Order.t) : M State bool :=
  emit (ev_insert_order orderData);;
  if insert_error faults then mret true
  else
    modify (with_orders (λ rows, rows ++ [orderData]));;
    mret false.

(** The callback of the first [cartItems.map]. *)
Definition checkStock (item : CartItem.t) : M State StockCheck.t :=
  data ← select_stock (CartItem.id item);
  match data with
  | None => throw
  | Some stock => mret (StockCheck.mk (CartItem.id item) stock (CartItem.quantity item))
  end.

(** The callback of the second [cartItems.map]. *)
Definition updateStock (stockChecks : list StockCheck.t) (item : CartItem.t) : M State unit :=
  let currentStock := currentStock_of stockChecks item in
  let newStock := currentStock - CartItem.quantity item in
  error ← update_stock (CartItem.id item) newStock;
  if error : bool then throw else mret tt.

(** [Promise.all(cartItems.map(async (item) => ...))], the stock reads. *)
Definition stockChecks (cart : list CartItem.t) : M State (list StockCheck.t) :=
  Promise_all (checkStock <$> cart).

(** [cartItems.map(async (item) => ...)], the stock writes, awaited
    together. *)
Definition stockUpdates (checks : list StockCheck.t) (cart : list CartItem.t)
  : M State (list unit) :=
  Promise_all (updateStock checks <$> cart).

Definition other_sessions : M State unit := modify (with_products interleaved).

Definition handlePlaceOrder : M State unit :=
  valid ← validateForm;
  if negb valid then mret tt
  else
    s ← get;
    match user s with
    | None => mret tt
    | Some u =>
        setIsProcessing true;;
        try_catch_finally
          (checks ← stockChecks (cartItems s);
           if (0 <? length (outOfStock checks))%nat then
             toast StockUnavailable
           else
             other_sessions;;
             stockUpdates checks (cartItems s);;
             orderError ← insert_order (orderData u s);
             if orderError : bool then throw
             else
               localStorage_removeItem;;
               toast OrderPlaced;;
               navigate "/")
          (emit ev_console_error;;
           toast OrderFailed)
          (setIsProcessing false)
    end.
End Backend.
End Checkout.

(** The checkout page is on screen: it was mounted without navigating
    away, and since then its fields were edited, orders were attempted that
    left the page on screen, and other sessions and tabs changed the
    backend and the local storage. *)
Definition stays (t : list Event) : Prop := ∀ path, ev_navigate path ∉ t.

Inductive on_screen : Checkout.State → Prop :=
| on_screen_mount storage stock placed session :
    stays (trace (Checkout.mount session (Checkout.initial storage stock placed))) →
    on_screen (final (Checkout.mount session (Checkout.initial storage stock placed)))
| on_screen_input s name value :
    on_screen s →
    on_screen (final (Checkout.handleInputChange name value s))
| on_screen_place_order faults interleaved s :
    on_screen s →
    stays (trace (Checkout.handlePlaceOrder faults interleaved s)) →
    on_screen (final (Checkout.handlePlaceOrder faults interleaved s))
| on_screen_others s storage stock placed :
    on_screen s →
    on_screen (Checkout.mk (Checkout.user s) (Checkout.cartItems s) (Checkout.isProcessing s)
                           (Checkout.shippingInfo s) storage stock placed).

(** The amounts of the order summary: [amount.toFixed(2)], as the number
    the printed decimal denotes (the nearest multiple of 0.01, the larger
    in magnitude of two nearest ones).

    Amounts are the exact rationals the decimal prices denote. The code
    computes them in binary doubles, which are off by rounding errors of
    relative size 2^-53, and [toFixed] rounds the exact value of the double.
    The digits printed are therefore those given here unless the exact
    amount lies within that error of a tie between two multiples of 0.01;
    the properties below are stated for subtotals of whole cents, where the
    tax and the total stay 0.0002 clear of every tie. *)
Definition toFixed2 (amount : Q) : Q :=
  if Qle_bool 0 amount
  then Qfloor (amount * 100 + (1 # 2)) # 100
  else (- (Qfloor (- amount * 100 + (1 # 2)) # 100))%Q.

Definition summary_subtotal (s : Checkout.State) : Q := toFixed2 (Checkout.getTotalPrice s).
Definition summary_tax (s : Checkout.State) : Q := toFixed2 (Checkout.getTotalPrice s * (8 # 100)).
Definition summary_total (s : Checkout.State) : Q := toFixed2 (Checkout.getTotalPrice s * (108 # 100)).

(** ** The cart store, as the pages perform its operations on the stored cart *)
Module CartStore.
(** [addItem(product, qty)]: the add-to-cart button of the product page. *)
Definition addItem (product : Product.t) (qty : Z) (storage : Storage) : Storage :=
  ProductDetail.localStorage
    (final (ProductDetail.handleAddToCart (ProductDetail.mk (Some product) qty storage))).

(** [addItem(product)]: the add-to-cart button of a product card. *)
Definition addOne (product : Product.t) (storage : Storage) : Storage :=
  Products.localStorage (final (Products.handleAddToCart product (Products.mk storage))).

(** The cart page once it has loaded the stored cart. *)
Definition cart_page (storage : Storage) : Cart.State :=
  final (Cart.loadCartFromStorage (Cart.mk [] storage)).

(** [setQuantity(id, qty)]: the quantity buttons of the cart page. *)
Definition setQuantity (id : string) (qty : Z) (storage : Storage) : Storage :=
  Cart.localStorage (final (Cart.updateQuantity id qty (cart_page storage))).

(** [removeItem(id)]: the remove button of the cart page. *)
Definition removeItem (id : string) (storage : Storage) : Storage :=
  Cart.localStorage (final (Cart.removeFromCart id (cart_page storage))).

(** A sequence of [addItem] operations, each adding a quantity. *)
Definition addItems (adds : list (Product.t * Z)) (storage : Storage) : Storage :=
  fold_left (λ st add, addItem add.1 add.2 st) adds storage.
End CartStore.

(** A well-formed cart: the ids of the lines are distinct and the quantities
    are at least 1. *)
Definition well_formed (cart : list CartItem.t) : Prop :=
  NoDup (CartItem.id <$> cart) ∧ ∀ line, line ∈ cart → 1 ≤ CartItem.quantity line.

(** The totals as the specification words them: subtotal = Σ price×qty,
    tax = round(subtotal×0.08, 2 decimal places), total = subtotal + tax. *)
Module SpecTotals.
Fixpoint subtotal (cart : list CartItem.t) : Q :=
  match cart with
  | [] => 0
  | item :: rest => CartItem.price item * inject_Z (CartItem.quantity item) + subtotal rest
  end.

(** Rounding to two decimal places, to the nearest, a half going up. *)
Definition round2 (x : Q) : Q := Qfloor (x * 100 + (1 # 2)) # 100.

Definition tax (cart : list CartItem.t) : Q := round2 (subtotal cart * (8 # 100)).
Definition total (cart : list CartItem.t) : Q := subtotal cart + tax cart.
End SpecTotals.

(** What [updateQuantity] makes of one line, and the toast it raises for it. *)
Definition updated_line (itemId : string) (newQuantity : Z) (item : CartItem.t) : CartItem.t :=
  if decide (CartItem.id item = itemId) then
    if CartItem.stock item <? newQuantity
    then CartItem.with_quantity (CartItem.stock item) item
    else CartItem.with_quantity newQuantity item
  else item.

Definition capped_signal (itemId : string) (newQuantity : Z) (item : CartItem.t) : list Event :=
  if decide (CartItem.id item = itemId) then
    if CartItem.stock item <? newQuantity
    then [ev_toast (StockLimitReached (CartItem.stock item))]
    else []
  else [].

(** ** One checkout attempt in closed form

    What [handlePlaceOrder] reads, writes and leaves behind, as functions of
    the state it starts in; [handlePlaceOrder_run] proves them equal to the
    handler. *)
Module Attempt.
(** No required field is blank. *)
Definition filled (s : Checkout.State) : bool :=
  forallb (λ field, truthy (trim (ShippingInfo.get field (Checkout.shippingInfo s))))
          Checkout.required.

(** The answer to the stock read of one line, if it has one. *)
Definition observe (faults : Faults) (stock : gmap string Z) (item : CartItem.t)
  : option StockCheck.t :=
  if select_error faults (CartItem.id item) then None
  else
    currentStock ← stock !! CartItem.id item;
    Some (StockCheck.mk (CartItem.id item) currentStock (CartItem.quantity item)).

(** The answers to the stock reads of all lines, if all have one. *)
Definition observed (faults : Faults) (stock : gmap string Z) (cart : list CartItem.t)
  : option (list StockCheck.t) :=
  mapM (observe faults stock) cart.

Definition reads (cart : list CartItem.t) : list Event :=
  (λ item, ev_select_stock (CartItem.id item)) <$> cart.

Definition newStock (checks : list StockCheck.t) (item : CartItem.t) : Z :=
  Checkout.currentStock_of checks item - CartItem.quantity item.

Definition writes (checks : list StockCheck.t) (cart : list CartItem.t) : list Event :=
  (λ item, ev_update_stock (CartItem.id item) (newStock checks item)) <$> cart.

(** The stock column after the stock writes, in the order of the cart. *)
Definition written (faults : Faults) (checks : list StockCheck.t) (cart : list CartItem.t)
    (stock : gmap string Z) : gmap string Z :=
  fold_left (λ m item,
               if update_error faults (CartItem.id item) then m
               else alter (λ _, newStock checks item) (CartItem.id item) m)
            cart stock.

Definition write_failed (faults : Faults) (cart : list CartItem.t) : bool :=
  existsb (λ item, update_error faults (CartItem.id item)) cart.

(** The state and the trace an attempt ends with, once the form is valid
    and a user is signed in. *)
Definition outcome (faults : Faults) (interleaved : gmap string Z → gmap string Z)
    (u : User.t) (s : Checkout.State) : Checkout.State * list Event :=
  let cart := Checkout.cartItems s in
  match observed faults (Checkout.products s) cart with
  | None =>
      (Checkout.with_isProcessing false s,
       [ev_setIsProcessing true] ++ reads cart
         ++ [ev_console_error; ev_toast OrderFailed; ev_setIsProcessing false])
  | Some checks =>
      if (0 <? length (Checkout.outOfStock checks))%nat then
        (Checkout.with_isProcessing false s,
         [ev_setIsProcessing true] ++ reads cart
           ++ [ev_toast StockUnavailable; ev_setIsProcessing false])
      else
        let s2 := Checkout.with_products
                    (λ stock, written faults checks cart (interleaved stock)) s in
        if write_failed faults cart then
          (Checkout.with_isProcessing false s2,
           [ev_setIsProcessing true] ++ reads cart ++ writes checks cart
             ++ [ev_console_error; ev_toast OrderFailed; ev_setIsProcessing false])
        else if insert_error faults then
          (Checkout.with_isProcessing false s2,
           [ev_setIsProcessing true] ++ reads cart ++ writes checks cart
             ++ [ev_insert_order (Checkout.orderData u s);
                 ev_console_error; ev_toast OrderFailed; ev_setIsProcessing false])
        else
          (Checkout.with_isProcessing false
             (Checkout.without_cart
                (Checkout.with_orders (λ rows, rows ++ [Checkout.orderData u s]) s2)),
           [ev_setIsProcessing true] ++ reads cart ++ writes checks cart
             ++ [ev_insert_order (Checkout.orderData u s);
                 ev_toast OrderPlaced; ev_navigate "/"; ev_setIsProcessing false])
  end.
End Attempt.

(** What a successful verification holds: one check per line, in order,
    with the line's id and quantity and the stock the backend has for it. *)
Definition checked (stock : gmap string Z) (item : CartItem.t) (check : StockCheck.t) : Prop :=
  StockCheck.id check = CartItem.id item ∧
  StockCheck.requestedQty check = CartItem.quantity item ∧
  stock !! CartItem.id item = Some (StockCheck.currentStock check).

(** The faults of an attempt, but for an order insert that succeeds. *)
Definition insert_succeeds (faults : Faults) : Faults :=
  mkFaults (select_error faults) (update_error faults) false.

(** The events that write to the backend. *)
Definition is_write (e : Event) : Prop :=
  match e with
  | ev_update_stock _ _ | ev_insert_order _ => True
  | _ => False
  end.

(** ** Sample data: scenarios A to C of the specification *)
Module Sample.
Definition P1 : Product.t := Product.mk "P1" "Rose bouquet" 10 "" 5 "Groceries" "".
Definition P2 : Product.t := Product.mk "P2" "Card" (99 # 100) "" 1 "Clothing" "".

(** Cart lines: product, quantity, and stock snapshot. *)
Definition line_P1 (qty : Z) : CartItem.t := CartItem.of_product P1 qty.
Definition line_P2 (qty : Z) : CartItem.t := CartItem.of_product P2 qty.

Definition customer : User.t := User.mk "u1" (Some "ann@example.org").

Definition shipping : ShippingInfo.t :=
  ShippingInfo.mk "Ann" "Lee" "ann@example.org" "555-0100" "1 Main St" "Springfield" "IL" "62701".

(** The checkout page showing [cart], against a backend holding [stock]. *)
Definition page (cart : list CartItem.t) (stock : gmap string Z) : Checkout.State :=
  Checkout.mk (Some customer) cart false shipping (Some cart) stock [].

Definition insert_fails : Faults := mkFaults (λ _, false) (λ _, false) true.

(** Scenario A: two of P1 in the cart, five in stock. *)
Definition scenario_A : Checkout.State := page [line_P1 2] {[ "P1"%string := 5 ]}.

(** Scenario B: ten of P1 in the cart, five in stock. *)
Definition scenario_B : Checkout.State := page [line_P1 10] {[ "P1"%string := 5 ]}.

(** Scenario C: two of P1 (five in stock) and one of P2 (none in stock). *)
Definition scenario_C : Checkout.State :=
  page [line_P1 2; line_P2 1] {[ "P1"%string := 5; "P2"%string := 0 ]}.

(** One item at 0.99. *)
Definition one_card : Checkout.State := page [line_P2 1] {[ "P2"%string := 1 ]}.

(** No interference of other sessions. *)
Definition alone (stock : gmap string Z) : gmap string Z := stock.

(** Another customer buys one of P1 between the reads and the writes. *)
Definition rival_buys_one (stock : gmap string Z) : gmap string Z :=
  alter (λ v, v - 1) "P1"%string stock.

(** The checkout page as its mount leaves it for a signed-in customer with
    two of P1 in the stored cart, and after the customer filled the form. *)
Definition mounted : Checkout.State :=
  final (Checkout.mount (Some customer)
           (Checkout.initial (Some [line_P1 2]) {[ "P1"%string := 5 ]} [])).

Definition typed : list (ShippingInfo.Key.t * string) :=
  [(ShippingInfo.Key.firstName, "Ann"); (ShippingInfo.Key.lastName, "Lee");
   (ShippingInfo.Key.phone, "555-0100"); (ShippingInfo.Key.address, "1 Main St");
   (ShippingInfo.Key.city, "Springfield"); (ShippingInfo.Key.state, "IL");
   (ShippingInfo.Key.zipCode, "62701")]%string.

Definition filled_in : Checkout.State :=
  fold_left (λ s input, final (Checkout.handleInputChange input.1 input.2 s)) typed mounted.
End Sample.

(** ** The rest of the pages

    What the pages do besides the cart store and the order: the buttons of
    a cart line, the product filters, the stock badges, and the stock
    editor of the vendor dashboard. *)

(** [s.toLowerCase()] on code units below 256: the capital letters are A-Z
    (65-90) and U+00C0-U+00DE but for the multiplication sign U+00D7, each
    32 below its small letter; every other code unit is kept. *)
Definition toLowerCase_char (c : ascii) : ascii :=
  let n := nat_of_ascii c in
  if (((65 <=? n) && (n <=? 90)) || ((192 <=? n) && (n <=? 214))
      || ((216 <=? n) && (n <=? 222)))%nat
  then ascii_of_nat (n + 32) else c.

Fixpoint toLowerCase (s : string) : string :=
  match s with
  | EmptyString => EmptyString
  | String c s' => String (toLowerCase_char c) (toLowerCase s')
  end.

(** [s.includes(sub)]: [sub] occurs in [s] at some position. *)
Fixpoint includes (s sub : string) : bool :=
  String.prefix sub s ||
  match s with
  | EmptyString => false
  | String _ s' => includes s' sub
  end.

(** Every character is white space (the empty string too). *)
Fixpoint all_space (s : string) : bool :=
  match s with
  | EmptyString => true
  | String c s' => isWhiteSpace c && all_space s'
  end.

(** The controls of one line of the cart page ([Cart.tsx], the JSX of a
    cart item); a disabled button does nothing. *)
Module CartRow.
(** The [-] button, disabled when [item.quantity <= 1]. *)
Definition minus (item : CartItem.t) : M Cart.State unit :=
  if CartItem.quantity item <=? 1 then mret tt
  else Cart.updateQuantity (CartItem.id item) (CartItem.quantity item - 1).

(** The [+] button, disabled when [item.quantity >= item.stock]. *)
Definition plus (item : CartItem.t) : M Cart.State unit :=
  if CartItem.stock item <=? CartItem.quantity item then mret tt
  else Cart.updateQuantity (CartItem.id item) (CartItem.quantity item + 1).

(** The trash button. *)
Definition trash (item : CartItem.t) : M Cart.State unit :=
  Cart.removeFromCart (CartItem.id item).
End CartRow.

(** A click on the cart page: on a control of the line rendered at a
    position, or on "Clear Cart". *)
Inductive Click : Type :=
| click_plus (i : nat)
| click_minus (i : nat)
| click_trash (i : nat)
| click_clear.

Definition click (c : Click) : M Cart.State unit :=
  s ← get;
  match c with
  | click_plus i => from_option CartRow.plus (mret tt) (Cart.cartItems s !! i)
  | click_minus i => from_option CartRow.minus (mret tt) (Cart.cartItems s !! i)
  | click_trash i => from_option CartRow.trash (mret tt) (Cart.cartItems s !! i)
  | click_clear => Cart.clearCart
  end.

Fixpoint clicks (cs : list Click) : M Cart.State unit :=
  match cs with
  | [] => mret tt
  | c :: cs' => click c;; clicks cs'
  end.

(** A line within its stock snapshot. *)
Definition in_range (item : CartItem.t) : Prop :=
  1 ≤ CartItem.quantity item ≤ CartItem.stock item.

(** The same product snapshot, whatever the quantities. *)
Definition same_snapshot (a b : CartItem.t) : Prop :=
  CartItem.with_quantity 0 a = CartItem.with_quantity 0 b.

(** A tidy cart: distinct ids, and every line within its stock snapshot. *)
Definition tidy (cart : list CartItem.t) : Prop :=
  NoDup (CartItem.id <$> cart) ∧ ∀ item, item ∈ cart → in_range item.

(** The stored cart is the cart of the page. *)
Definition saved (s : Cart.State) : Prop :=
  Cart.localStorage s = Some (Cart.cartItems s).

(** The toast "Stock limit reached". *)
Definition is_stock_limit (e : Event) : Prop :=
  match e with
  | ev_toast (StockLimitReached _) => True
  | _ => False
  end.

(** The requests to the backend. *)
Definition is_request (e : Event) : Prop :=
  match e with
  | ev_select_stock _ | ev_update_stock _ _ | ev_insert_order _ => True
  | _ => False
  end.

(** The checkout page after another tab wrote the local-storage key
    ['cart']: the page does not read the key again after its mount. *)
Definition with_stored_cart (storage : Storage) (s : Checkout.State) : Checkout.State :=
  Checkout.mk (Checkout.user s) (Checkout.cartItems s) (Checkout.isProcessing s)
              (Checkout.shippingInfo s) storage (Checkout.products s) (Checkout.orders s).

(** The product list page ([Products]): its filters. *)
Module ProductsPage.
Record State : Type := mk {
  products : list Product.t;
  filteredProducts : list Product.t;
  searchQuery : string;
  selectedCategory : string
}.

Definition setFilteredProducts (filtered : list Product.t) : M State unit :=
  modify (λ s, mk (products s) filtered (searchQuery s) (selectedCategory s)).

(** The callback of the search filter. *)
Definition matches (searchQuery : string) (product : Product.t) : bool :=
  includes (toLowerCase (Product.name product)) (toLowerCase searchQuery)
  || includes (toLowerCase (Product.description product)) (toLowerCase searchQuery).

Definition filterProducts : M State unit :=
  s ← get;
  let filtered := products s in
  let filtered :=
    if decide (selectedCategory s ≠ "All"%string)
    then filter (λ product, Product.category product = selectedCategory s) filtered
    else filtered in
  let filtered :=
    if truthy (trim (searchQuery s))
    then List.filter (matches (searchQuery s)) filtered
    else filtered in
  setFilteredProducts filtered.
End ProductsPage.

(** The home page ([Home]): the featured products and the category filter. *)
Module HomePage.
Record State : Type := mk {
  products : list Product.t;
  featuredProducts : list Product.t;
  selectedCategory : string
}.

(** What [fetchProducts] does with the rows it received:
    [setProducts(products); setFeaturedProducts(products.slice(0, 8))]. *)
Definition received (data : list Product.t) : M State unit :=
  modify (λ s, mk data (take 8 data) (selectedCategory s)).

Definition filteredProducts (s : State) : list Product.t :=
  if decide (selectedCategory s = "All"%string) then featuredProducts s
  else filter (λ product, Product.category product = selectedCategory s) (featuredProducts s).
End HomePage.

(** The stock badge of a product card ([ProductCard]; [ProductDetail]
    computes the same for its product). *)
Module ProductCard.
Definition stockStatus (product : Product.t) : string :=
  if 10 <? Product.stock product then "in-stock"
  else if 0 <? Product.stock product then "low-stock"
  else "out-of-stock".

Definition stockBadgeClass (product : Product.t) : string :=
  if decide (stockStatus product = "in-stock"%string) then "badge-success"
  else if decide (stockStatus product = "low-stock"%string) then "badge-warning"
  else "badge-danger".

(** The "Add to Cart" button is rendered:
    [product.stock > 0 && onAddToCart]. *)
Definition showsAddToCart (product : Product.t) (onAddToCart : bool) : bool :=
  (0 <? Product.stock product) && onAddToCart.
End ProductCard.

(** The vendor dashboard ([VendorDashboard]): the inventory statistics and
    the stock editor. The rows of the [products] table are kept in the
    order the query [select('*').order('name')] returns them; a stock
    update changes no name, so it keeps that order. *)
Module VendorDashboard.
Record StockStatus : Type := mkStatus {
  text : string;
  class : string
}.

Definition getStockStatus (stock : Z) : StockStatus :=
  if stock =? 0 then mkStatus "Out of Stock" "badge-danger"
  else if stock <=? 10 then mkStatus "Low Stock" "badge-warning"
  else mkStatus "In Stock" "badge-success".

Record Stats : Type := mkStats {
  totalProducts : nat;
  lowStock : nat;
  outOfStock : nat;
  totalValue : Q
}.

(** The block "Calculate stats" of [fetchProducts]. *)
Definition calculate_stats (products : list Product.t) : Stats :=
  mkStats
    (length products)
    (length (List.filter (λ p, (0 <? Product.stock p) && (Product.stock p <=? 10)) products))
    (length (List.filter (λ p, Product.stock p =? 0) products))
    (fold_left (λ sum p, sum + Product.price p * inject_Z (Product.stock p))%Q products 0%Q).

Inductive Notice : Type :=
| ErrorLoadingProducts   (* "Error loading products" *)
| StockUpdated           (* "Stock updated" *)
| UpdateFailed.          (* "Update failed" *)

(** The component state, and the rows of the [products] table. *)
Record State : Type := mk {
  products : list Product.t;
  editingId : option string;
  editingStock : Z;
  isLoading : bool;
  stats : Stats;
  rows : list Product.t
}.

(** [fetchProducts]; [fetch_error] says whether the query comes back with
    an error. The result is the state and the toasts raised. *)
Definition fetchProducts (fetch_error : bool) (s : State) : State * list Notice :=
  if fetch_error then
    (mk (products s) (editingId s) (editingStock s) false (stats s) (rows s),
     [ErrorLoadingProducts])
  else
    (mk (rows s) (editingId s) (editingStock s) false (calculate_stats (rows s)) (rows s),
     []).

Definition handleEditStock (product : Product.t) (s : State) : State :=
  mk (products s) (Some (Product.id product)) (Product.stock product)
     (isLoading s) (stats s) (rows s).

(** The [onChange] of the stock input. *)
Definition setEditingStock (value : Z) (s : State) : State :=
  mk (products s) (editingId s) value (isLoading s) (stats s) (rows s).

(** [{ ...row, stock }] *)
Definition with_stock (stock : Z) (row : Product.t) : Product.t :=
  Product.mk (Product.id row) (Product.name row) (Product.price row) (Product.image row)
             stock (Product.category row) (Product.description row).

(** [update({ stock }).eq('id', productId)] on the rows. *)
Definition update_rows (productId : string) (stock : Z) (table : list Product.t)
  : list Product.t :=
  (λ row, if decide (Product.id row = productId) then with_stock stock row else row) <$> table.

(** [handleSaveStock]; [save_error] says whether the update comes back
    with an error, [fetch_error] whether the refresh that follows does. *)
Definition handleSaveStock (save_error fetch_error : bool) (productId : string) (s : State)
  : State * list Notice :=
  if save_error then (s, [UpdateFailed])
  else
    let s1 := mk (products s) None (editingStock s) (isLoading s) (stats s)
                 (update_rows productId (editingStock s) (rows s)) in
    let '(s2, notices) := fetchProducts fetch_error s1 in
    (s2, StockUpdated :: notices).

Definition handleCancelEdit (s : State) : State :=
  mk (products s) None 0 (isLoading s) (stats s) (rows s).
End VendorDashboard.

(** ** More sample data *)
Module Case.
(** The stock write of P2 fails. *)
Definition P2_write_fails : Faults :=
  mkFaults (λ _, false) (λ id, bool_decide (id = "P2"%string)) false.

(** Two of P1 and one of P2 in the cart; five and three in stock. *)
Definition two_lines : Checkout.State :=
  Sample.page [Sample.line_P1 2; Sample.line_P2 1] {[ "P1"%string := 5; "P2"%string := 3 ]}.

(** A cart page showing two of P1 and one of P2, saved. *)
Definition cart_page : Cart.State :=
  Cart.mk [Sample.line_P1 2; Sample.line_P2 1] (Some [Sample.line_P1 2; Sample.line_P2 1]).

(** P1 at a new price and stock, as a later fetch of the product shows it. *)
Definition P1_repriced : Product.t := Product.mk "P1" "Rose bouquet" 12 "" 1 "Groceries" "".

Definition phone : Product.t :=
  Product.mk "E1" "Smart Phone" 299 "" 12 "Electronics" "A phone with a CAMERA".
Definition shirt : Product.t :=
  Product.mk "C1" "T-Shirt" 15 "" 0 "Clothing" "Cotton shirt".
Definition tea : Product.t :=
  Product.mk "G1" "Green tea" 4 "" 7 "Groceries" "Loose leaves".

(** The vendor dashboard showing the three products, nothing being edited. *)
Definition dashboard : VendorDashboard.State :=
  VendorDashboard.mk [shirt; tea; phone] None 0 false
    (VendorDashboard.calculate_stats [shirt; tea; phone]) [shirt; tea; phone].

(** The dashboard after the stock of the tea was edited to 9 and saved: the
    editor is closed and still holds the 9. *)
Definition dashboard_after_save : VendorDashboard.State :=
  (VendorDashboard.handleSaveStock false false "G1"
     (VendorDashboard.setEditingStock 9 (VendorDashboard.handleEditStock tea dashboard))).1.
End Case.

(** ** Tactics *)

(** Unfolding the monad at a state. *)
Ltac run :=
  unfold mbind, M_bind, bind, mret, M_ret, ret, get, modify, toast, navigate, emit, throw;
  cbn beta iota zeta.

(** Closing an equation between two runs: traces up to associativity. *)
Ltac same_run :=
  cbn [fst snd]; rewrite <- ?app_assoc; cbn [app]; rewrite ?app_nil_r;
  rewrite <- ?app_assoc; cbn [app]; reflexivity.

(** An order insert among the last events of a trace is the one of the attempt. *)
Ltac in_tail H :=
  repeat (apply elem_of_cons in H as [H|H];
          [first [discriminate H | injection H as ->; reflexivity]|]);
  inversion H.

(** * Properties *)

(** ** Running handlers *)

Lemma mbind_normal {S A B} (m : M S A) (f : A → M S B) s a s1 t1 :
  m s = (Normal a, s1, t1) →
  (m ≫= f) s = (let '(r, s2, t2) := f a s1 in (r, s2, t1 ++ t2)).
Proof. intros Hm. unfold mbind, M_bind, bind. rewrite Hm. reflexivity. Qed.

Lemma mbind_throw {S A B} (m : M S A) (f : A → M S B) s s1 t1 :
  m s = (Throw, s1, t1) → (m ≫= f) s = (Throw, s1, t1).
Proof. intros Hm. unfold mbind, M_bind, bind. rewrite Hm. reflexivity. Qed.

Lemma mapM_run {S A B} (f : A → M S B) (g : A → B) (h : A → list Event) l s :
  (∀ x s, f x s = (Normal (g x), s, h x)) →
  mapM f l s = (Normal (g <$> l), s, l ≫= h).
Proof.
  intros Hf. induction l as [|x l IH]; [reflexivity|].
  cbn [mapM]. rewrite (mbind_normal _ _ _ _ _ _ (Hf x s)).
  rewrite (mbind_normal _ _ _ _ _ _ IH). cbn. rewrite app_nil_r. reflexivity.
Qed.

(** ** The cart page *)

Lemma updateQuantity_run itemId newQuantity s :
  1 ≤ newQuantity →
  Cart.updateQuantity itemId newQuantity s =
    (Normal tt,
     Cart.mk (updated_line itemId newQuantity <$> Cart.cartItems s)
             (Some (updated_line itemId newQuantity <$> Cart.cartItems s)),
     (Cart.cartItems s ≫= capped_signal itemId newQuantity) ++ []).
Proof.
  intros Hq. unfold Cart.updateQuantity.
  destruct (Z.ltb_spec newQuantity 1) as [?|_]; [lia|].
  erewrite (mbind_normal get); [|reflexivity].
  erewrite mbind_normal.
  - reflexivity.
  - apply (mapM_run _ (updated_line itemId newQuantity) (capped_signal itemId newQuantity)).
    intros item s'. unfold updated_line, capped_signal.
    destruct (decide (CartItem.id item = itemId)); [|reflexivity].
    destruct (CartItem.stock item <? newQuantity); reflexivity.
Qed.

Lemma removeFromCart_run itemId s :
  Cart.removeFromCart itemId s =
    (Normal tt,
     Cart.mk (filter (λ item, CartItem.id item ≠ itemId) (Cart.cartItems s))
             (Some (filter (λ item, CartItem.id item ≠ itemId) (Cart.cartItems s))),
     [ev_toast ItemRemoved]).
Proof. reflexivity. Qed.

Lemma updateQuantity_below itemId newQuantity s :
  newQuantity < 1 →
  Cart.updateQuantity itemId newQuantity s = Cart.removeFromCart itemId s.
Proof.
  intros Hlt. unfold Cart.updateQuantity.
  destruct (Z.ltb_spec newQuantity 1); [reflexivity|lia].
Qed.

(** C7. For every cart and product id: setting a quantity below 1 is
    [removeFromCart] of that id (same cart, same stored cart, same toast),
    which keeps exactly the lines of the other ids; setting a quantity of
    at least 1 that exceeds the stock snapshot of a line of that id sets
    that line's quantity to the snapshot and raises the "Stock limit
    reached" toast; otherwise it sets the line's quantity to the requested
    one, and without a line over its snapshot no such toast is raised. *)
Theorem C7_updateQuantity_removes_clamps_or_sets
    (s : Cart.State) (itemId : string) (newQuantity : Z) :
  (newQuantity < 1 →
     Cart.updateQuantity itemId newQuantity s = Cart.removeFromCart itemId s ∧
     ∀ item, item ∈ Cart.cartItems (final (Cart.updateQuantity itemId newQuantity s)) ↔
             item ∈ Cart.cartItems s ∧ CartItem.id item ≠ itemId) ∧
  (1 ≤ newQuantity →
     (∀ (i : nat) item,
        Cart.cartItems s !! i = Some item → CartItem.id item = itemId →
        (CartItem.stock item < newQuantity →
           Cart.cartItems (final (Cart.updateQuantity itemId newQuantity s)) !! i
             = Some (CartItem.with_quantity (CartItem.stock item) item) ∧
           ev_toast (StockLimitReached (CartItem.stock item))
             ∈ trace (Cart.updateQuantity itemId newQuantity s)) ∧
        (newQuantity ≤ CartItem.stock item →
           Cart.cartItems (final (Cart.updateQuantity itemId newQuantity s)) !! i
             = Some (CartItem.with_quantity newQuantity item))) ∧
     ((∀ item, item ∈ Cart.cartItems s → CartItem.id item = itemId →
               newQuantity ≤ CartItem.stock item) →
      trace (Cart.updateQuantity itemId newQuantity s) = [])) ∧
  Cart.localStorage (final (Cart.updateQuantity itemId newQuantity s))
    = Some (Cart.cartItems (final (Cart.updateQuantity itemId newQuantity s))).
Proof.
  split; [|split].
  - intros Hlt. pose proof (updateQuantity_below itemId newQuantity s Hlt) as Heq.
    split; [exact Heq|]. intros item. rewrite Heq, removeFromCart_run. cbn.
    rewrite list_elem_of_filter. tauto.
  - intros Hge. rewrite updateQuantity_run by exact Hge. cbn. split.
    + intros i item Hi Hid. split.
      * intros Hover. split.
        -- rewrite list_lookup_fmap, Hi. cbn. unfold updated_line.
           rewrite decide_True by exact Hid.
           destruct (Z.ltb_spec (CartItem.stock item) newQuantity); [reflexivity|lia].
        -- rewrite app_nil_r. apply list_elem_of_bind. exists item. split.
           ++ unfold capped_signal. rewrite decide_True by exact Hid.
              destruct (Z.ltb_spec (CartItem.stock item) newQuantity); [|lia].
              apply list_elem_of_singleton. reflexivity.
           ++ apply list_elem_of_lookup. eauto.
      * intros Hin. rewrite list_lookup_fmap, Hi. cbn. unfold updated_line.
        rewrite decide_True by exact Hid.
        destruct (Z.ltb_spec (CartItem.stock item) newQuantity); [lia|reflexivity].
    + intros Hall. rewrite app_nil_r.
      induction (Cart.cartItems s) as [|item l IH]; [reflexivity|].
      cbn. rewrite IH.
      * rewrite app_nil_r. unfold capped_signal.
        destruct (decide (CartItem.id item = itemId)) as [Hid|]; [|reflexivity].
        destruct (Z.ltb_spec (CartItem.stock item) newQuantity); [|reflexivity].
        specialize (Hall item (list_elem_of_here _ _) Hid). lia.
      * intros item' Hin. apply Hall. apply list_elem_of_further, Hin.
  - destruct (Z_lt_le_dec newQuantity 1) as [Hlt|Hge].
    + rewrite updateQuantity_below by exact Hlt. reflexivity.
    + rewrite updateQuantity_run by exact Hge. reflexivity.
Qed.

Lemma C7_witness :
  (CartStore.setQuantity "P1" 0 (Some [Sample.line_P1 2; Sample.line_P2 1])
     = CartStore.removeItem "P1" (Some [Sample.line_P1 2; Sample.line_P2 1])) ∧
  Cart.cartItems (final (Cart.updateQuantity "P1" 9
      (Cart.mk [Sample.line_P1 2; Sample.line_P2 1] None))) !! 0%nat
    = Some (Sample.line_P1 5) ∧
  Cart.cartItems (final (Cart.updateQuantity "P1" 4
      (Cart.mk [Sample.line_P1 2; Sample.line_P2 1] None))) !! 0%nat
    = Some (Sample.line_P1 4).
Proof.
  split; [|split].
  - unfold CartStore.setQuantity, CartStore.removeItem.
    destruct (C7_updateQuantity_removes_clamps_or_sets
                (CartStore.cart_page (Some [Sample.line_P1 2; Sample.line_P2 1])) "P1" 0)
      as [Hrem _].
    destruct Hrem as [-> _]; [lia|reflexivity].
  - destruct (C7_updateQuantity_removes_clamps_or_sets
                (Cart.mk [Sample.line_P1 2; Sample.line_P2 1] None) "P1" 9)
      as (_ & Hset & _).
    destruct (Hset ltac:(lia)) as [Hline _].
    destruct (Hline 0%nat (Sample.line_P1 2) eq_refl eq_refl) as [Hcap _].
    destruct Hcap as [-> _]; [cbn; lia|reflexivity].
  - destruct (C7_updateQuantity_removes_clamps_or_sets
                (Cart.mk [Sample.line_P1 2; Sample.line_P2 1] None) "P1" 4)
      as (_ & Hset & _).
    destruct (Hset ltac:(lia)) as [Hline _].
    destruct (Hline 0%nat (Sample.line_P1 2) eq_refl eq_refl) as [_ Hexact].
    rewrite Hexact; [reflexivity|cbn; lia].
Defined.

(** C10. For every cart, product id and quantity of at least 1,
    [updateQuantity] keeps the number of lines and leaves every line whose
    id differs from the targeted one as it was, at its place. *)
Theorem C10_updateQuantity_leaves_other_lines
    (s : Cart.State) (itemId : string) (newQuantity : Z) :
  1 ≤ newQuantity →
  length (Cart.cartItems (final (Cart.updateQuantity itemId newQuantity s)))
    = length (Cart.cartItems s) ∧
  ∀ (i : nat) item,
    Cart.cartItems s !! i = Some item →
    CartItem.id item ≠ itemId →
    Cart.cartItems (final (Cart.updateQuantity itemId newQuantity s)) !! i = Some item.
Proof.
  intros Hge. rewrite updateQuantity_run by exact Hge. cbn. split.
  - apply length_fmap.
  - intros i item Hi Hid. rewrite list_lookup_fmap, Hi. cbn.
    unfold updated_line. rewrite decide_False by exact Hid. reflexivity.
Qed.

Lemma C10_witness :
  Cart.cartItems (final (Cart.updateQuantity "P1" 9
      (Cart.mk [Sample.line_P1 2; Sample.line_P2 1] None))) !! 1%nat
    = Some (Sample.line_P2 1).
Proof.
  apply (C10_updateQuantity_leaves_other_lines
           (Cart.mk [Sample.line_P1 2; Sample.line_P2 1] None) "P1" 9).
  - lia.
  - reflexivity.
  - cbn. discriminate.
Defined.

(** ** Adding to the cart *)

Lemma findIndex_absent {A} (p : A → bool) l :
  (∀ x, x ∈ l → p x = false) → findIndex p l = -1.
Proof.
  induction l as [|x l IH]; intros Hall; [reflexivity|].
  cbn. rewrite (Hall x) by apply list_elem_of_here.
  rewrite IH; [reflexivity|]. intros y Hy. apply Hall, list_elem_of_further, Hy.
Qed.

Lemma findIndex_unique cart pid (i : nat) line :
  NoDup (CartItem.id <$> cart) →
  cart !! i = Some line →
  CartItem.id line = pid →
  findIndex (λ item, bool_decide (CartItem.id item = pid)) cart = Z.of_nat i.
Proof.
  revert i. induction cart as [|x l IH]; intros i Hnd Hi Hid; [discriminate|].
  rewrite fmap_cons in Hnd. apply NoDup_cons in Hnd as [Hx Hnd].
  destruct i as [|j]; cbn in Hi |- *.
  - injection Hi as ->. rewrite bool_decide_eq_true_2 by exact Hid. reflexivity.
  - rewrite bool_decide_eq_false_2.
    + rewrite (IH j Hnd Hi Hid). destruct (Z.eqb_spec (Z.of_nat j) (-1)); lia.
    + intros Hxid. apply Hx. rewrite Hxid, <- Hid.
      apply list_elem_of_fmap_2. apply list_elem_of_lookup. eauto.
Qed.

Lemma addItem_run product qty storage :
  CartStore.addItem product qty storage =
    let cart := parse_cart_or_empty storage in
    let i := findIndex (λ item, bool_decide (CartItem.id item = Product.id product)) cart in
    Some (if -1 <? i
          then alter (λ item, CartItem.with_quantity (CartItem.quantity item + qty) item)
                     (Z.to_nat i) cart
          else cart ++ [CartItem.of_product product qty]).
Proof. reflexivity. Qed.

(** The add-to-cart button of a product card adds one, as the product page
    does with its quantity at 1. *)
Lemma addOne_addItem product storage :
  CartStore.addOne product storage = CartStore.addItem product 1 storage.
Proof. reflexivity. Qed.

Lemma addItem_new product qty storage :
  (∀ line, line ∈ parse_cart_or_empty storage → CartItem.id line ≠ Product.id product) →
  CartStore.addItem product qty storage
    = Some (parse_cart_or_empty storage ++ [CartItem.of_product product qty]).
Proof.
  intros Hnew. rewrite addItem_run. cbn zeta.
  rewrite findIndex_absent; [reflexivity|].
  intros line Hline. apply bool_decide_eq_false_2, Hnew, Hline.
Qed.

Lemma addItem_existing product qty cart (i : nat) line :
  NoDup (CartItem.id <$> cart) →
  cart !! i = Some line →
  CartItem.id line = Product.id product →
  CartStore.addItem product qty (Some cart)
    = Some (alter (λ item, CartItem.with_quantity (CartItem.quantity item + qty) item) i cart).
Proof.
  intros Hnd Hi Hid. rewrite addItem_run.
  change (parse_cart_or_empty (Some cart)) with cart. cbn zeta.
  rewrite (findIndex_unique cart _ i line Hnd Hi Hid).
  destruct (Z.ltb_spec (-1) (Z.of_nat i)); [|lia].
  rewrite Nat2Z.id. reflexivity.
Qed.

Lemma findIndex_cases cart pid :
  (findIndex (λ item, bool_decide (CartItem.id item = pid)) cart = -1 ∧
   ∀ line, line ∈ cart → CartItem.id line ≠ pid) ∨
  (∃ (i : nat) line,
     findIndex (λ item, bool_decide (CartItem.id item = pid)) cart = Z.of_nat i ∧
     cart !! i = Some line ∧ CartItem.id line = pid).
Proof.
  induction cart as [|x l IH]; [left; split; [reflexivity|]; intros ? H; inversion H|].
  cbn. destruct (decide (CartItem.id x = pid)) as [Hx|Hx].
  - right. exists 0%nat, x. rewrite bool_decide_eq_true_2 by exact Hx. auto.
  - rewrite bool_decide_eq_false_2 by exact Hx.
    destruct IH as [[-> Hall]|(i & line & -> & Hi & Hid)].
    + left. split; [reflexivity|]. intros line Hline.
      apply elem_of_cons in Hline as [->|Hline]; auto.
    + right. exists (S i), line. destruct (Z.eqb_spec (Z.of_nat i) (-1)); [lia|].
      split; [lia|]. auto.
Qed.

Lemma addItem_well_formed product qty storage :
  1 ≤ qty →
  well_formed (parse_cart_or_empty storage) →
  well_formed (parse_cart_or_empty (CartStore.addItem product qty storage)).
Proof.
  intros Hqty [Hnd Hpos]. rewrite addItem_run. cbn zeta.
  set (cart := parse_cart_or_empty storage) in *.
  destruct (findIndex_cases cart (Product.id product))
    as [[-> Hall]|(i & line & -> & Hi & Hid)]; cbn [parse_cart_or_empty].
  - cbn. split.
    + rewrite fmap_app. apply NoDup_app. split; [exact Hnd|]. split.
      * intros x Hx Hx'. cbn in Hx'. apply list_elem_of_singleton in Hx'. subst x.
        apply list_elem_of_fmap in Hx as (line & Hid & Hline).
        apply (Hall line Hline). symmetry. exact Hid.
      * cbn. apply NoDup_singleton.
    + intros line Hline. apply elem_of_app in Hline as [Hline|Hline]; [auto|].
      apply list_elem_of_singleton in Hline. subst line. cbn. lia.
  - destruct (Z.ltb_spec (-1) (Z.of_nat i)); [|lia]. rewrite Nat2Z.id. split.
    + rewrite (list_fmap_alter _ _ (λ x, x)); [|apply Forall_true; reflexivity].
      rewrite list_alter_id; [exact Hnd|]. reflexivity.
    + intros line' Hline'. apply list_elem_of_lookup in Hline' as [j Hj].
      destruct (decide (i = j)) as [<-|Hij].
      * rewrite list_lookup_alter_eq, Hi in Hj. injection Hj as <-. cbn.
        assert (1 ≤ CartItem.quantity line); [|lia].
        apply Hpos, list_elem_of_lookup. eauto.
      * rewrite list_lookup_alter_ne in Hj by exact Hij.
        apply Hpos, list_elem_of_lookup. eauto.
Qed.

(** The cart page keeps the ids of the lines distinct as well. *)
Lemma setQuantity_NoDup id qty cart :
  NoDup (CartItem.id <$> cart) →
  NoDup (CartItem.id <$> parse_cart_or_empty (CartStore.setQuantity id qty (Some cart))).
Proof.
  intros Hnd. unfold CartStore.setQuantity.
  change (CartStore.cart_page (Some cart)) with (Cart.mk cart (Some cart)).
  destruct (Z_lt_le_dec qty 1) as [Hlt|Hge].
  - rewrite updateQuantity_below by exact Hlt. rewrite removeFromCart_run. cbn.
    apply (sublist_NoDup _ _ Hnd). apply fmap_sublist, sublist_filter.
  - rewrite updateQuantity_run by exact Hge. cbn.
    rewrite <- list_fmap_compose.
    erewrite list_fmap_ext; [exact Hnd|]. intros i item _. cbn. unfold updated_line.
    destruct (decide (CartItem.id item = id)); [|reflexivity].
    destruct (CartItem.stock item <? qty); reflexivity.
Qed.

(** C8. For every cart with distinct line ids, every product and every
    added quantity: when the cart has a line for the product and the old
    quantity plus the added one is at least 1 (as it is for a positive line
    quantity and an added quantity that is not negative) and at most the
    line's stock snapshot, [addItem] leaves the same stored cart as
    [setQuantity] to the old quantity plus the added one; when the cart has
    no line for the product, [addItem] appends a line holding each of the
    product's fields (id, name, price, image, stock, category and
    description) and the added quantity. *)
Theorem C8_addItem_existing_is_setQuantity
    (cart : list CartItem.t) (product : Product.t) (qty : Z) :
  NoDup (CartItem.id <$> cart) →
  (∀ line, line ∈ cart → CartItem.id line = Product.id product →
     1 ≤ CartItem.quantity line + qty ≤ CartItem.stock line →
     CartStore.addItem product qty (Some cart)
       = CartStore.setQuantity (Product.id product) (CartItem.quantity line + qty) (Some cart)) ∧
  ((∀ line, line ∈ cart → CartItem.id line ≠ Product.id product) →
     CartStore.addItem product qty (Some cart)
       = Some (cart ++ [CartItem.mk (Product.id product) (Product.name product)
                                    (Product.price product) (Product.image product)
                                    (Product.stock product) (Product.category product)
                                    (Product.description product) qty])) ∧
  CartStore.addItem product qty None
    = Some [CartItem.mk (Product.id product) (Product.name product)
                        (Product.price product) (Product.image product)
                        (Product.stock product) (Product.category product)
                        (Product.description product) qty].
Proof.
  intros Hnd. split; [|split].
  - intros line Hline Hid [Hlo Hhi].
    apply list_elem_of_lookup in Hline as [i Hi].
    rewrite (addItem_existing product qty cart i line Hnd Hi Hid).
    unfold CartStore.setQuantity.
    change (CartStore.cart_page (Some cart)) with (Cart.mk cart (Some cart)).
    rewrite updateQuantity_run by exact Hlo. cbn. f_equal.
    apply list_eq. intros j. rewrite list_lookup_fmap.
    destruct (decide (i = j)) as [<-|Hij].
    + rewrite list_lookup_alter_eq, Hi. cbn. unfold updated_line.
      rewrite decide_True by exact Hid.
      destruct (Z.ltb_spec (CartItem.stock line) (CartItem.quantity line + qty)); [lia|reflexivity].
    + rewrite list_lookup_alter_ne by exact Hij.
      destruct (cart !! j) as [other|] eqn:Hj; [|reflexivity]. cbn.
      unfold updated_line. rewrite decide_False; [reflexivity|].
      intros Hother. apply Hij.
      apply (NoDup_lookup (CartItem.id <$> cart) i j (Product.id product) Hnd).
      * rewrite list_lookup_fmap, Hi. cbn. congruence.
      * rewrite list_lookup_fmap, Hj. cbn. congruence.
  - intros Hnew. apply (addItem_new product qty (Some cart)). exact Hnew.
  - reflexivity.
Qed.

Lemma C8_witness :
  CartStore.addItem Sample.P1 2 (Some [Sample.line_P2 1; Sample.line_P1 3])
    = CartStore.setQuantity "P1" 5 (Some [Sample.line_P2 1; Sample.line_P1 3]) ∧
  CartStore.addItem Sample.P1 2 (Some [Sample.line_P2 1])
    = Some [Sample.line_P2 1; CartItem.mk "P1" "Rose bouquet" 10 "" 5 "Groceries" "" 2].
Proof.
  assert (Hnd : NoDup (CartItem.id <$> [Sample.line_P2 1; Sample.line_P1 3])).
  { cbn. apply NoDup_cons. split; [|apply NoDup_singleton].
    intros Hin. apply list_elem_of_singleton in Hin. discriminate. }
  assert (Hnd' : NoDup (CartItem.id <$> [Sample.line_P2 1])).
  { apply NoDup_singleton. }
  split.
  - destruct (C8_addItem_existing_is_setQuantity
                [Sample.line_P2 1; Sample.line_P1 3] Sample.P1 2 Hnd) as [Hsame _].
    apply (Hsame (Sample.line_P1 3)).
    + apply list_elem_of_further, list_elem_of_here.
    + reflexivity.
    + cbn. lia.
  - destruct (C8_addItem_existing_is_setQuantity
                [Sample.line_P2 1] Sample.P1 2 Hnd') as (_ & Hnew & _).
    apply Hnew. intros line Hline. apply list_elem_of_singleton in Hline. subst line.
    cbn. discriminate.
Defined.

Lemma addItems_well_formed adds storage :
  (∀ add : Product.t * Z, add ∈ adds → 1 ≤ add.2) →
  well_formed (parse_cart_or_empty storage) →
  well_formed (parse_cart_or_empty (CartStore.addItems adds storage)).
Proof.
  revert storage. induction adds as [|add adds IH]; intros storage Hadds Hwf; [exact Hwf|].
  cbn. apply IH.
  - intros add' Hadd'. apply Hadds, list_elem_of_further, Hadd'.
  - apply addItem_well_formed; [|exact Hwf]. apply Hadds, list_elem_of_here.
Qed.

(** The quantity of the product page stays at least 1 under its buttons. *)
Lemma quantity_selector_positive s :
  1 ≤ ProductDetail.quantity s →
  1 ≤ ProductDetail.quantity (final (ProductDetail.decrement s)) ∧
  1 ≤ ProductDetail.quantity (final (ProductDetail.increment s)).
Proof.
  intros Hq. split.
  - unfold ProductDetail.decrement, mbind, M_bind, bind, get.
    destruct (ProductDetail.quantity s <=? 1); [exact Hq|].
    change (1 ≤ Z.max 1 (ProductDetail.quantity s - 1)). lia.
  - unfold ProductDetail.increment, mbind, M_bind, bind, get.
    destruct (ProductDetail.product s) as [p|]; [|exact Hq].
    destruct (Z.ltb_spec 0 (Product.stock p)); [|exact Hq].
    destruct (Product.stock p <=? ProductDetail.quantity s); [exact Hq|].
    change (1 ≤ Z.min (Product.stock p) (ProductDetail.quantity s + 1)). lia.
Qed.

(** C9, as the code has it. After any sequence of [addItem] operations that
    each add at least 1, started from a cart whose lines have distinct ids
    and quantities of at least 1 (the empty cart is one), the lines still
    have distinct ids and quantities of at least 1. [addItem] puts no cap
    on a quantity: on a line of the product it leaves the old quantity plus
    the added one, whatever the stock snapshot. The snapshot caps the
    quantity in [updateQuantity]: after [updateQuantity] with a quantity of
    at least 1, the quantity of every line of the targeted id is at most
    that line's stock snapshot. *)
Theorem C9_addItems_positive_updateQuantity_caps :
  (∀ adds storage,
     (∀ add : Product.t * Z, add ∈ adds → 1 ≤ add.2) →
     well_formed (parse_cart_or_empty storage) →
     NoDup (CartItem.id <$> parse_cart_or_empty (CartStore.addItems adds storage)) ∧
     ∀ line, line ∈ parse_cart_or_empty (CartStore.addItems adds storage) →
             1 ≤ CartItem.quantity line) ∧
  (∀ cart product qty (i : nat) line,
     NoDup (CartItem.id <$> cart) →
     cart !! i = Some line →
     CartItem.id line = Product.id product →
     parse_cart_or_empty (CartStore.addItem product qty (Some cart)) !! i
       = Some (CartItem.with_quantity (CartItem.quantity line + qty) line)) ∧
  (∀ s itemId newQuantity,
     1 ≤ newQuantity →
     ∀ line, line ∈ Cart.cartItems (final (Cart.updateQuantity itemId newQuantity s)) →
             CartItem.id line = itemId →
             CartItem.quantity line ≤ CartItem.stock line).
Proof.
  split; [|split].
  - intros adds storage Hadds Hwf. exact (addItems_well_formed adds storage Hadds Hwf).
  - intros cart product qty i line Hnd Hi Hid.
    rewrite (addItem_existing product qty cart i line Hnd Hi Hid). cbn.
    rewrite list_lookup_alter_eq, Hi. reflexivity.
  - intros s itemId newQuantity Hge line Hline Hid.
    rewrite updateQuantity_run in Hline by exact Hge. cbn in Hline.
    apply list_elem_of_fmap in Hline as (item & -> & _).
    unfold updated_line in *.
    destruct (decide (CartItem.id item = itemId)) as [_|Hne]; [|contradiction].
    destruct (Z.ltb_spec (CartItem.stock item) newQuantity); cbn; lia.
Qed.

Lemma C9_witness :
  (∀ line, line ∈ parse_cart_or_empty
                    (CartStore.addItems [(Sample.P2, 1); (Sample.P1, 2); (Sample.P2, 1)] None) →
           1 ≤ CartItem.quantity line) ∧
  parse_cart_or_empty (CartStore.addItem Sample.P2 1 (Some [Sample.line_P2 1])) !! 0%nat
    = Some (Sample.line_P2 2) ∧
  (∀ line, line ∈ Cart.cartItems (final (Cart.updateQuantity "P2" 2
                    (Cart.mk [Sample.line_P2 2; Sample.line_P1 2] None))) →
           CartItem.id line = "P2" → CartItem.quantity line ≤ CartItem.stock line).
Proof.
  destruct C9_addItems_positive_updateQuantity_caps as (Hadd & Hsum & Hcap).
  split; [|split].
  - apply (Hadd [(Sample.P2, 1); (Sample.P1, 2); (Sample.P2, 1)] None).
    + intros add Hadds. repeat (apply elem_of_cons in Hadds as [->|Hadds]; [cbn; lia|]).
      inversion Hadds.
    + split; [apply NoDup_nil_2|]. intros line Hline. inversion Hline.
  - apply (Hsum [Sample.line_P2 1] Sample.P2 1 0%nat (Sample.line_P2 1)).
    + apply NoDup_singleton.
    + reflexivity.
    + reflexivity.
  - apply Hcap. lia.
Defined.

(** C9 as stated fails: two clicks on the add-to-cart button of a product
    with a stock of 1 leave a line of quantity 2 over a snapshot of 1. *)
Lemma C9_counterexample :
  ¬ (∀ line, line ∈ parse_cart_or_empty
                      (CartStore.addOne Sample.P2 (CartStore.addOne Sample.P2 None)) →
             CartItem.quantity line ≤ CartItem.stock line).
Proof.
  intros Hcap. specialize (Hcap (Sample.line_P2 2)).
  cbn in Hcap. assert (2 ≤ 1); [|lia]. apply Hcap, list_elem_of_here.
Qed.

(** ** The checkout page: running [handlePlaceOrder] *)

Lemma validateForm_from_run fields s :
  Checkout.validateForm_from fields s =
    let ok := forallb (λ field, truthy (trim (ShippingInfo.get field (Checkout.shippingInfo s))))
                      fields in
    (Normal ok, s, if ok then [] else [ev_toast MissingInformation]).
Proof.
  induction fields as [|field fields IH]; [reflexivity|].
  cbn [Checkout.validateForm_from forallb].
  erewrite (mbind_normal get); [|reflexivity].
  destruct (truthy (trim (ShippingInfo.get field (Checkout.shippingInfo s)))); cbn [negb andb].
  - rewrite IH. cbn zeta.
    destruct (forallb _ fields); reflexivity.
  - reflexivity.
Qed.

Lemma validateForm_run s :
  Checkout.validateForm s =
    (Normal (Attempt.filled s), s,
     if Attempt.filled s then [] else [ev_toast MissingInformation]).
Proof. apply validateForm_from_run. Qed.

Lemma checkStock_run faults item s :
  Checkout.checkStock faults item s =
    (from_option Normal Throw (Attempt.observe faults (Checkout.products s) item),
     s, [ev_select_stock (CartItem.id item)]).
Proof.
  unfold Checkout.checkStock, Checkout.select_stock, Attempt.observe. run.
  destruct (select_error faults (CartItem.id item)); [reflexivity|].
  destruct (Checkout.products s !! CartItem.id item); reflexivity.
Qed.

Lemma stockChecks_run faults cart s :
  Checkout.stockChecks faults cart s =
    (from_option Normal Throw (Attempt.observed faults (Checkout.products s) cart),
     s, Attempt.reads cart).
Proof.
  unfold Checkout.stockChecks, Attempt.observed.
  induction cart as [|item cart IH]; [reflexivity|].
  cbn [fmap list_fmap Promise_all]. rewrite checkStock_run.
  change (list_fmap _ _ (Checkout.checkStock faults) cart)
    with (Checkout.checkStock faults <$> cart).
  rewrite IH. cbn [mapM].
  destruct (Attempt.observe faults (Checkout.products s) item); [|reflexivity].
  cbn. destruct (mapM _ cart); reflexivity.
Qed.

Lemma updateStock_run faults checks item s :
  Checkout.updateStock faults checks item s =
    (if update_error faults (CartItem.id item) then Throw else Normal tt,
     if update_error faults (CartItem.id item) then s
     else Checkout.with_products
            (alter (λ _, Attempt.newStock checks item) (CartItem.id item)) s,
     [ev_update_stock (CartItem.id item) (Attempt.newStock checks item)]).
Proof.
  unfold Checkout.updateStock, Checkout.update_stock. run.
  destruct (update_error faults (CartItem.id item)); reflexivity.
Qed.

Lemma stockUpdates_run faults checks cart s :
  Checkout.stockUpdates faults checks cart s =
    (if Attempt.write_failed faults cart then Throw else Normal ((λ _, tt) <$> cart),
     Checkout.with_products (Attempt.written faults checks cart) s,
     Attempt.writes checks cart).
Proof.
  unfold Checkout.stockUpdates. revert s.
  induction cart as [|item cart IH]; intros s; [destruct s; reflexivity|].
  cbn [fmap list_fmap Promise_all]. rewrite updateStock_run.
  change (list_fmap _ _ (Checkout.updateStock faults checks) cart)
    with (Checkout.updateStock faults checks <$> cart).
  rewrite IH. clear IH.
  unfold Checkout.with_products, Attempt.written, Attempt.write_failed, Attempt.writes.
  destruct (update_error faults (CartItem.id item)) eqn:Herr;
    cbn; rewrite Herr; cbn; [reflexivity|].
  destruct (existsb _ cart); reflexivity.
Qed.

Lemma handlePlaceOrder_run faults interleaved s u :
  Attempt.filled s = true →
  Checkout.user s = Some u →
  Checkout.handlePlaceOrder faults interleaved s =
    (Normal tt, (Attempt.outcome faults interleaved u s).1,
                (Attempt.outcome faults interleaved u s).2).
Proof.
  intros Hfilled Huser. unfold Checkout.handlePlaceOrder.
  erewrite mbind_normal; [|apply validateForm_run]. rewrite Hfilled. cbn [negb].
  erewrite (mbind_normal get); [|reflexivity]. rewrite Huser.
  unfold try_catch_finally, Attempt.outcome, Checkout.setIsProcessing,
    Checkout.other_sessions, Checkout.insert_order, Checkout.localStorage_removeItem.
  run. rewrite stockChecks_run.
  change (Checkout.products (Checkout.with_isProcessing true s)) with (Checkout.products s).
  destruct (Attempt.observed faults (Checkout.products s) (Checkout.cartItems s))
    as [checks|]; cbn [from_option]; [|same_run].
  destruct (0 <? length (Checkout.outOfStock checks))%nat; [same_run|].
  rewrite stockUpdates_run.
  destruct (Attempt.write_failed faults (Checkout.cartItems s)); [same_run|].
  destruct (insert_error faults); same_run.
Qed.

Lemma handlePlaceOrder_invalid faults interleaved s :
  Attempt.filled s = false →
  Checkout.handlePlaceOrder faults interleaved s = (Normal tt, s, [ev_toast MissingInformation]).
Proof.
  intros Hblank. unfold Checkout.handlePlaceOrder.
  erewrite mbind_normal; [|apply validateForm_run]. rewrite Hblank. reflexivity.
Qed.

Lemma handlePlaceOrder_signed_out faults interleaved s :
  Attempt.filled s = true →
  Checkout.user s = None →
  Checkout.handlePlaceOrder faults interleaved s = (Normal tt, s, []).
Proof.
  intros Hfilled Huser. unfold Checkout.handlePlaceOrder.
  erewrite mbind_normal; [|apply validateForm_run]. rewrite Hfilled. cbn [negb].
  erewrite (mbind_normal get); [|reflexivity]. rewrite Huser. reflexivity.
Qed.

Lemma validateForm_filled s :
  completion (Checkout.validateForm s) = Normal true ↔ Attempt.filled s = true.
Proof.
  rewrite validateForm_run. unfold completion. cbn. split; [intros [= ->]|intros ->]; reflexivity.
Qed.

Lemma stockChecks_observed faults cart s checks :
  completion (Checkout.stockChecks faults cart s) = Normal checks ↔
  Attempt.observed faults (Checkout.products s) cart = Some checks.
Proof.
  rewrite stockChecks_run. unfold completion. cbn.
  destruct (Attempt.observed faults (Checkout.products s) cart); cbn; split; congruence.
Qed.

Lemma observed_checked faults stock cart checks :
  Attempt.observed faults stock cart = Some checks →
  Forall2 (checked stock) cart checks.
Proof.
  unfold Attempt.observed. intros Hobs. apply mapM_Some in Hobs.
  eapply Forall2_impl; [exact Hobs|]. intros item check. unfold Attempt.observe, checked.
  destruct (select_error faults (CartItem.id item)); [discriminate|].
  destruct (stock !! CartItem.id item) as [v|]; [|discriminate].
  cbn. intros [= <-]. cbn. auto.
Qed.

Lemma outOfStock_nonempty checks :
  (0 <? length (Checkout.outOfStock checks))%nat = true ↔ Checkout.outOfStock checks ≠ [].
Proof.
  destruct (Checkout.outOfStock checks); cbn; split; intros H; congruence.
Qed.

Lemma currentStock_of_checked stock cart checks item v :
  Forall2 (checked stock) cart checks →
  item ∈ cart →
  stock !! CartItem.id item = Some v →
  Checkout.currentStock_of checks item = v.
Proof.
  intros Hchecked Hitem Hv. unfold Checkout.currentStock_of.
  induction Hchecked as [|first check cart checks (Hid & _ & Hstock) _ IH]; [inversion Hitem|].
  cbn [find]. destruct (decide (StockCheck.id check = CartItem.id item)) as [Heq|Hne].
  - rewrite bool_decide_eq_true_2 by exact Heq. cbn.
    assert (StockCheck.currentStock check = v) as -> by congruence.
    destruct (Z.eqb_spec v 0); congruence.
  - rewrite bool_decide_eq_false_2 by exact Hne.
    apply elem_of_cons in Hitem as [->|Hitem]; [congruence|]. apply IH, Hitem.
Qed.

Lemma written_other faults checks cart stock id :
  id ∉ CartItem.id <$> cart →
  Attempt.written faults checks cart stock !! id = stock !! id.
Proof.
  unfold Attempt.written. revert stock.
  induction cart as [|item cart IH]; intros stock Hid; [reflexivity|].
  rewrite fmap_cons in Hid. apply not_elem_of_cons in Hid as [Hne Hid].
  cbn [fold_left]. rewrite IH by exact Hid.
  destruct (update_error faults (CartItem.id item)); [reflexivity|].
  apply lookup_alter_ne. congruence.
Qed.

Lemma written_line faults checks cart stock item :
  NoDup (CartItem.id <$> cart) →
  item ∈ cart →
  update_error faults (CartItem.id item) = false →
  is_Some (stock !! CartItem.id item) →
  Attempt.written faults checks cart stock !! CartItem.id item
    = Some (Attempt.newStock checks item).
Proof.
  revert stock. induction cart as [|first cart IH]; intros stock Hnd Hitem Herr Hrow;
    [inversion Hitem|].
  rewrite fmap_cons in Hnd. apply NoDup_cons in Hnd as [Hfirst Hnd].
  change (Attempt.written faults checks (first :: cart) stock)
    with (Attempt.written faults checks cart
            (if update_error faults (CartItem.id first) then stock
             else alter (λ _, Attempt.newStock checks first) (CartItem.id first) stock)).
  apply elem_of_cons in Hitem as [->|Hitem].
  - rewrite written_other by exact Hfirst. rewrite Herr.
    rewrite lookup_alter_eq. destruct Hrow as [v ->]. reflexivity.
  - apply IH; [exact Hnd|exact Hitem|exact Herr|].
    destruct (update_error faults (CartItem.id first)); [exact Hrow|].
    rewrite lookup_alter_ne; [exact Hrow|].
    intros Heq. apply Hfirst. rewrite Heq. apply list_elem_of_fmap_2, Hitem.
Qed.

Lemma reads_no_write cart e : e ∈ Attempt.reads cart → ¬ is_write e.
Proof.
  unfold Attempt.reads. intros He. apply list_elem_of_fmap in He as (item & -> & _).
  cbn. tauto.
Qed.

(** ** Verification *)

(** C1. When the stock reads of a cart all come back, with [checks]: there
    is one check per line, holding the line's id and quantity and the stock
    the backend has for it; the shortage list [outOfStock checks] holds
    exactly the checks whose requested quantity exceeds the observed stock,
    so it is non-empty exactly when some line asks for more than the stock
    observed for it; and when it is non-empty the attempt of a signed-in
    user with a valid form ends right after the reads with the "Stock
    unavailable" toast: no stock write and no order insert follow. *)
Theorem C1_verification_reports_exactly_the_shortages
    (faults : Faults) (interleaved : gmap string Z → gmap string Z)
    (s : Checkout.State) (checks : list StockCheck.t) :
  completion (Checkout.stockChecks faults (Checkout.cartItems s) s) = Normal checks →
  Forall2 (checked (Checkout.products s)) (Checkout.cartItems s) checks ∧
  (∀ check, check ∈ Checkout.outOfStock checks ↔
            check ∈ checks ∧ StockCheck.requestedQty check > StockCheck.currentStock check) ∧
  (Checkout.outOfStock checks ≠ [] ↔
     ∃ item stock, item ∈ Checkout.cartItems s ∧
                   Checkout.products s !! CartItem.id item = Some stock ∧
                   CartItem.quantity item > stock) ∧
  (Checkout.outOfStock checks ≠ [] →
   completion (Checkout.validateForm s) = Normal true →
   is_Some (Checkout.user s) →
   trace (Checkout.handlePlaceOrder faults interleaved s)
     = [ev_setIsProcessing true]
         ++ ((λ item, ev_select_stock (CartItem.id item)) <$> Checkout.cartItems s)
         ++ [ev_toast StockUnavailable; ev_setIsProcessing false]).
Proof.
  intros Hchecks. apply stockChecks_observed in Hchecks.
  pose proof (observed_checked _ _ _ _ Hchecks) as Hall.
  assert (Hmem : ∀ check, check ∈ Checkout.outOfStock checks ↔
            check ∈ checks ∧ StockCheck.requestedQty check > StockCheck.currentStock check).
  { intros check. unfold Checkout.outOfStock. rewrite list_elem_of_filter.
    split; intros [? ?]; split; auto; lia. }
  split; [exact Hall|]. split; [exact Hmem|]. split.
  - split.
    + intros Hne.
      assert (∃ check, check ∈ Checkout.outOfStock checks) as [check Hcheck].
      { clear Hmem. destruct (Checkout.outOfStock checks) as [|check rest]; [done|].
        exists check. apply list_elem_of_here. }
      apply Hmem in Hcheck as [Hin Hshort].
      apply list_elem_of_lookup in Hin as [i Hi].
      destruct (Forall2_lookup_r _ _ _ _ _ Hall Hi) as (item & Hitem & _ & Hqty & Hstock).
      exists item, (StockCheck.currentStock check). split; [|split].
      * apply list_elem_of_lookup. eauto.
      * exact Hstock.
      * lia.
    + intros (item & stock & Hitem & Hstock & Hshort).
      apply list_elem_of_lookup in Hitem as [i Hi].
      destruct (Forall2_lookup_l _ _ _ _ _ Hall Hi) as (check & Hcheck & _ & Hqty & Hstock').
      assert (Hin : check ∈ Checkout.outOfStock checks).
      { apply Hmem. split; [apply list_elem_of_lookup; eauto|].
        assert (StockCheck.currentStock check = stock) by congruence. lia. }
      intros Hnil. rewrite Hnil in Hin. inversion Hin.
  - intros Hne Hvalid [u Huser]. apply validateForm_filled in Hvalid.
    rewrite (handlePlaceOrder_run faults interleaved s u Hvalid Huser).
    unfold trace, Attempt.outcome. cbn [snd]. rewrite Hchecks.
    apply outOfStock_nonempty in Hne. rewrite Hne. reflexivity.
Qed.

(** C3. When the verification of a signed-in user's attempt with a valid
    form reports a shortage, the attempt writes nothing: the trace has no
    stock write and no order insert, and the stock column, the orders, the
    stored cart and the cart of the page are as they were. *)
Theorem C3_shortage_aborts_without_side_effects
    (faults : Faults) (interleaved : gmap string Z → gmap string Z)
    (s : Checkout.State) (checks : list StockCheck.t) :
  completion (Checkout.validateForm s) = Normal true →
  is_Some (Checkout.user s) →
  completion (Checkout.stockChecks faults (Checkout.cartItems s) s) = Normal checks →
  Checkout.outOfStock checks ≠ [] →
  (∀ e, e ∈ trace (Checkout.handlePlaceOrder faults interleaved s) → ¬ is_write e) ∧
  Checkout.products (final (Checkout.handlePlaceOrder faults interleaved s)) = Checkout.products s ∧
  Checkout.orders (final (Checkout.handlePlaceOrder faults interleaved s)) = Checkout.orders s ∧
  Checkout.localStorage (final (Checkout.handlePlaceOrder faults interleaved s))
    = Checkout.localStorage s ∧
  Checkout.cartItems (final (Checkout.handlePlaceOrder faults interleaved s))
    = Checkout.cartItems s.
Proof.
  intros Hvalid [u Huser] Hchecks Hne.
  apply validateForm_filled in Hvalid. apply stockChecks_observed in Hchecks.
  apply outOfStock_nonempty in Hne.
  rewrite (handlePlaceOrder_run faults interleaved s u Hvalid Huser).
  unfold trace, final, Attempt.outcome. cbn [fst snd]. rewrite Hchecks, Hne. cbn [fst snd].
  split; [|auto].
  intros e He. apply elem_of_cons in He as [->|He]; [cbn; tauto|].
  apply elem_of_app in He as [He|He]; [exact (reads_no_write _ _ He)|].
  repeat (apply elem_of_cons in He as [->|He]; [cbn; tauto|]). inversion He.
Qed.

(** ** Commit *)

Lemma outOfStock_empty checks :
  Checkout.outOfStock checks = [] → (0 <? length (Checkout.outOfStock checks))%nat = false.
Proof. intros ->. reflexivity. Qed.

Lemma committed_products faults interleaved s u checks :
  Attempt.filled s = true →
  Checkout.user s = Some u →
  Attempt.observed faults (Checkout.products s) (Checkout.cartItems s) = Some checks →
  Checkout.outOfStock checks = [] →
  Checkout.products (final (Checkout.handlePlaceOrder faults interleaved s))
    = Attempt.written faults checks (Checkout.cartItems s) (interleaved (Checkout.products s)).
Proof.
  intros Hfilled Huser Hobs Hnone.
  rewrite (handlePlaceOrder_run faults interleaved s u Hfilled Huser).
  unfold final, Attempt.outcome. cbn [fst]. rewrite Hobs, (outOfStock_empty _ Hnone).
  destruct (Attempt.write_failed faults (Checkout.cartItems s)); [reflexivity|].
  destruct (insert_error faults); reflexivity.
Qed.

Lemma committed_line faults interleaved s u checks item stock :
  Attempt.filled s = true →
  Checkout.user s = Some u →
  Attempt.observed faults (Checkout.products s) (Checkout.cartItems s) = Some checks →
  Checkout.outOfStock checks = [] →
  NoDup (CartItem.id <$> Checkout.cartItems s) →
  item ∈ Checkout.cartItems s →
  Checkout.products s !! CartItem.id item = Some stock →
  update_error faults (CartItem.id item) = false →
  is_Some (interleaved (Checkout.products s) !! CartItem.id item) →
  Checkout.products (final (Checkout.handlePlaceOrder faults interleaved s)) !! CartItem.id item
    = Some (stock - CartItem.quantity item).
Proof.
  intros Hfilled Huser Hobs Hnone Hnd Hitem Hstock Herr Hrow.
  rewrite (committed_products faults interleaved s u checks) by assumption.
  rewrite written_line by assumption. unfold Attempt.newStock.
  rewrite (currentStock_of_checked (Checkout.products s) (Checkout.cartItems s) checks item stock);
    [reflexivity| |assumption|assumption].
  eapply observed_checked, Hobs.
Qed.

Lemma writes_from_verification stock cart checks :
  Forall2 (checked stock) cart checks →
  Forall2 (λ item e, ∃ v, stock !! CartItem.id item = Some v ∧
                          e = ev_update_stock (CartItem.id item) (v - CartItem.quantity item))
          cart (Attempt.writes checks cart).
Proof.
  intros Hall. unfold Attempt.writes. apply Forall2_fmap_r, Forall_Forall2_diag.
  apply Forall_forall. intros item Hitem.
  apply list_elem_of_lookup in Hitem as [i Hi].
  destruct (Forall2_lookup_l _ _ _ _ _ Hall Hi) as (check & _ & _ & _ & Hstock).
  exists (StockCheck.currentStock check). split; [exact Hstock|].
  unfold Attempt.newStock.
  rewrite (currentStock_of_checked stock cart checks item (StockCheck.currentStock check));
    [reflexivity|exact Hall| |exact Hstock].
  apply list_elem_of_lookup. eauto.
Qed.

(** C2. When the verification of a signed-in user's attempt with a valid
    form reports no shortage, the trace of the attempt is: the stock reads;
    then one stock write per line, in the order of the cart, each setting
    the product's stock to the stock read for it at verification minus the
    line's quantity; then the rest, which holds no stock write and is either
    the failure of a stock write, or the order insert followed by its
    failure, or the order insert followed by success. So the one order
    insert, if any, comes after all stock writes. The write is an overwrite:
    for a cart with distinct ids, whatever other sessions did to the stock
    in between, a line whose write succeeded on an existing row leaves the
    stock at the value read at verification minus the quantity. *)
Theorem C2_stock_writes_recomputed_from_verification
    (faults : Faults) (interleaved : gmap string Z → gmap string Z)
    (s : Checkout.State) (u : User.t) (checks : list StockCheck.t) :
  completion (Checkout.validateForm s) = Normal true →
  Checkout.user s = Some u →
  completion (Checkout.stockChecks faults (Checkout.cartItems s) s) = Normal checks →
  Checkout.outOfStock checks = [] →
  (∃ writes rest,
     trace (Checkout.handlePlaceOrder faults interleaved s)
       = [ev_setIsProcessing true]
           ++ ((λ item, ev_select_stock (CartItem.id item)) <$> Checkout.cartItems s)
           ++ writes ++ rest ∧
     Forall2 (λ item e, ∃ stock,
                Checkout.products s !! CartItem.id item = Some stock ∧
                e = ev_update_stock (CartItem.id item) (stock - CartItem.quantity item))
             (Checkout.cartItems s) writes ∧
     (rest = [ev_console_error; ev_toast OrderFailed; ev_setIsProcessing false] ∨
      rest = [ev_insert_order (Checkout.orderData u s);
              ev_console_error; ev_toast OrderFailed; ev_setIsProcessing false] ∨
      rest = [ev_insert_order (Checkout.orderData u s);
              ev_toast OrderPlaced; ev_navigate "/"; ev_setIsProcessing false])) ∧
  (NoDup (CartItem.id <$> Checkout.cartItems s) →
   ∀ item stock,
     item ∈ Checkout.cartItems s →
     Checkout.products s !! CartItem.id item = Some stock →
     update_error faults (CartItem.id item) = false →
     is_Some (interleaved (Checkout.products s) !! CartItem.id item) →
     Checkout.products (final (Checkout.handlePlaceOrder faults interleaved s)) !! CartItem.id item
       = Some (stock - CartItem.quantity item)).
Proof.
  intros Hvalid Huser Hchecks Hnone.
  apply validateForm_filled in Hvalid. apply stockChecks_observed in Hchecks. split.
  - exists (Attempt.writes checks (Checkout.cartItems s)).
    rewrite (handlePlaceOrder_run faults interleaved s u Hvalid Huser).
    unfold trace, Attempt.outcome. cbn [snd]. rewrite Hchecks, (outOfStock_empty _ Hnone).
    pose proof (writes_from_verification _ _ _ (observed_checked _ _ _ _ Hchecks)) as Hwrites.
    destruct (Attempt.write_failed faults (Checkout.cartItems s));
      [|destruct (insert_error faults)]; eexists; (split; [reflexivity|]); (split; [exact Hwrites|]);
      auto.
  - intros Hnd item stock Hitem Hstock Herr Hrow.
    apply (committed_line faults interleaved s u checks); assumption.
Qed.

(** C4. When the verification of a signed-in user's attempt with a valid
    form reports no shortage, every stock write succeeds and the order
    insert fails: the attempt ends in the "Order failed" toast right after
    the insert; no order is recorded and the stored cart is kept; and the
    stock column is the one the attempt would leave had the insert
    succeeded, so the writes stay: for a cart with distinct ids, each line
    present in the table is left at the stock read at verification minus
    its quantity. *)
Theorem C4_failed_insert_keeps_stock_writes
    (faults : Faults) (interleaved : gmap string Z → gmap string Z)
    (s : Checkout.State) (u : User.t) (checks : list StockCheck.t) :
  completion (Checkout.validateForm s) = Normal true →
  Checkout.user s = Some u →
  completion (Checkout.stockChecks faults (Checkout.cartItems s) s) = Normal checks →
  Checkout.outOfStock checks = [] →
  (∀ item, item ∈ Checkout.cartItems s → update_error faults (CartItem.id item) = false) →
  insert_error faults = true →
  (∃ before,
     trace (Checkout.handlePlaceOrder faults interleaved s)
       = before ++ [ev_insert_order (Checkout.orderData u s);
                    ev_console_error; ev_toast OrderFailed; ev_setIsProcessing false]) ∧
  Checkout.orders (final (Checkout.handlePlaceOrder faults interleaved s)) = Checkout.orders s ∧
  Checkout.localStorage (final (Checkout.handlePlaceOrder faults interleaved s))
    = Checkout.localStorage s ∧
  Checkout.products (final (Checkout.handlePlaceOrder faults interleaved s))
    = Checkout.products (final (Checkout.handlePlaceOrder (insert_succeeds faults) interleaved s)) ∧
  (NoDup (CartItem.id <$> Checkout.cartItems s) →
   ∀ item stock,
     item ∈ Checkout.cartItems s →
     Checkout.products s !! CartItem.id item = Some stock →
     is_Some (interleaved (Checkout.products s) !! CartItem.id item) →
     Checkout.products (final (Checkout.handlePlaceOrder faults interleaved s)) !! CartItem.id item
       = Some (stock - CartItem.quantity item)).
Proof.
  intros Hvalid Huser Hchecks Hnone Hwrites Hinsert.
  apply validateForm_filled in Hvalid. apply stockChecks_observed in Hchecks.
  assert (Hok : Attempt.write_failed faults (Checkout.cartItems s) = false).
  { unfold Attempt.write_failed. apply not_true_is_false. intros Hex.
    apply existsb_exists in Hex as (item & Hitem & Herr).
    apply list_elem_of_In in Hitem. rewrite (Hwrites item Hitem) in Herr. discriminate. }
  split; [|split; [|split; [|split]]].
  - rewrite (handlePlaceOrder_run faults interleaved s u Hvalid Huser).
    unfold trace, Attempt.outcome. cbn [snd].
    rewrite Hchecks, (outOfStock_empty _ Hnone), Hok, Hinsert.
    exists ([ev_setIsProcessing true] ++ Attempt.reads (Checkout.cartItems s)
              ++ Attempt.writes checks (Checkout.cartItems s)).
    rewrite <- !app_assoc. reflexivity.
  - rewrite (handlePlaceOrder_run faults interleaved s u Hvalid Huser).
    unfold final, Attempt.outcome. cbn [fst].
    rewrite Hchecks, (outOfStock_empty _ Hnone), Hok, Hinsert. reflexivity.
  - rewrite (handlePlaceOrder_run faults interleaved s u Hvalid Huser).
    unfold final, Attempt.outcome. cbn [fst].
    rewrite Hchecks, (outOfStock_empty _ Hnone), Hok, Hinsert. reflexivity.
  - rewrite (committed_products faults interleaved s u checks) by assumption.
    rewrite (committed_products (insert_succeeds faults) interleaved s u checks);
      [reflexivity|assumption..].
  - intros Hnd item stock Hitem Hstock Hrow.
    apply (committed_line faults interleaved s u checks); auto.
Qed.

(** ** The guards of the place-order action *)

Lemma truthy_nonempty x : truthy x = true ↔ x ≠ ""%string.
Proof. destruct x; cbn; split; congruence. Qed.

Lemma filled_all_fields s :
  Attempt.filled s = true ↔
  ∀ field, trim (ShippingInfo.get field (Checkout.shippingInfo s)) ≠ ""%string.
Proof.
  unfold Attempt.filled. rewrite forallb_forall. split.
  - intros Hall field. apply truthy_nonempty, Hall.
    unfold Checkout.required. destruct field; cbn; tauto.
  - intros Hall field _. apply truthy_nonempty, Hall.
Qed.

Lemma handlePlaceOrder_cartItems faults interleaved s :
  Checkout.cartItems (final (Checkout.handlePlaceOrder faults interleaved s))
    = Checkout.cartItems s.
Proof.
  destruct (Attempt.filled s) eqn:Hfilled.
  - destruct (Checkout.user s) as [u|] eqn:Huser.
    + rewrite (handlePlaceOrder_run faults interleaved s u Hfilled Huser).
      unfold final, Attempt.outcome. cbn [fst].
      destruct (Attempt.observed _ _ _) as [checks|]; [|reflexivity].
      destruct (0 <? _)%nat; [reflexivity|].
      destruct (Attempt.write_failed _ _); [reflexivity|].
      destruct (insert_error faults); reflexivity.
    + rewrite handlePlaceOrder_signed_out by assumption. reflexivity.
  - rewrite handlePlaceOrder_invalid by assumption. reflexivity.
Qed.

Lemma mount_stays_cartItems session storage stock placed :
  stays (trace (Checkout.mount session (Checkout.initial storage stock placed))) →
  Checkout.cartItems (final (Checkout.mount session (Checkout.initial storage stock placed)))
    ≠ [].
Proof.
  intros Hstays. destruct storage as [[|item items]|].
  - exfalso. apply (Hstays "/cart"%string).
    destruct session; cbn; set_solver.
  - destruct session as [u|]; [cbn; discriminate|].
    exfalso. apply (Hstays "/login"%string). cbn. set_solver.
  - exfalso. apply (Hstays "/cart"%string).
    destruct session; cbn; set_solver.
Qed.

(** While the checkout page is on screen, its cart is not empty. *)
Lemma on_screen_cart_nonempty s : on_screen s → Checkout.cartItems s ≠ [].
Proof.
  induction 1 as [storage stock placed session Hstays
                 |s name value _ IH
                 |faults interleaved s _ IH _
                 |s storage stock placed _ IH].
  - apply mount_stays_cartItems, Hstays.
  - exact IH.
  - rewrite handlePlaceOrder_cartItems. exact IH.
  - exact IH.
Qed.

(** C5. The place-order action of a checkout page that is on screen sets
    the processing flag (leaves Idle) only when the cart is non-empty and
    none of the eight shipping fields is blank; and when a field is blank
    the action changes nothing in the state and does nothing but raise the
    "Missing information" toast: no stock read, no stock write, no order
    insert. The cart is non-empty because the page navigates away when it
    loads an empty or absent stored cart; the action itself checks the form
    and the signed-in user. *)
Theorem C5_place_order_is_guarded
    (faults : Faults) (interleaved : gmap string Z → gmap string Z) (s : Checkout.State) :
  (on_screen s →
   ev_setIsProcessing true ∈ trace (Checkout.handlePlaceOrder faults interleaved s) →
     Checkout.cartItems s ≠ [] ∧
     ∀ field, trim (ShippingInfo.get field (Checkout.shippingInfo s)) ≠ ""%string) ∧
  (∀ field, trim (ShippingInfo.get field (Checkout.shippingInfo s)) = ""%string →
     final (Checkout.handlePlaceOrder faults interleaved s) = s ∧
     trace (Checkout.handlePlaceOrder faults interleaved s) = [ev_toast MissingInformation]).
Proof.
  split.
  - intros Hscreen Hleft. split; [exact (on_screen_cart_nonempty s Hscreen)|].
    apply filled_all_fields.
    destruct (Attempt.filled s) eqn:Hfilled; [reflexivity|].
    rewrite handlePlaceOrder_invalid in Hleft by exact Hfilled.
    cbn in Hleft. apply list_elem_of_singleton in Hleft. discriminate.
  - intros field Hblank.
    assert (Hfilled : Attempt.filled s = false).
    { apply not_true_is_false. intros Hfilled.
      apply (proj1 (filled_all_fields s) Hfilled field), Hblank. }
    rewrite handlePlaceOrder_invalid by exact Hfilled. split; reflexivity.
Qed.

(** The action has no check of the cart of its own: run on a state that no
    mount leaves on screen, with an empty cart, it inserts an order with no
    line. *)
Example handlePlaceOrder_empty_cart_unchecked :
  trace (Checkout.handlePlaceOrder no_faults Sample.alone (Sample.page [] ∅))
    = [ev_setIsProcessing true;
       ev_insert_order (Order.mk "u1" [] (0 * (108 # 100))%Q "pending");
       ev_toast OrderPlaced; ev_navigate "/"; ev_setIsProcessing false].
Proof. reflexivity. Qed.

(** ** Totals *)

Lemma fold_left_subtotal cart (acc : Q) :
  (fold_left (λ total item, total + CartItem.price item * inject_Z (CartItem.quantity item))
             cart acc
   == acc + SpecTotals.subtotal cart)%Q.
Proof.
  revert acc. induction cart as [|item cart IH]; intros acc; cbn [fold_left SpecTotals.subtotal].
  - ring.
  - rewrite IH. ring.
Qed.

Lemma getTotalPrice_subtotal s :
  (Checkout.getTotalPrice s == SpecTotals.subtotal (Checkout.cartItems s))%Q.
Proof. unfold Checkout.getTotalPrice. rewrite fold_left_subtotal. ring. Qed.

Lemma inserted_order faults interleaved s o :
  ev_insert_order o ∈ trace (Checkout.handlePlaceOrder faults interleaved s) →
  ∃ u, Checkout.user s = Some u ∧ o = Checkout.orderData u s.
Proof.
  intros Ho. destruct (Attempt.filled s) eqn:Hfilled.
  - destruct (Checkout.user s) as [u|] eqn:Huser.
    + exists u. split; [reflexivity|].
      rewrite (handlePlaceOrder_run faults interleaved s u Hfilled Huser) in Ho.
      unfold trace, Attempt.outcome in Ho. cbn [snd] in Ho.
      assert (Hsplit : ∀ checks tail,
                ev_insert_order o ∈ [ev_setIsProcessing true]
                  ++ Attempt.reads (Checkout.cartItems s)
                  ++ Attempt.writes checks (Checkout.cartItems s) ++ tail →
                ev_insert_order o ∈ tail).
      { intros checks tail Hin.
        apply elem_of_cons in Hin as [Hin|Hin]; [discriminate|].
        apply elem_of_app in Hin as [Hin|Hin].
        { apply reads_no_write in Hin. cbn in Hin. tauto. }
        apply elem_of_app in Hin as [Hin|Hin]; [|exact Hin].
        unfold Attempt.writes in Hin. apply list_elem_of_fmap in Hin as (? & ? & _).
        discriminate. }
      assert (Hreads : ∀ tail,
                ev_insert_order o ∈ [ev_setIsProcessing true]
                  ++ Attempt.reads (Checkout.cartItems s) ++ tail →
                ev_insert_order o ∈ tail).
      { intros tail Hin. apply (Hsplit [] tail).
        apply elem_of_cons in Hin as [Hin|Hin]; [discriminate|]. apply list_elem_of_further.
        apply elem_of_app in Hin as [Hin|Hin]; apply elem_of_app; [left; exact Hin|right].
        apply elem_of_app. right. exact Hin. }
      destruct (Attempt.observed _ _ _) as [checks|].
      * destruct (0 <? _)%nat; [apply Hreads in Ho; in_tail Ho|].
        destruct (Attempt.write_failed _ _); [apply Hsplit in Ho; in_tail Ho|].
        destruct (insert_error faults); apply Hsplit in Ho; in_tail Ho.
      * apply Hreads in Ho. in_tail Ho.
    + rewrite handlePlaceOrder_signed_out in Ho by assumption. inversion Ho.
  - rewrite handlePlaceOrder_invalid in Ho by assumption.
    apply list_elem_of_singleton in Ho. discriminate.
Qed.

Lemma Qfloor_unique (x : Q) (n : Z) :
  (inject_Z n <= x)%Q → (x < inject_Z (n + 1))%Q → Qfloor x = n.
Proof.
  intros Hle Hlt.
  pose proof (Qfloor_resp_le _ _ Hle) as Hlow. rewrite Qfloor_Z in Hlow.
  assert (Hup : (Qfloor x < n + 1)%Z).
  { rewrite Zlt_Qlt. eapply Qle_lt_trans; [apply Qfloor_le|exact Hlt]. }
  lia.
Qed.

Lemma Qfloor_add_Z (c : Z) (y : Q) : Qfloor (inject_Z c + y) = (c + Qfloor y)%Z.
Proof.
  apply Qfloor_unique.
  - rewrite inject_Z_plus. apply Qplus_le_r, Qfloor_le.
  - replace (c + Qfloor y + 1)%Z with (c + (Qfloor y + 1))%Z by lia.
    rewrite inject_Z_plus. apply Qplus_lt_r, Qlt_floor.
Qed.

(** For a subtotal of a whole number of cents, the total line of the order
    summary is the subtotal plus the rounded tax. *)
Lemma summary_total_rounded s (cents : Z) :
  0 ≤ cents →
  (SpecTotals.subtotal (Checkout.cartItems s) == inject_Z cents / 100)%Q →
  (summary_total s == SpecTotals.total (Checkout.cartItems s))%Q.
Proof.
  intros Hpos Hcents.
  unfold summary_total, toFixed2, SpecTotals.total, SpecTotals.tax, SpecTotals.round2.
  assert (Hle : (0 <= Checkout.getTotalPrice s * (108 # 100))%Q).
  { rewrite getTotalPrice_subtotal, Hcents.
    apply Qmult_le_0_compat; [|discriminate].
    apply Qmult_le_0_compat; [|discriminate].
    rewrite Zle_Qle in Hpos. exact Hpos. }
  apply Qle_bool_iff in Hle. rewrite Hle.
  assert (Hfloor : Qfloor (Checkout.getTotalPrice s * (108 # 100) * 100 + (1 # 2))
                   = (cents + Qfloor (SpecTotals.subtotal (Checkout.cartItems s)
                                       * (8 # 100) * 100 + (1 # 2)))%Z).
  { rewrite <- Qfloor_add_Z. apply Qfloor_comp.
    rewrite getTotalPrice_subtotal, Hcents.
    generalize (inject_Z cents). intros q. field. }
  rewrite Hfloor.
  set (tax := Qfloor (SpecTotals.subtotal (Checkout.cartItems s) * (8 # 100) * 100 + (1 # 2))).
  rewrite Hcents, !Qmake_Qdiv, inject_Z_plus.
  generalize (inject_Z cents) (inject_Z tax). intros q t. field.
Qed.

(** The tax line in cents, for a subtotal of a whole number of cents. *)
Lemma summary_tax_cents s (cents : Z) :
  (SpecTotals.subtotal (Checkout.cartItems s) == inject_Z cents / 100)%Q →
  Qfloor (Checkout.getTotalPrice s * (8 # 100) * 100 + (1 # 2)) = (4 * cents + 25) / 50.
Proof.
  intros Hcents.
  rewrite (Qfloor_comp _ ((4 * cents + 25) # 50)); [reflexivity|].
  rewrite getTotalPrice_subtotal, Hcents, (Qmake_Qdiv (4 * cents + 25) 50),
    inject_Z_plus, inject_Z_mult.
  change (inject_Z 4) with 4%Q. change (inject_Z 25) with 25%Q.
  change (inject_Z (Z.pos 50)) with 50%Q.
  generalize (inject_Z cents). intros q. field.
Qed.

(** C6, as the code has it. The subtotal is a function of the cart of the
    page alone and is Σ price×qty. For a subtotal of a whole number of
    cents, the tax line of the order summary shows round(subtotal × 0.08,
    2 decimal places) and the total line shows the subtotal plus that tax;
    the rounding is never a tie: the tax shown is within 0.0048 of
    subtotal × 0.08. The total of every order the page inserts is the
    subtotal × 1.08 as computed, with no rounding step. *)
Theorem C6_recorded_total_is_unrounded
    (faults : Faults) (interleaved : gmap string Z → gmap string Z) (s : Checkout.State) :
  (Checkout.getTotalPrice s == SpecTotals.subtotal (Checkout.cartItems s))%Q ∧
  (∀ s', Checkout.cartItems s' = Checkout.cartItems s →
         Checkout.getTotalPrice s' = Checkout.getTotalPrice s) ∧
  (∀ cents : Z,
     0 ≤ cents →
     (SpecTotals.subtotal (Checkout.cartItems s) == inject_Z cents / 100)%Q →
     summary_tax s = SpecTotals.tax (Checkout.cartItems s) ∧
     (summary_total s == SpecTotals.total (Checkout.cartItems s))%Q ∧
     ∃ tax_cents : Z,
       (summary_tax s == inject_Z tax_cents / 100)%Q ∧
       (summary_total s == inject_Z (cents + tax_cents) / 100)%Q ∧
       100 * tax_cents - 48 ≤ 8 * cents ≤ 100 * tax_cents + 48) ∧
  (∀ o, ev_insert_order o ∈ trace (Checkout.handlePlaceOrder faults interleaved s) →
        (Order.total o == SpecTotals.subtotal (Checkout.cartItems s) * (108 # 100))%Q).
Proof.
  split; [apply getTotalPrice_subtotal|]. split; [|split].
  - intros s' Hcart. unfold Checkout.getTotalPrice. rewrite Hcart. reflexivity.
  - intros cents Hpos Hcents.
    assert (Htax : summary_tax s = SpecTotals.tax (Checkout.cartItems s)).
    { unfold summary_tax, toFixed2, SpecTotals.tax, SpecTotals.round2.
      assert (Hle : (0 <= Checkout.getTotalPrice s * (8 # 100))%Q).
      { rewrite getTotalPrice_subtotal, Hcents.
        apply Qmult_le_0_compat; [|discriminate].
        apply Qmult_le_0_compat; [|discriminate].
        rewrite Zle_Qle in Hpos. exact Hpos. }
      apply Qle_bool_iff in Hle. rewrite Hle. f_equal.
      apply Qfloor_comp. rewrite getTotalPrice_subtotal. reflexivity. }
    pose proof (summary_total_rounded s cents Hpos Hcents) as Htotal.
    split; [exact Htax|]. split; [exact Htotal|].
    exists ((4 * cents + 25) / 50).
    assert (Hshown : (summary_tax s == inject_Z ((4 * cents + 25) / 50) / 100)%Q).
    { unfold summary_tax, toFixed2.
      assert (Hle : (0 <= Checkout.getTotalPrice s * (8 # 100))%Q).
      { rewrite getTotalPrice_subtotal, Hcents.
        apply Qmult_le_0_compat; [|discriminate].
        apply Qmult_le_0_compat; [|discriminate].
        rewrite Zle_Qle in Hpos. exact Hpos. }
      apply Qle_bool_iff in Hle. rewrite Hle.
      rewrite (summary_tax_cents s cents Hcents). apply Qmake_Qdiv. }
    split; [exact Hshown|]. split.
    + rewrite Htotal. unfold SpecTotals.total. rewrite <- Htax, Hshown, Hcents, inject_Z_plus.
      generalize (inject_Z cents) (inject_Z ((4 * cents + 25) / 50)). intros q t. field.
    + pose proof (Z.div_mod (4 * cents + 25) 50 ltac:(lia)) as Hdiv.
      pose proof (Z.mod_pos_bound (4 * cents + 25) 50 ltac:(lia)) as Hmod.
      lia.
  - intros o Ho. apply inserted_order in Ho as (u & _ & ->).
    cbn [Checkout.orderData Order.total]. rewrite getTotalPrice_subtotal. reflexivity.
Qed.

Lemma C6_witness :
  summary_tax Sample.scenario_A = SpecTotals.tax [Sample.line_P1 2] ∧
  (summary_total Sample.scenario_A == SpecTotals.total [Sample.line_P1 2])%Q ∧
  (summary_tax Sample.scenario_A == 160 # 100)%Q ∧
  (summary_total Sample.scenario_A == 2160 # 100)%Q ∧
  (Order.total (Checkout.orderData Sample.customer Sample.scenario_A) == 216 # 10)%Q.
Proof.
  destruct (C6_recorded_total_is_unrounded no_faults Sample.alone Sample.scenario_A)
    as (_ & _ & Hshown & Htotal).
  destruct (Hshown 2000) as (Htax & Hsum & tax_cents & Htax_cents & Hsum_cents & Hclear);
    [lia|vm_compute; reflexivity|].
  assert (tax_cents = 160) as -> by lia.
  split; [exact Htax|]. split; [exact Hsum|].
  split; [rewrite Htax_cents; reflexivity|]. split; [rewrite Hsum_cents; reflexivity|].
  rewrite (Htotal (Checkout.orderData Sample.customer Sample.scenario_A)).
  - vm_compute. reflexivity.
  - vm_compute. do 3 apply list_elem_of_further. apply list_elem_of_here.
Defined.

(** C6 as stated fails: for a cart of one item at 0.99, the order is
    recorded with the total 1.0692, while the subtotal plus the tax rounded
    to two decimal places is 0.99 + 0.08 = 1.07. *)
Lemma C6_counterexample :
  ∃ o, Checkout.orders (final (Checkout.handlePlaceOrder no_faults Sample.alone Sample.one_card))
         = [o] ∧
       (Order.total o == 10692 # 10000)%Q ∧
       (SpecTotals.total (Checkout.cartItems Sample.one_card) == 107 # 100)%Q ∧
       ¬ (Order.total o == SpecTotals.total (Checkout.cartItems Sample.one_card))%Q.
Proof.
  eexists. split; [vm_compute; reflexivity|]. split; [reflexivity|]. split; [reflexivity|].
  intros Heq. vm_compute in Heq. discriminate.
Qed.

(** ** The scenarios of the specification, and the theorems at them *)

(** Scenario A: the checkout succeeds, the order total is 21.60 and the
    stock of P1 becomes 3. *)
Example scenario_A_succeeds :
  trace (Checkout.handlePlaceOrder no_faults Sample.alone Sample.scenario_A)
    = [ev_setIsProcessing true; ev_select_stock "P1"; ev_update_stock "P1" 3;
       ev_insert_order (Order.mk "u1" [Sample.line_P1 2] (2160 # 100) "pending");
       ev_toast OrderPlaced; ev_navigate "/"; ev_setIsProcessing false] ∧
  Checkout.products (final (Checkout.handlePlaceOrder no_faults Sample.alone Sample.scenario_A))
    !! "P1"%string = Some 3 ∧
  Checkout.localStorage (final (Checkout.handlePlaceOrder no_faults Sample.alone Sample.scenario_A))
    = None.
Proof. split; [|split]; vm_compute; reflexivity. Qed.

(** Scenario B: the checkout fails on the shortage of P1 (available 5,
    requested 10); no stock is written and no order is created. *)
Example scenario_B_fails :
  Checkout.outOfStock [StockCheck.mk "P1" 5 10] = [StockCheck.mk "P1" 5 10] ∧
  trace (Checkout.handlePlaceOrder no_faults Sample.alone Sample.scenario_B)
    = [ev_setIsProcessing true; ev_select_stock "P1";
       ev_toast StockUnavailable; ev_setIsProcessing false] ∧
  Checkout.products (final (Checkout.handlePlaceOrder no_faults Sample.alone Sample.scenario_B))
    !! "P1"%string = Some 5 ∧
  Checkout.orders (final (Checkout.handlePlaceOrder no_faults Sample.alone Sample.scenario_B))
    = [].
Proof. repeat split; vm_compute; reflexivity. Qed.

Lemma C1_witness :
  (Checkout.outOfStock [StockCheck.mk "P1" 5 2; StockCheck.mk "P2" 0 1] ≠ [] ↔
     ∃ item stock, item ∈ Checkout.cartItems Sample.scenario_C ∧
                   Checkout.products Sample.scenario_C !! CartItem.id item = Some stock ∧
                   CartItem.quantity item > stock) ∧
  trace (Checkout.handlePlaceOrder no_faults Sample.alone Sample.scenario_C)
    = [ev_setIsProcessing true; ev_select_stock "P1"; ev_select_stock "P2";
       ev_toast StockUnavailable; ev_setIsProcessing false].
Proof.
  destruct (C1_verification_reports_exactly_the_shortages no_faults Sample.alone
              Sample.scenario_C [StockCheck.mk "P1" 5 2; StockCheck.mk "P2" 0 1])
    as (_ & _ & Hiff & Habort).
  - vm_compute. reflexivity.
  - split; [exact Hiff|]. apply Habort.
    + vm_compute. discriminate.
    + vm_compute. reflexivity.
    + eexists. reflexivity.
Defined.

Lemma C3_witness :
  Checkout.products (final (Checkout.handlePlaceOrder no_faults Sample.alone Sample.scenario_C))
    = Checkout.products Sample.scenario_C ∧
  Checkout.orders (final (Checkout.handlePlaceOrder no_faults Sample.alone Sample.scenario_C))
    = [] ∧
  Checkout.localStorage (final (Checkout.handlePlaceOrder no_faults Sample.alone Sample.scenario_C))
    = Some [Sample.line_P1 2; Sample.line_P2 1].
Proof.
  destruct (C3_shortage_aborts_without_side_effects no_faults Sample.alone
              Sample.scenario_C [StockCheck.mk "P1" 5 2; StockCheck.mk "P2" 0 1])
    as (_ & Hproducts & Horders & Hstorage & _).
  - vm_compute. reflexivity.
  - eexists. reflexivity.
  - vm_compute. reflexivity.
  - vm_compute. discriminate.
  - split; [exact Hproducts|]. split; [exact Horders|exact Hstorage].
Defined.

Lemma C2_witness :
  Sample.rival_buys_one (Checkout.products Sample.scenario_A) !! "P1"%string = Some 4 ∧
  Checkout.products
    (final (Checkout.handlePlaceOrder no_faults Sample.rival_buys_one Sample.scenario_A))
    !! "P1"%string = Some (5 - 2).
Proof.
  split; [vm_compute; reflexivity|].
  destruct (C2_stock_writes_recomputed_from_verification no_faults Sample.rival_buys_one
              Sample.scenario_A Sample.customer [StockCheck.mk "P1" 5 2])
    as [_ Hline].
  - vm_compute. reflexivity.
  - reflexivity.
  - vm_compute. reflexivity.
  - vm_compute. reflexivity.
  - apply (Hline (NoDup_singleton _) (Sample.line_P1 2) 5).
    + apply list_elem_of_here.
    + vm_compute. reflexivity.
    + reflexivity.
    + exists 4. vm_compute. reflexivity.
Defined.

Lemma C4_witness :
  Checkout.orders (final (Checkout.handlePlaceOrder Sample.insert_fails Sample.alone
                            Sample.scenario_A)) = [] ∧
  Checkout.localStorage (final (Checkout.handlePlaceOrder Sample.insert_fails Sample.alone
                                  Sample.scenario_A)) = Some [Sample.line_P1 2] ∧
  Checkout.products (final (Checkout.handlePlaceOrder Sample.insert_fails Sample.alone
                              Sample.scenario_A)) !! "P1"%string = Some (5 - 2).
Proof.
  destruct (C4_failed_insert_keeps_stock_writes Sample.insert_fails Sample.alone
              Sample.scenario_A Sample.customer [StockCheck.mk "P1" 5 2])
    as (_ & Horders & Hstorage & _ & Hline).
  - vm_compute. reflexivity.
  - reflexivity.
  - vm_compute. reflexivity.
  - vm_compute. reflexivity.
  - intros item _. reflexivity.
  - reflexivity.
  - split; [exact Horders|]. split; [exact Hstorage|].
    apply (Hline (NoDup_singleton _) (Sample.line_P1 2) 5).
    + apply list_elem_of_here.
    + vm_compute. reflexivity.
    + exists 5. vm_compute. reflexivity.
Defined.

Lemma mounted_on_screen : on_screen Sample.mounted.
Proof.
  apply on_screen_mount. intros path Hpath. vm_compute in Hpath. inversion Hpath.
Qed.

Lemma filled_in_on_screen : on_screen Sample.filled_in.
Proof.
  unfold Sample.filled_in, Sample.typed. cbn [fold_left fst snd].
  do 7 apply on_screen_input. exact mounted_on_screen.
Qed.

Lemma C5_witness :
  (final (Checkout.handlePlaceOrder no_faults Sample.alone Sample.mounted) = Sample.mounted ∧
   trace (Checkout.handlePlaceOrder no_faults Sample.alone Sample.mounted)
     = [ev_toast MissingInformation]) ∧
  (Checkout.cartItems Sample.filled_in ≠ [] ∧
   ∀ field, trim (ShippingInfo.get field (Checkout.shippingInfo Sample.filled_in)) ≠ ""%string).
Proof.
  split.
  - destruct (C5_place_order_is_guarded no_faults Sample.alone Sample.mounted) as [_ Hblank].
    apply (Hblank ShippingInfo.Key.firstName). vm_compute. reflexivity.
  - destruct (C5_place_order_is_guarded no_faults Sample.alone Sample.filled_in) as [Hleft _].
    apply Hleft; [exact filled_in_on_screen|]. vm_compute. apply list_elem_of_here.
Defined.

(** * Further properties of the pages *)

(** ** Blank strings *)

Lemma trimStart_empty s : trimStart s = ""%string ↔ all_space s = true.
Proof.
  induction s as [|c s IH]; cbn; [tauto|].
  destruct (isWhiteSpace c); cbn; [exact IH|]. split; discriminate.
Qed.

Lemma all_space_trimStart s : all_space (trimStart s) = all_space s.
Proof.
  induction s as [|c s IH]; cbn; [reflexivity|].
  destruct (isWhiteSpace c) eqn:Hc; cbn; [exact IH|]. rewrite Hc. reflexivity.
Qed.

Lemma all_space_rev_app s acc :
  all_space (String.rev_app s acc) = all_space s && all_space acc.
Proof.
  revert acc. induction s as [|c s IH]; intros acc; cbn; [reflexivity|].
  rewrite IH. cbn. destruct (isWhiteSpace c), (all_space s); reflexivity.
Qed.

Lemma rev_app_empty s acc : String.rev_app s acc = ""%string → s = ""%string ∧ acc = ""%string.
Proof.
  revert acc. induction s as [|c s IH]; intros acc; cbn; [tauto|].
  intros Hrev. apply IH in Hrev as [_ Hacc]. discriminate.
Qed.

Lemma trim_empty s : trim s = ""%string ↔ all_space s = true.
Proof.
  unfold trim, trimEnd, String.rev. split.
  - intros Htrim. apply rev_app_empty in Htrim as [Htrim _].
    apply trimStart_empty in Htrim.
    rewrite all_space_rev_app, all_space_trimStart in Htrim.
    destruct (all_space s); [reflexivity|discriminate].
  - intros Hspace. apply trimStart_empty in Hspace. rewrite Hspace. reflexivity.
Qed.

Lemma truthy_trim s : truthy (trim s) = negb (all_space s).
Proof.
  destruct (all_space s) eqn:Hspace.
  - apply trim_empty in Hspace. rewrite Hspace. reflexivity.
  - destruct (trim s) eqn:Htrim; [|reflexivity].
    apply trim_empty in Htrim. congruence.
Qed.

(** ** The checkout form *)

Lemma isWhiteSpace_codes (c : ascii) :
  isWhiteSpace c = true ↔ nat_of_ascii c ∈ [9; 10; 11; 12; 13; 32; 160]%nat.
Proof.
  unfold isWhiteSpace. cbn zeta.
  rewrite !orb_true_iff, andb_true_iff, !Nat.leb_le, !Nat.eqb_eq.
  rewrite !elem_of_cons, elem_of_nil. lia.
Qed.

Lemma all_space_codes (s : string) :
  all_space s = true ↔
  ∀ c, c ∈ String.list_ascii_of_string s → nat_of_ascii c ∈ [9; 10; 11; 12; 13; 32; 160]%nat.
Proof.
  induction s as [|c s IH]; cbn [all_space String.list_ascii_of_string].
  - split; [|reflexivity]. intros _ c Hc. inversion Hc.
  - rewrite andb_true_iff, IH, isWhiteSpace_codes. split.
    + intros [Hc Hs] c' Hc'. apply elem_of_cons in Hc' as [->|Hc']; auto.
    + intros Hall. split; [apply Hall, list_elem_of_here|].
      intros c' Hc'. apply Hall, list_elem_of_further, Hc'.
Qed.

Lemma not_all_space_codes (s : string) :
  all_space s = false ↔
  ∃ c, c ∈ String.list_ascii_of_string s ∧ nat_of_ascii c ∉ [9; 10; 11; 12; 13; 32; 160]%nat.
Proof.
  induction s as [|c s IH]; cbn [all_space String.list_ascii_of_string].
  - split; [discriminate|]. intros (c & Hc & _). inversion Hc.
  - rewrite andb_false_iff, IH. split.
    + intros [Hc|(c' & Hc' & Hout)].
      * exists c. split; [apply list_elem_of_here|].
        intros Hin. apply isWhiteSpace_codes in Hin. congruence.
      * exists c'. split; [apply list_elem_of_further, Hc'|exact Hout].
    + intros (c' & Hc' & Hout). apply elem_of_cons in Hc' as [->|Hc'].
      * left. apply not_true_is_false. intros Hspace. apply Hout, isWhiteSpace_codes, Hspace.
      * right. exists c'. split; assumption.
Qed.

(** X1. [validateForm] never changes the state. For fields of code units
    below 256, white space is TAB, LF, VT, FF, CR, SPACE and NO-BREAK SPACE
    (code units 9-13, 32 and 160). When
    every required field has a character that is not white space, it
    answers true with no toast; as soon as one required field consists of
    white space only (the empty field included), it answers false with
    exactly one "Missing information" toast, however many are blank. *)
Theorem validateForm_white_space_is_missing (s : Checkout.State) :
  final (Checkout.validateForm s) = s ∧
  ((∀ field, ∃ c,
      c ∈ String.list_ascii_of_string (ShippingInfo.get field (Checkout.shippingInfo s)) ∧
      nat_of_ascii c ∉ [9; 10; 11; 12; 13; 32; 160]%nat) →
   completion (Checkout.validateForm s) = Normal true ∧
   trace (Checkout.validateForm s) = []) ∧
  (∀ field,
     (∀ c, c ∈ String.list_ascii_of_string (ShippingInfo.get field (Checkout.shippingInfo s)) →
           nat_of_ascii c ∈ [9; 10; 11; 12; 13; 32; 160]%nat) →
     completion (Checkout.validateForm s) = Normal false ∧
     trace (Checkout.validateForm s) = [ev_toast MissingInformation]).
Proof.
  rewrite validateForm_run. unfold final, completion, trace. cbn [fst snd].
  split; [reflexivity|]. split.
  - intros Hall. assert (Hfilled : Attempt.filled s = true).
    { apply filled_all_fields. intros field Hblank.
      apply trim_empty in Hblank. specialize (Hall field).
      apply not_all_space_codes in Hall. congruence. }
    rewrite Hfilled. split; reflexivity.
  - intros field Hspace. apply all_space_codes in Hspace.
    assert (Hfilled : Attempt.filled s = false).
    { apply not_true_is_false. intros Hfilled.
      apply (proj1 (filled_all_fields s) Hfilled field). apply trim_empty, Hspace. }
    rewrite Hfilled. split; reflexivity.
Qed.

(** X2. Typing into a field of the form sets that field to the typed value
    and leaves the other seven fields and the rest of the state as they
    were; it raises nothing, and typing twice into a field keeps the last
    value only. *)
Theorem handleInputChange_sets_one_field
    (s : Checkout.State) (name : ShippingInfo.Key.t) (value : string) :
  ShippingInfo.get name (Checkout.shippingInfo (final (Checkout.handleInputChange name value s)))
    = value ∧
  (∀ other, other ≠ name →
     ShippingInfo.get other (Checkout.shippingInfo (final (Checkout.handleInputChange name value s)))
       = ShippingInfo.get other (Checkout.shippingInfo s)) ∧
  final (Checkout.handleInputChange name value s)
    = Checkout.mk (Checkout.user s) (Checkout.cartItems s) (Checkout.isProcessing s)
        (Checkout.shippingInfo (final (Checkout.handleInputChange name value s)))
        (Checkout.localStorage s) (Checkout.products s) (Checkout.orders s) ∧
  trace (Checkout.handleInputChange name value s) = [] ∧
  (∀ earlier,
     final (Checkout.handleInputChange name value
              (final (Checkout.handleInputChange name earlier s)))
       = final (Checkout.handleInputChange name value s)).
Proof.
  split; [destruct name; reflexivity|]. split.
  - intros other Hother. destruct name, other; try reflexivity; contradiction.
  - split; [reflexivity|]. split; [reflexivity|].
    intros earlier. destruct name; reflexivity.
Qed.

(** ** Loading the checkout page *)

Lemma mount_trace session storage stock placed :
  trace (Checkout.mount session (Checkout.initial storage stock placed)) =
    match storage with
    | Some [] => [ev_toast EmptyCart; ev_navigate "/cart"]
    | Some (_ :: _) => []
    | None => [ev_navigate "/cart"]
    end ++
    match session with
    | Some _ => []
    | None => [ev_toast AuthenticationRequired; ev_navigate "/login"]
    end.
Proof. destruct storage as [[|item items]|], session; reflexivity. Qed.

(** X3. The checkout page stays on screen after its mount exactly when a
    session is present and the stored cart has at least one line. An empty
    stored cart sends the customer back to the cart with the "Empty cart"
    toast, an absent one without it; with neither session nor cart the page
    navigates twice, to the cart and then to the login. *)
Theorem mount_stays_iff_session_and_cart
    (session : option User.t) (storage : Storage) (stock : gmap string Z)
    (placed : list Order.t) :
  (stays (trace (Checkout.mount session (Checkout.initial storage stock placed))) ↔
     is_Some session ∧ ∃ item items, storage = Some (item :: items)) ∧
  (storage = Some [] →
     ev_toast EmptyCart ∈ trace (Checkout.mount session (Checkout.initial storage stock placed))) ∧
  (storage = None →
     (ev_toast EmptyCart ∉ trace (Checkout.mount session (Checkout.initial storage stock placed))) ∧
     (ev_navigate "/cart" ∈ trace (Checkout.mount session (Checkout.initial storage stock placed)))) ∧
  (session = None → storage = None →
     trace (Checkout.mount session (Checkout.initial storage stock placed))
       = [ev_navigate "/cart"; ev_toast AuthenticationRequired; ev_navigate "/login"]).
Proof.
  rewrite mount_trace. split; [|split; [|split]].
  - split.
    + intros Hstays. destruct storage as [[|item items]|].
      * exfalso. apply (Hstays "/cart"%string). apply list_elem_of_further, list_elem_of_here.
      * split; [|eauto]. destruct session; [eauto|].
        exfalso. apply (Hstays "/login"%string). apply list_elem_of_further, list_elem_of_here.
      * exfalso. apply (Hstays "/cart"%string). apply list_elem_of_here.
    + intros [[u ->] (item & items & ->)] path Hpath. inversion Hpath.
  - intros ->. apply list_elem_of_here.
  - intros ->. split; [|apply list_elem_of_here].
    intros Hin. apply elem_of_cons in Hin as [Hin|Hin]; [discriminate|].
    destruct session; [inversion Hin|].
    repeat (apply elem_of_cons in Hin as [Hin|Hin]; [discriminate|]). inversion Hin.
  - intros -> ->. reflexivity.
Qed.

(** X4. A freshly mounted checkout page never places an order: whatever
    the session, the stored cart and the backend, the place-order action on
    the state the mount leaves raises "Missing information" and changes
    nothing, because the mount fills in the email at most. *)
Theorem place_order_right_after_mount_is_refused
    (faults : Faults) (interleaved : gmap string Z → gmap string Z)
    (session : option User.t) (storage : Storage) (stock : gmap string Z)
    (placed : list Order.t) :
  Checkout.handlePlaceOrder faults interleaved
    (final (Checkout.mount session (Checkout.initial storage stock placed)))
  = (Normal tt, final (Checkout.mount session (Checkout.initial storage stock placed)),
     [ev_toast MissingInformation]).
Proof.
  apply handlePlaceOrder_invalid.
  destruct storage as [[|item items]|], session; reflexivity.
Qed.

(** ** The outcomes of a checkout attempt *)

Lemma observed_failed faults stock cart item :
  item ∈ cart →
  select_error faults (CartItem.id item) = true ∨ stock !! CartItem.id item = None →
  Attempt.observed faults stock cart = None.
Proof.
  intros Hitem Hfail. apply mapM_None_2, Exists_exists. exists item. split; [exact Hitem|].
  unfold Attempt.observe. destruct (select_error faults (CartItem.id item)); [reflexivity|].
  destruct Hfail as [Herr | ->]; [discriminate|reflexivity].
Qed.

Lemma written_failed_line faults checks cart stock item :
  NoDup (CartItem.id <$> cart) →
  item ∈ cart →
  update_error faults (CartItem.id item) = true →
  Attempt.written faults checks cart stock !! CartItem.id item = stock !! CartItem.id item.
Proof.
  revert stock. induction cart as [|first cart IH]; intros stock Hnd Hitem Herr;
    [inversion Hitem|].
  rewrite fmap_cons in Hnd. apply NoDup_cons in Hnd as [Hfirst Hnd].
  change (Attempt.written faults checks (first :: cart) stock)
    with (Attempt.written faults checks cart
            (if update_error faults (CartItem.id first) then stock
             else alter (λ _, Attempt.newStock checks first) (CartItem.id first) stock)).
  apply elem_of_cons in Hitem as [->|Hitem].
  - rewrite written_other by exact Hfirst. rewrite Herr. reflexivity.
  - rewrite IH by assumption.
    destruct (update_error faults (CartItem.id first)); [reflexivity|].
    apply lookup_alter_ne. intros Heq. apply Hfirst. rewrite Heq.
    apply list_elem_of_fmap_2, Hitem.
Qed.

Lemma write_failed_exists faults cart item :
  item ∈ cart → update_error faults (CartItem.id item) = true →
  Attempt.write_failed faults cart = true.
Proof.
  intros Hitem Herr. apply existsb_exists. exists item. split; [|exact Herr].
  apply list_elem_of_In, Hitem.
Qed.

Lemma write_failed_none faults cart :
  (∀ item, item ∈ cart → update_error faults (CartItem.id item) = false) →
  Attempt.write_failed faults cart = false.
Proof.
  intros Hok. apply not_true_is_false. intros Hex.
  apply existsb_exists in Hex as (item & Hitem & Herr).
  apply list_elem_of_In in Hitem. rewrite (Hok item Hitem) in Herr. discriminate.
Qed.

(** X5. When the form is valid, a user is signed in and the stock read of
    some line fails (the request errs, or the table has no row for the
    product), the attempt ends in "Order failed", not in "Stock
    unavailable": all reads are issued, nothing is written, and the stock
    column, the orders and the stored cart are as they were. *)
Theorem failed_stock_read_fails_the_order
    (faults : Faults) (interleaved : gmap string Z → gmap string Z)
    (s : Checkout.State) (item : CartItem.t) :
  completion (Checkout.validateForm s) = Normal true →
  is_Some (Checkout.user s) →
  item ∈ Checkout.cartItems s →
  select_error faults (CartItem.id item) = true ∨
    Checkout.products s !! CartItem.id item = None →
  trace (Checkout.handlePlaceOrder faults interleaved s)
    = [ev_setIsProcessing true]
        ++ ((λ line, ev_select_stock (CartItem.id line)) <$> Checkout.cartItems s)
        ++ [ev_console_error; ev_toast OrderFailed; ev_setIsProcessing false] ∧
  Checkout.products (final (Checkout.handlePlaceOrder faults interleaved s)) = Checkout.products s ∧
  Checkout.orders (final (Checkout.handlePlaceOrder faults interleaved s)) = Checkout.orders s ∧
  Checkout.localStorage (final (Checkout.handlePlaceOrder faults interleaved s))
    = Checkout.localStorage s.
Proof.
  intros Hvalid [u Huser] Hitem Hfail. apply validateForm_filled in Hvalid.
  rewrite (handlePlaceOrder_run faults interleaved s u Hvalid Huser).
  unfold trace, final, Attempt.outcome. cbn [fst snd].
  rewrite (observed_failed faults _ _ item Hitem Hfail). cbn [fst snd]. auto.
Qed.

Lemma failed_read_witness :
  trace (Checkout.handlePlaceOrder no_faults Sample.alone
           (Sample.page [Sample.line_P1 2; Sample.line_P2 1] {[ "P1"%string := 5 ]}))
    = [ev_setIsProcessing true; ev_select_stock "P1"; ev_select_stock "P2";
       ev_console_error; ev_toast OrderFailed; ev_setIsProcessing false].
Proof.
  apply (failed_stock_read_fails_the_order no_faults Sample.alone
           (Sample.page [Sample.line_P1 2; Sample.line_P2 1] {[ "P1"%string := 5 ]})
           (Sample.line_P2 1)).
  - vm_compute. reflexivity.
  - eexists. reflexivity.
  - apply list_elem_of_further, list_elem_of_here.
  - right. vm_compute. reflexivity.
Defined.

(** X6. The stock writes are not atomic. When the verification passes and
    the stock write of some line fails, no order is inserted, the stored
    cart is kept and the attempt ends in "Order failed"; yet, for a cart
    with distinct ids, every other line whose write succeeded on an
    existing row is left at the stock read at verification minus its
    quantity, wherever it stands in the cart, while the line whose write
    failed keeps the stock the table had. *)
Theorem failed_stock_write_leaves_the_other_writes
    (faults : Faults) (interleaved : gmap string Z → gmap string Z)
    (s : Checkout.State) (u : User.t) (checks : list StockCheck.t) (failed : CartItem.t) :
  completion (Checkout.validateForm s) = Normal true →
  Checkout.user s = Some u →
  completion (Checkout.stockChecks faults (Checkout.cartItems s) s) = Normal checks →
  Checkout.outOfStock checks = [] →
  failed ∈ Checkout.cartItems s →
  update_error faults (CartItem.id failed) = true →
  (∀ o, ev_insert_order o ∉ trace (Checkout.handlePlaceOrder faults interleaved s)) ∧
  (ev_toast OrderFailed ∈ trace (Checkout.handlePlaceOrder faults interleaved s)) ∧
  Checkout.orders (final (Checkout.handlePlaceOrder faults interleaved s)) = Checkout.orders s ∧
  Checkout.localStorage (final (Checkout.handlePlaceOrder faults interleaved s))
    = Checkout.localStorage s ∧
  (NoDup (CartItem.id <$> Checkout.cartItems s) →
   (Checkout.products (final (Checkout.handlePlaceOrder faults interleaved s))
      !! CartItem.id failed = interleaved (Checkout.products s) !! CartItem.id failed) ∧
   ∀ item stock,
     item ∈ Checkout.cartItems s →
     Checkout.products s !! CartItem.id item = Some stock →
     update_error faults (CartItem.id item) = false →
     is_Some (interleaved (Checkout.products s) !! CartItem.id item) →
     Checkout.products (final (Checkout.handlePlaceOrder faults interleaved s)) !! CartItem.id item
       = Some (stock - CartItem.quantity item)).
Proof.
  intros Hvalid Huser Hchecks Hnone Hfailed Herr.
  apply validateForm_filled in Hvalid. apply stockChecks_observed in Hchecks.
  pose proof (write_failed_exists faults _ failed Hfailed Herr) as Hwf.
  assert (Hrun : Checkout.handlePlaceOrder faults interleaved s =
            (Normal tt,
             Checkout.with_isProcessing false
               (Checkout.with_products
                  (λ stock, Attempt.written faults checks (Checkout.cartItems s)
                              (interleaved stock)) s),
             [ev_setIsProcessing true] ++ Attempt.reads (Checkout.cartItems s)
               ++ Attempt.writes checks (Checkout.cartItems s)
               ++ [ev_console_error; ev_toast OrderFailed; ev_setIsProcessing false])).
  { rewrite (handlePlaceOrder_run faults interleaved s u Hvalid Huser).
    unfold Attempt.outcome. rewrite Hchecks, (outOfStock_empty _ Hnone), Hwf. reflexivity. }
  split; [|split; [|split; [|split]]].
  - intros o Ho. rewrite Hrun in Ho. unfold trace in Ho. cbn [snd] in Ho.
    apply elem_of_cons in Ho as [Ho|Ho]; [discriminate|].
    apply elem_of_app in Ho as [Ho|Ho]; [apply reads_no_write in Ho; cbn in Ho; tauto|].
    apply elem_of_app in Ho as [Ho|Ho].
    + unfold Attempt.writes in Ho. apply list_elem_of_fmap in Ho as (? & ? & _). discriminate.
    + repeat (apply elem_of_cons in Ho as [Ho|Ho]; [discriminate|]). inversion Ho.
  - rewrite Hrun. unfold trace. cbn [snd].
    apply list_elem_of_further, elem_of_app. right. apply elem_of_app. right.
    apply list_elem_of_further, list_elem_of_here.
  - rewrite Hrun. reflexivity.
  - rewrite Hrun. reflexivity.
  - intros Hnd. split.
    + rewrite Hrun. unfold final. cbn. apply written_failed_line; assumption.
    + intros item stock Hitem Hstock Hok Hrow.
      apply (committed_line faults interleaved s u checks); assumption.
Qed.

Lemma failed_write_witness :
  Checkout.orders (final (Checkout.handlePlaceOrder Case.P2_write_fails Sample.alone
                            Case.two_lines)) = [] ∧
  Checkout.products (final (Checkout.handlePlaceOrder Case.P2_write_fails Sample.alone
                              Case.two_lines)) !! "P2"%string = Some 3 ∧
  Checkout.products (final (Checkout.handlePlaceOrder Case.P2_write_fails Sample.alone
                              Case.two_lines)) !! "P1"%string = Some (5 - 2).
Proof.
  destruct (failed_stock_write_leaves_the_other_writes Case.P2_write_fails Sample.alone
              Case.two_lines Sample.customer
              [StockCheck.mk "P1" 5 2; StockCheck.mk "P2" 3 1] (Sample.line_P2 1))
    as (_ & _ & Horders & _ & Hlines).
  - vm_compute. reflexivity.
  - reflexivity.
  - vm_compute. reflexivity.
  - vm_compute. reflexivity.
  - apply list_elem_of_further, list_elem_of_here.
  - reflexivity.
  - assert (Hnd : NoDup (CartItem.id <$> Checkout.cartItems Case.two_lines)).
    { cbn. apply NoDup_cons. split; [|apply NoDup_singleton].
      intros Hin. apply list_elem_of_singleton in Hin. discriminate. }
    destruct (Hlines Hnd) as [Hfailed Hother].
    split; [exact Horders|]. split.
    + refine (eq_trans Hfailed _). vm_compute. reflexivity.
    + apply (Hother (Sample.line_P1 2) 5).
      * apply list_elem_of_here.
      * vm_compute. reflexivity.
      * reflexivity.
      * exists 5. vm_compute. reflexivity.
Defined.

(** X7. When the verification passes and every write and the insert
    succeed, exactly one order is appended: for the signed-in user, with
    the lines of the page's cart, the status "pending" and the total Σ
    price×qty of its own lines × 1.08. The stored cart is removed, the
    customer is sent to the home page, and the cart the page lists stays
    as it was. *)
Theorem successful_checkout_records_one_order
    (faults : Faults) (interleaved : gmap string Z → gmap string Z)
    (s : Checkout.State) (u : User.t) (checks : list StockCheck.t) :
  completion (Checkout.validateForm s) = Normal true →
  Checkout.user s = Some u →
  completion (Checkout.stockChecks faults (Checkout.cartItems s) s) = Normal checks →
  Checkout.outOfStock checks = [] →
  (∀ item, item ∈ Checkout.cartItems s → update_error faults (CartItem.id item) = false) →
  insert_error faults = false →
  ∃ o,
    Checkout.orders (final (Checkout.handlePlaceOrder faults interleaved s))
      = Checkout.orders s ++ [o] ∧
    Order.user_id o = User.id u ∧
    Order.products o = Checkout.cartItems s ∧
    Order.status o = "pending"%string ∧
    (Order.total o == SpecTotals.subtotal (Order.products o) * (108 # 100))%Q ∧
    Checkout.localStorage (final (Checkout.handlePlaceOrder faults interleaved s)) = None ∧
    Checkout.cartItems (final (Checkout.handlePlaceOrder faults interleaved s))
      = Checkout.cartItems s ∧
    ∃ before,
      trace (Checkout.handlePlaceOrder faults interleaved s)
        = before ++ [ev_insert_order o; ev_toast OrderPlaced; ev_navigate "/";
                     ev_setIsProcessing false].
Proof.
  intros Hvalid Huser Hchecks Hnone Hwrites Hinsert.
  apply validateForm_filled in Hvalid. apply stockChecks_observed in Hchecks.
  pose proof (write_failed_none faults _ Hwrites) as Hok.
  exists (Checkout.orderData u s).
  rewrite (handlePlaceOrder_run faults interleaved s u Hvalid Huser).
  unfold trace, final, Attempt.outcome. cbn [fst snd].
  rewrite Hchecks, (outOfStock_empty _ Hnone), Hok, Hinsert. cbn [fst snd].
  split; [reflexivity|]. split; [reflexivity|]. split; [reflexivity|].
  split; [reflexivity|]. split.
  { cbn [Checkout.orderData Order.total Order.products].
    rewrite getTotalPrice_subtotal. reflexivity. }
  split; [reflexivity|]. split; [reflexivity|].
  exists ([ev_setIsProcessing true] ++ Attempt.reads (Checkout.cartItems s)
            ++ Attempt.writes checks (Checkout.cartItems s)).
  rewrite <- !app_assoc. reflexivity.
Qed.

Lemma successful_checkout_witness :
  ∃ o, Checkout.orders (final (Checkout.handlePlaceOrder no_faults Sample.alone Case.two_lines))
         = [] ++ [o] ∧
       Order.products o = [Sample.line_P1 2; Sample.line_P2 1] ∧
       Checkout.localStorage (final (Checkout.handlePlaceOrder no_faults Sample.alone
                                       Case.two_lines)) = None.
Proof.
  destruct (successful_checkout_records_one_order no_faults Sample.alone Case.two_lines
              Sample.customer [StockCheck.mk "P1" 5 2; StockCheck.mk "P2" 3 1])
    as (o & Horders & _ & Hproducts & _ & _ & Hstorage & _).
  - vm_compute. reflexivity.
  - reflexivity.
  - vm_compute. reflexivity.
  - vm_compute. reflexivity.
  - intros item _. reflexivity.
  - reflexivity.
  - exists o. split; [exact Horders|]. split; [exact Hproducts|exact Hstorage].
Defined.

Lemma update_in_trace faults interleaved s id v :
  ev_update_stock id v ∈ trace (Checkout.handlePlaceOrder faults interleaved s) →
  ∃ checks,
    Attempt.observed faults (Checkout.products s) (Checkout.cartItems s) = Some checks ∧
    Checkout.outOfStock checks = [] ∧
    ev_update_stock id v ∈ Attempt.writes checks (Checkout.cartItems s).
Proof.
  intros Hin. destruct (Attempt.filled s) eqn:Hfilled.
  - destruct (Checkout.user s) as [u|] eqn:Huser.
    + rewrite (handlePlaceOrder_run faults interleaved s u Hfilled Huser) in Hin.
      unfold trace, Attempt.outcome in Hin. cbn [snd] in Hin.
      assert (Hreads : ∀ tail,
                ev_update_stock id v ∈ [ev_setIsProcessing true]
                  ++ Attempt.reads (Checkout.cartItems s) ++ tail →
                ev_update_stock id v ∈ tail).
      { intros tail Ht. apply elem_of_cons in Ht as [Ht|Ht]; [discriminate|].
        apply elem_of_app in Ht as [Ht|Ht]; [|exact Ht].
        apply reads_no_write in Ht. cbn in Ht. tauto. }
      assert (Htail : ∀ l tail,
                (∀ e, e ∈ tail → e ≠ ev_update_stock id v) →
                ev_update_stock id v ∈ l ++ tail → ev_update_stock id v ∈ l).
      { intros l tail Hno Ht. apply elem_of_app in Ht as [Ht|Ht]; [exact Ht|].
        exfalso. exact (Hno _ Ht eq_refl). }
      destruct (Attempt.observed _ _ _) as [checks|].
      * destruct (Checkout.outOfStock checks) as [|short rest] eqn:Hout; cbn in Hin.
        -- exists checks. split; [reflexivity|]. split; [exact Hout|].
           destruct (Attempt.write_failed _ _); [|destruct (insert_error faults)];
             apply Hreads in Hin; apply Htail in Hin; try exact Hin;
             intros e He; repeat (apply elem_of_cons in He as [->|He]; [discriminate|]);
             inversion He.
        -- apply Hreads in Hin.
           repeat (apply elem_of_cons in Hin as [Hin|Hin]; [discriminate|]). inversion Hin.
      * apply Hreads in Hin.
        repeat (apply elem_of_cons in Hin as [Hin|Hin]; [discriminate|]). inversion Hin.
    + rewrite handlePlaceOrder_signed_out in Hin by assumption. inversion Hin.
  - rewrite handlePlaceOrder_invalid in Hin by assumption.
    apply list_elem_of_singleton in Hin. discriminate.
Qed.

(** X8. An attempt never writes a negative stock: every stock write it
    issues, under any faults and whatever other sessions do, is for a line
    of the cart and sets the stock to the value read for it at verification
    minus the line's quantity, which that value covers. *)
Theorem stock_writes_are_never_negative
    (faults : Faults) (interleaved : gmap string Z → gmap string Z)
    (s : Checkout.State) (id : string) (newStock : Z) :
  ev_update_stock id newStock ∈ trace (Checkout.handlePlaceOrder faults interleaved s) →
  0 ≤ newStock ∧
  ∃ item stock,
    item ∈ Checkout.cartItems s ∧ CartItem.id item = id ∧
    Checkout.products s !! id = Some stock ∧
    CartItem.quantity item ≤ stock ∧
    newStock = stock - CartItem.quantity item.
Proof.
  intros Hin. apply update_in_trace in Hin as (checks & Hobs & Hnone & Hin).
  pose proof (observed_checked _ _ _ _ Hobs) as Hall.
  unfold Attempt.writes in Hin. apply list_elem_of_fmap in Hin as (item & Hev & Hitem).
  injection Hev as -> ->.
  apply list_elem_of_lookup in Hitem as [i Hi].
  destruct (Forall2_lookup_l _ _ _ _ _ Hall Hi) as (check & Hcheck & _ & Hqty & Hstock).
  assert (Hitem : item ∈ Checkout.cartItems s) by (apply list_elem_of_lookup; eauto).
  assert (Hcovered : CartItem.quantity item ≤ StockCheck.currentStock check).
  { destruct (Z_lt_le_dec (StockCheck.currentStock check) (StockCheck.requestedQty check))
      as [Hshort|Hok]; [|lia].
    assert (Hout : check ∈ Checkout.outOfStock checks).
    { unfold Checkout.outOfStock. apply list_elem_of_filter. split; [exact Hshort|].
      apply list_elem_of_lookup. eauto. }
    rewrite Hnone in Hout. inversion Hout. }
  unfold Attempt.newStock.
  rewrite (currentStock_of_checked _ _ _ item (StockCheck.currentStock check) Hall Hitem Hstock).
  split; [lia|]. exists item, (StockCheck.currentStock check). auto.
Qed.

Lemma never_negative_witness : 0 ≤ 3.
Proof.
  apply (stock_writes_are_never_negative no_faults Sample.alone Sample.scenario_A "P1" 3).
  vm_compute. do 2 apply list_elem_of_further. apply list_elem_of_here.
Defined.

(** X9. The place-order action never throws and never changes the user,
    the cart or the form of the page; it either leaves the whole state as
    it was or ends with the processing flag off; and it sends a request to
    the backend only for a signed-in user: signed out, with a valid form,
    it does nothing at all, silently. *)
Theorem handlePlaceOrder_never_throws
    (faults : Faults) (interleaved : gmap string Z → gmap string Z) (s : Checkout.State) :
  completion (Checkout.handlePlaceOrder faults interleaved s) = Normal tt ∧
  Checkout.user (final (Checkout.handlePlaceOrder faults interleaved s)) = Checkout.user s ∧
  Checkout.cartItems (final (Checkout.handlePlaceOrder faults interleaved s))
    = Checkout.cartItems s ∧
  Checkout.shippingInfo (final (Checkout.handlePlaceOrder faults interleaved s))
    = Checkout.shippingInfo s ∧
  (final (Checkout.handlePlaceOrder faults interleaved s) = s ∨
   Checkout.isProcessing (final (Checkout.handlePlaceOrder faults interleaved s)) = false) ∧
  (∀ e, e ∈ trace (Checkout.handlePlaceOrder faults interleaved s) → is_request e →
        is_Some (Checkout.user s)) ∧
  (Checkout.user s = None → completion (Checkout.validateForm s) = Normal true →
   final (Checkout.handlePlaceOrder faults interleaved s) = s ∧
   trace (Checkout.handlePlaceOrder faults interleaved s) = []).
Proof.
  destruct (Attempt.filled s) eqn:Hfilled.
  - destruct (Checkout.user s) as [u|] eqn:Huser.
    + rewrite (handlePlaceOrder_run faults interleaved s u Hfilled Huser).
      unfold completion, final, trace, Attempt.outcome. cbn [fst snd].
      destruct (Attempt.observed _ _ _) as [checks|];
        [destruct (0 <? _)%nat;
           [|destruct (Attempt.write_failed _ _); [|destruct (insert_error faults)]]|];
        cbn; rewrite ?Huser;
        (split; [reflexivity|]); (split; [reflexivity|]); (split; [reflexivity|]);
        (split; [reflexivity|]); (split; [right; reflexivity|]);
        (split; [intros; eauto|intros; discriminate]).
    + rewrite handlePlaceOrder_signed_out by assumption.
      unfold completion, final, trace. cbn [fst snd].
      split; [reflexivity|]. split; [exact Huser|]. split; [reflexivity|].
      split; [reflexivity|]. split; [left; reflexivity|]. split.
      * intros e He. inversion He.
      * intros _ _. split; reflexivity.
  - rewrite handlePlaceOrder_invalid by assumption.
    unfold completion, final, trace. cbn [fst snd].
    split; [reflexivity|]. split; [reflexivity|]. split; [reflexivity|].
    split; [reflexivity|]. split; [left; reflexivity|]. split.
    + intros e He Hreq. apply list_elem_of_singleton in He. subst e. destruct Hreq.
    + intros _ Hvalid. apply validateForm_filled in Hvalid. congruence.
Qed.

(** X10. The order is placed for the cart the page loaded, not for the
    stored cart: if another tab changes the stored cart after the mount, the
    attempt sends the same requests, raises the same toasts and leaves the
    same stock and orders; on success it removes the stored cart whatever
    it holds by then, and otherwise leaves it as the other tab wrote it. *)
Theorem order_is_placed_for_the_page_cart
    (faults : Faults) (interleaved : gmap string Z → gmap string Z)
    (s : Checkout.State) (storage : Storage) :
  trace (Checkout.handlePlaceOrder faults interleaved (with_stored_cart storage s))
    = trace (Checkout.handlePlaceOrder faults interleaved s) ∧
  Checkout.products (final (Checkout.handlePlaceOrder faults interleaved
                              (with_stored_cart storage s)))
    = Checkout.products (final (Checkout.handlePlaceOrder faults interleaved s)) ∧
  Checkout.orders (final (Checkout.handlePlaceOrder faults interleaved
                            (with_stored_cart storage s)))
    = Checkout.orders (final (Checkout.handlePlaceOrder faults interleaved s)) ∧
  (ev_toast OrderPlaced ∈ trace (Checkout.handlePlaceOrder faults interleaved s) →
   Checkout.localStorage (final (Checkout.handlePlaceOrder faults interleaved
                                   (with_stored_cart storage s))) = None) ∧
  (ev_toast OrderPlaced ∉ trace (Checkout.handlePlaceOrder faults interleaved s) →
   Checkout.localStorage (final (Checkout.handlePlaceOrder faults interleaved
                                   (with_stored_cart storage s))) = storage).
Proof.
  assert (Hreads : ∀ cart tail,
            ev_toast OrderPlaced ∈ [ev_setIsProcessing true] ++ Attempt.reads cart ++ tail →
            ev_toast OrderPlaced ∈ tail).
  { intros cart tail Hin. apply elem_of_cons in Hin as [Hin|Hin]; [discriminate|].
    apply elem_of_app in Hin as [Hin|Hin]; [|exact Hin].
    unfold Attempt.reads in Hin. apply list_elem_of_fmap in Hin as (? & ? & _). discriminate. }
  assert (Hwrites : ∀ cart checks tail,
            ev_toast OrderPlaced ∈ [ev_setIsProcessing true] ++ Attempt.reads cart
              ++ Attempt.writes checks cart ++ tail →
            ev_toast OrderPlaced ∈ tail).
  { intros cart checks tail Hin. apply Hreads in Hin.
    apply elem_of_app in Hin as [Hin|Hin]; [|exact Hin].
    unfold Attempt.writes in Hin. apply list_elem_of_fmap in Hin as (? & ? & _). discriminate. }
  assert (Hnot : ∀ tail : list Event,
            (∀ e, e ∈ tail → e ≠ ev_toast OrderPlaced) → ev_toast OrderPlaced ∈ tail → False).
  { intros tail Hno Hin. exact (Hno _ Hin eq_refl). }
  destruct (Attempt.filled s) eqn:Hfilled.
  - destruct (Checkout.user s) as [u|] eqn:Huser.
    + rewrite (handlePlaceOrder_run faults interleaved s u Hfilled Huser).
      rewrite (handlePlaceOrder_run faults interleaved (with_stored_cart storage s) u Hfilled Huser).
      unfold trace, final, Attempt.outcome. cbn [fst snd].
      change (Checkout.products (with_stored_cart storage s)) with (Checkout.products s).
      change (Checkout.cartItems (with_stored_cart storage s)) with (Checkout.cartItems s).
      destruct (Attempt.observed _ _ _) as [checks|];
        [destruct (0 <? _)%nat;
           [|destruct (Attempt.write_failed _ _); [|destruct (insert_error faults)]]|];
        cbn [fst snd];
        (split; [reflexivity|]); (split; [reflexivity|]); (split; [reflexivity|]);
        split; intros Hin; try reflexivity; exfalso.
      * apply Hreads in Hin. revert Hin. apply Hnot. intros e He.
        repeat (apply elem_of_cons in He as [->|He]; [discriminate|]). inversion He.
      * apply Hwrites in Hin. revert Hin. apply Hnot. intros e He.
        repeat (apply elem_of_cons in He as [->|He]; [discriminate|]). inversion He.
      * apply Hwrites in Hin. revert Hin. apply Hnot. intros e He.
        repeat (apply elem_of_cons in He as [->|He]; [discriminate|]). inversion He.
      * apply Hin. apply list_elem_of_further, elem_of_app. right. apply elem_of_app. right.
        apply list_elem_of_further, list_elem_of_here.
      * apply Hreads in Hin. revert Hin. apply Hnot. intros e He.
        repeat (apply elem_of_cons in He as [->|He]; [discriminate|]). inversion He.
    + rewrite (handlePlaceOrder_signed_out faults interleaved s) by assumption.
      rewrite (handlePlaceOrder_signed_out faults interleaved (with_stored_cart storage s))
        by assumption.
      unfold trace, final. cbn. repeat split; auto. intros Hin. inversion Hin.
  - rewrite (handlePlaceOrder_invalid faults interleaved s) by assumption.
    rewrite (handlePlaceOrder_invalid faults interleaved (with_stored_cart storage s))
      by assumption.
    unfold trace, final. cbn. repeat split; auto.
    intros Hin. apply list_elem_of_singleton in Hin. discriminate.
Qed.

(** ** The buttons of the cart page *)

Lemma bind_nil {A B} (f : A → list B) (l : list A) :
  (∀ x, x ∈ l → f x = []) → l ≫= f = [].
Proof.
  induction l as [|x l IH]; intros Hall; [reflexivity|].
  cbn. rewrite (Hall x) by apply list_elem_of_here. cbn.
  apply IH. intros y Hy. apply Hall, list_elem_of_further, Hy.
Qed.

Lemma other_line_other_id cart (i j : nat) item other :
  NoDup (CartItem.id <$> cart) →
  cart !! i = Some item → cart !! j = Some other → i ≠ j →
  CartItem.id other ≠ CartItem.id item.
Proof.
  intros Hnd Hi Hj Hij Heq. apply Hij.
  apply (NoDup_lookup (CartItem.id <$> cart) i j (CartItem.id item) Hnd).
  - rewrite list_lookup_fmap, Hi. reflexivity.
  - rewrite list_lookup_fmap, Hj. cbn. congruence.
Qed.

Lemma capped_signal_unique cart (i : nat) item q :
  NoDup (CartItem.id <$> cart) →
  cart !! i = Some item →
  cart ≫= capped_signal (CartItem.id item) q = capped_signal (CartItem.id item) q item.
Proof.
  intros Hnd Hi.
  rewrite <- (take_drop_middle cart i item Hi) at 1.
  rewrite bind_app, bind_cons.
  rewrite !bind_nil; [rewrite app_nil_r; reflexivity| |].
  - intros other Hother. apply list_elem_of_lookup in Hother as [j Hj].
    rewrite lookup_drop in Hj. unfold capped_signal. rewrite decide_False; [reflexivity|].
    apply (other_line_other_id cart i (S i + j) item other Hnd Hi Hj). lia.
  - intros other Hother. apply list_elem_of_lookup in Hother as [j Hj].
    apply lookup_take_Some in Hj as [Hj Hlt]. unfold capped_signal.
    rewrite decide_False; [reflexivity|].
    apply (other_line_other_id cart i j item other Hnd Hi Hj). lia.
Qed.

Lemma updateQuantity_unique s (i : nat) item q :
  NoDup (CartItem.id <$> Cart.cartItems s) →
  Cart.cartItems s !! i = Some item →
  1 ≤ q →
  Cart.updateQuantity (CartItem.id item) q s =
    (Normal tt,
     Cart.mk (<[i := CartItem.with_quantity (Z.min q (CartItem.stock item)) item]> (Cart.cartItems s))
             (Some (<[i := CartItem.with_quantity (Z.min q (CartItem.stock item)) item]>
                      (Cart.cartItems s))),
     if CartItem.stock item <? q
     then [ev_toast (StockLimitReached (CartItem.stock item))] else []).
Proof.
  intros Hnd Hi Hq. rewrite updateQuantity_run by exact Hq.
  rewrite app_nil_r, (capped_signal_unique _ i item q Hnd Hi).
  assert (Hlines : updated_line (CartItem.id item) q <$> Cart.cartItems s
                   = <[i := CartItem.with_quantity (Z.min q (CartItem.stock item)) item]>
                       (Cart.cartItems s)).
  { apply list_eq. intros j. rewrite list_lookup_fmap.
    destruct (decide (i = j)) as [<-|Hij].
    - rewrite list_lookup_insert_eq by (eapply lookup_lt_Some; exact Hi).
      rewrite Hi. cbn. unfold updated_line. rewrite decide_True by reflexivity.
      destruct (Z.ltb_spec (CartItem.stock item) q); f_equal; f_equal; lia.
    - rewrite list_lookup_insert_ne by exact Hij.
      destruct (Cart.cartItems s !! j) as [other|] eqn:Hj; [|reflexivity]. cbn.
      unfold updated_line. rewrite decide_False; [reflexivity|].
      exact (other_line_other_id _ i j item other Hnd Hi Hj Hij). }
  rewrite Hlines. unfold capped_signal. rewrite decide_True by reflexivity. reflexivity.
Qed.

(** X11. On a cart page whose lines have distinct ids, the [+] button of a
    line adds exactly one when the quantity (not negative) is below the
    stock snapshot, raising no toast, and does nothing otherwise; the [-]
    button does nothing at quantity 1 or less, and otherwise sets the
    quantity to the smaller of the quantity minus one and the stock
    snapshot, raising "Stock limit reached" exactly when the snapshot is
    the smaller: a line that [addItem] took over its snapshot falls back to
    it on the first [-]. Neither button touches another line. *)
Theorem cart_row_buttons
    (s : Cart.State) (i : nat) (item : CartItem.t) :
  NoDup (CartItem.id <$> Cart.cartItems s) →
  Cart.cartItems s !! i = Some item →
  (0 ≤ CartItem.quantity item < CartItem.stock item →
     Cart.cartItems (final (CartRow.plus item s))
       = <[i := CartItem.with_quantity (CartItem.quantity item + 1) item]> (Cart.cartItems s) ∧
     trace (CartRow.plus item s) = []) ∧
  (CartItem.stock item ≤ CartItem.quantity item →
     CartRow.plus item s = (Normal tt, s, [])) ∧
  (1 < CartItem.quantity item →
     Cart.cartItems (final (CartRow.minus item s))
       = <[i := CartItem.with_quantity
                  (Z.min (CartItem.quantity item - 1) (CartItem.stock item)) item]>
           (Cart.cartItems s) ∧
     (ev_toast (StockLimitReached (CartItem.stock item)) ∈ trace (CartRow.minus item s) ↔
      CartItem.stock item < CartItem.quantity item - 1)) ∧
  (CartItem.quantity item ≤ 1 →
     CartRow.minus item s = (Normal tt, s, [])).
Proof.
  intros Hnd Hi. split; [|split; [|split]].
  - intros [Hpos Hbelow]. unfold CartRow.plus.
    destruct (Z.leb_spec (CartItem.stock item) (CartItem.quantity item)); [lia|].
    rewrite (updateQuantity_unique s i item _ Hnd Hi) by lia. unfold final, trace. cbn.
    rewrite Z.min_l by lia.
    destruct (Z.ltb_spec (CartItem.stock item) (CartItem.quantity item + 1)); [lia|].
    split; reflexivity.
  - intros Hfull. unfold CartRow.plus.
    destruct (Z.leb_spec (CartItem.stock item) (CartItem.quantity item)); [reflexivity|lia].
  - intros Hmore. unfold CartRow.minus.
    destruct (Z.leb_spec (CartItem.quantity item) 1); [lia|].
    rewrite (updateQuantity_unique s i item _ Hnd Hi) by lia. unfold final, trace. cbn.
    split; [reflexivity|].
    destruct (Z.ltb_spec (CartItem.stock item) (CartItem.quantity item - 1)).
    + split; [intros _; assumption|intros _; apply list_elem_of_here].
    + split; [intros Hin; inversion Hin|lia].
  - intros Hone. unfold CartRow.minus.
    destruct (Z.leb_spec (CartItem.quantity item) 1); [reflexivity|lia].
Qed.

Lemma cart_row_buttons_witness :
  Cart.cartItems (final (CartRow.plus (Sample.line_P1 2) Case.cart_page))
    = [Sample.line_P1 3; Sample.line_P2 1] ∧
  CartRow.plus (Sample.line_P2 1) Case.cart_page = (Normal tt, Case.cart_page, []) ∧
  Cart.cartItems (final (CartRow.minus (Sample.line_P1 2) Case.cart_page))
    = [Sample.line_P1 1; Sample.line_P2 1].
Proof.
  assert (Hnd : NoDup (CartItem.id <$> Cart.cartItems Case.cart_page)).
  { cbn. apply NoDup_cons. split; [|apply NoDup_singleton].
    intros Hin. apply list_elem_of_singleton in Hin. discriminate. }
  destruct (cart_row_buttons Case.cart_page 0 (Sample.line_P1 2) Hnd eq_refl)
    as (Hplus & _ & Hminus & _).
  destruct (cart_row_buttons Case.cart_page 1 (Sample.line_P2 1) Hnd eq_refl)
    as (_ & Hfull & _).
  split; [|split].
  - destruct Hplus as [-> _]; [cbn; lia|reflexivity].
  - apply Hfull. cbn. lia.
  - destruct Hminus as [-> _]; [cbn; lia|reflexivity].
Defined.

Lemma insert_quantity_ids (cart : list CartItem.t) (i : nat) item q :
  cart !! i = Some item →
  CartItem.id <$> <[i := CartItem.with_quantity q item]> cart = CartItem.id <$> cart.
Proof.
  intros Hi. rewrite list_fmap_insert. apply list_insert_id.
  rewrite list_lookup_fmap, Hi. reflexivity.
Qed.

Lemma insert_quantity_line (cart : list CartItem.t) (i : nat) item q line :
  cart !! i = Some item →
  line ∈ <[i := CartItem.with_quantity q item]> cart →
  line = CartItem.with_quantity q item ∨ line ∈ cart.
Proof.
  intros Hi Hline. apply list_elem_of_lookup in Hline as [j Hj].
  apply list_lookup_insert_Some in Hj as [(_ & <- & _)|[_ Hj]]; [left; reflexivity|].
  right. apply list_elem_of_lookup. eauto.
Qed.

Lemma same_snapshot_refl item : same_snapshot item item.
Proof. reflexivity. Qed.

Lemma same_snapshot_with_quantity q item : same_snapshot (CartItem.with_quantity q item) item.
Proof. reflexivity. Qed.

(** One click on a tidy cart page. *)
Lemma click_step c s :
  tidy (Cart.cartItems s) →
  ∃ s' t,
    click c s = (Normal tt, s', t) ∧
    tidy (Cart.cartItems s') ∧
    (∀ line, line ∈ Cart.cartItems s' →
             ∃ original, original ∈ Cart.cartItems s ∧ same_snapshot line original) ∧
    (∀ e, e ∈ t → ¬ is_stock_limit e) ∧
    (s' = s ∨ saved s').
Proof.
  intros [Hnd Hrange].
  assert (Hstill : ∃ s' t,
            (Normal tt, s, @nil Event) = (Normal tt, s', t) ∧ tidy (Cart.cartItems s') ∧
            (∀ line, line ∈ Cart.cartItems s' →
                     ∃ original, original ∈ Cart.cartItems s ∧ same_snapshot line original) ∧
            (∀ e, e ∈ t → ¬ is_stock_limit e) ∧ (s' = s ∨ saved s')).
  { exists s, []. split; [reflexivity|]. split; [split; assumption|]. split.
    - intros line Hline. exists line. split; [exact Hline|apply same_snapshot_refl].
    - split; [intros e He; inversion He|left; reflexivity]. }
  assert (Hset : ∀ (i : nat) item q,
            Cart.cartItems s !! i = Some item → 1 ≤ q ≤ CartItem.stock item →
            ∃ s' t,
              Cart.updateQuantity (CartItem.id item) q s = (Normal tt, s', t) ∧
              tidy (Cart.cartItems s') ∧
              (∀ line, line ∈ Cart.cartItems s' →
                       ∃ original, original ∈ Cart.cartItems s ∧ same_snapshot line original) ∧
              (∀ e, e ∈ t → ¬ is_stock_limit e) ∧ (s' = s ∨ saved s')).
  { intros i item q Hi [Hlo Hhi].
    rewrite (updateQuantity_unique s i item q Hnd Hi Hlo). rewrite Z.min_l by lia.
    destruct (Z.ltb_spec (CartItem.stock item) q); [lia|].
    eexists _, _. split; [reflexivity|]. cbn. split; [split|split; [|split]].
    - rewrite insert_quantity_ids by exact Hi. exact Hnd.
    - intros line Hline. apply (insert_quantity_line _ _ _ _ _ Hi) in Hline as [->|Hline];
        [unfold in_range; cbn; lia|auto].
    - intros line Hline. apply (insert_quantity_line _ _ _ _ _ Hi) in Hline as [->|Hline].
      + exists item. split; [apply list_elem_of_lookup; eauto|apply same_snapshot_with_quantity].
      + exists line. split; [exact Hline|apply same_snapshot_refl].
    - intros e He. inversion He.
    - right. reflexivity. }
  unfold click. erewrite (mbind_normal get); [|reflexivity]. cbn [app].
  destruct c as [i|i|i|].
  - destruct (Cart.cartItems s !! i) as [item|] eqn:Hi; cbn [from_option]; [|exact Hstill].
    assert (Hitem : in_range item) by (apply Hrange, list_elem_of_lookup; eauto).
    unfold CartRow.plus.
    destruct (Z.leb_spec (CartItem.stock item) (CartItem.quantity item)); [exact Hstill|].
    destruct (Hset i item (CartItem.quantity item + 1) Hi) as (s' & t & -> & Hrest);
      [unfold in_range in Hitem; lia|]. destruct Hrest as (? & ? & ? & ?). eauto 10.
  - destruct (Cart.cartItems s !! i) as [item|] eqn:Hi; cbn [from_option]; [|exact Hstill].
    assert (Hitem : in_range item) by (apply Hrange, list_elem_of_lookup; eauto).
    unfold CartRow.minus.
    destruct (Z.leb_spec (CartItem.quantity item) 1); [exact Hstill|].
    destruct (Hset i item (CartItem.quantity item - 1) Hi) as (s' & t & -> & Hrest);
      [unfold in_range in Hitem; lia|]. destruct Hrest as (? & ? & ? & ?). eauto 10.
  - destruct (Cart.cartItems s !! i) as [item|] eqn:Hi; cbn [from_option]; [|exact Hstill].
    unfold CartRow.trash. rewrite removeFromCart_run.
    eexists _, _. split; [reflexivity|]. cbn. split; [split|split; [|split]].
    + apply (sublist_NoDup _ _ Hnd). apply fmap_sublist, sublist_filter.
    + intros line Hline. apply list_elem_of_filter in Hline as [_ Hline]. auto.
    + intros line Hline. apply list_elem_of_filter in Hline as [_ Hline].
      exists line. split; [exact Hline|apply same_snapshot_refl].
    + intros e He. apply list_elem_of_singleton in He. subst e. cbn. tauto.
    + right. reflexivity.
  - eexists _, _. split; [reflexivity|]. cbn. split; [split|split; [|split]].
    + apply NoDup_nil_2.
    + intros line Hline. inversion Hline.
    + intros line Hline. inversion Hline.
    + intros e He. apply list_elem_of_singleton in He. subst e. cbn. tauto.
    + right. reflexivity.
Qed.

(** X12. Through the buttons of the cart page a tidy cart stays tidy:
    after any sequence of clicks on [+], [-], the trash and "Clear Cart",
    started from a cart with distinct ids and every quantity between 1 and
    its stock snapshot, the ids are still distinct and every quantity is
    still between 1 and its snapshot; every line is one of the original
    lines with nothing but its quantity changed; the "Stock limit reached"
    toast is never raised; and unless no click changed anything, the stored
    cart is the cart shown. *)
Theorem cart_clicks_keep_the_cart_tidy (cs : list Click) (s : Cart.State) :
  tidy (Cart.cartItems s) →
  completion (clicks cs s) = Normal tt ∧
  tidy (Cart.cartItems (final (clicks cs s))) ∧
  (∀ line, line ∈ Cart.cartItems (final (clicks cs s)) →
           ∃ original, original ∈ Cart.cartItems s ∧ same_snapshot line original) ∧
  (∀ e, e ∈ trace (clicks cs s) → ¬ is_stock_limit e) ∧
  (final (clicks cs s) = s ∨ saved (final (clicks cs s))).
Proof.
  revert s. induction cs as [|c cs IH]; intros s Htidy.
  - unfold completion, final, trace. cbn. split; [reflexivity|]. split; [exact Htidy|]. split.
    + intros line Hline. exists line. split; [exact Hline|apply same_snapshot_refl].
    + split; [intros e He; inversion He|left; reflexivity].
  - destruct (click_step c s Htidy) as (s1 & t1 & Hclick & Htidy1 & Hlines1 & Hquiet1 & Hsaved1).
    destruct (IH s1 Htidy1) as (Hdone & Htidy2 & Hlines2 & Hquiet2 & Hsaved2).
    cbn [clicks]. rewrite (mbind_normal _ _ _ _ _ _ Hclick).
    destruct (clicks cs s1) as [[r s2] t2]. unfold completion, final, trace in *.
    cbn [fst snd] in *. split; [exact Hdone|]. split; [exact Htidy2|]. split; [|split].
    + intros line Hline. destruct (Hlines2 line Hline) as (middle & Hmiddle & Hsame).
      destruct (Hlines1 middle Hmiddle) as (original & Horiginal & Hsame').
      exists original. split; [exact Horiginal|]. unfold same_snapshot in *. congruence.
    + intros e He. apply elem_of_app in He as [He|He]; auto.
    + destruct Hsaved2 as [->|Hsaved2]; [|right; exact Hsaved2].
      destruct Hsaved1 as [->|Hsaved1]; [left; reflexivity|right; exact Hsaved1].
Qed.

Lemma cart_clicks_witness :
  tidy (Cart.cartItems (final (clicks [click_plus 0; click_plus 1; click_minus 0; click_trash 1]
                                      Case.cart_page))) ∧
  Cart.cartItems (final (clicks [click_plus 0; click_plus 1; click_minus 0; click_trash 1]
                                Case.cart_page)) = [Sample.line_P1 2].
Proof.
  split; [|reflexivity].
  apply (cart_clicks_keep_the_cart_tidy
           [click_plus 0; click_plus 1; click_minus 0; click_trash 1] Case.cart_page).
  split.
  - cbn. apply NoDup_cons. split; [|apply NoDup_singleton].
    intros Hin. apply list_elem_of_singleton in Hin. discriminate.
  - intros item Hitem. unfold in_range.
    repeat (apply elem_of_cons in Hitem as [->|Hitem]; [cbn; lia|]). inversion Hitem.
Defined.

(** X13. [removeFromCart] keeps the lines of the other ids in their order
    and leaves no line of the removed id; removing again changes nothing
    more; and for an id the cart does not hold it keeps every line, yet it
    still writes the stored cart and raises "Item removed". *)
Theorem removeFromCart_keeps_the_other_lines (s : Cart.State) (itemId : string) :
  Cart.cartItems (final (Cart.removeFromCart itemId s)) `sublist_of` Cart.cartItems s ∧
  (∀ item, item ∈ Cart.cartItems (final (Cart.removeFromCart itemId s)) ↔
           item ∈ Cart.cartItems s ∧ CartItem.id item ≠ itemId) ∧
  final (Cart.removeFromCart itemId (final (Cart.removeFromCart itemId s)))
    = final (Cart.removeFromCart itemId s) ∧
  ((∀ item, item ∈ Cart.cartItems s → CartItem.id item ≠ itemId) →
   Cart.removeFromCart itemId s
     = (Normal tt, Cart.mk (Cart.cartItems s) (Some (Cart.cartItems s)), [ev_toast ItemRemoved])).
Proof.
  rewrite !removeFromCart_run. unfold final. cbn [fst snd Cart.cartItems].
  split; [apply sublist_filter|]. split; [|split].
  - intros item. rewrite list_elem_of_filter. tauto.
  - cbn. rewrite list_filter_filter.
    assert (Hsame : filter (λ item, CartItem.id item ≠ itemId ∧ CartItem.id item ≠ itemId)
                           (Cart.cartItems s)
                    = filter (λ item, CartItem.id item ≠ itemId) (Cart.cartItems s)).
    { apply list_filter_iff. intros item. tauto. }
    rewrite Hsame. reflexivity.
  - intros Habsent.
    assert (Hall : filter (λ item, CartItem.id item ≠ itemId) (Cart.cartItems s)
                   = Cart.cartItems s).
    { induction (Cart.cartItems s) as [|item cart IH]; [reflexivity|].
      rewrite filter_cons_True by (apply Habsent, list_elem_of_here).
      rewrite IH; [reflexivity|]. intros other Hother.
      apply Habsent, list_elem_of_further, Hother. }
    rewrite Hall. reflexivity.
Qed.

(** ** More on adding to the cart *)

Lemma cart_page_lines storage :
  Cart.cartItems (CartStore.cart_page storage) = parse_cart_or_empty storage.
Proof. destruct storage; reflexivity. Qed.

Lemma total_items_from (cart : list CartItem.t) (start : Z) :
  fold_left (λ total item, total + CartItem.quantity item) cart start
  = start + fold_left (λ total item, total + CartItem.quantity item) cart 0.
Proof.
  revert start. induction cart as [|item cart IH]; intros start; cbn; [lia|].
  rewrite (IH (start + CartItem.quantity item)), (IH (0 + CartItem.quantity item)). lia.
Qed.

Lemma total_items_alter (cart : list CartItem.t) (i : nat) line qty :
  cart !! i = Some line →
  fold_left (λ total item, total + CartItem.quantity item)
            (alter (λ item, CartItem.with_quantity (CartItem.quantity item + qty) item) i cart) 0
  = fold_left (λ total item, total + CartItem.quantity item) cart 0 + qty.
Proof.
  revert i. induction cart as [|item cart IH]; intros i Hi; [discriminate|].
  destruct i as [|i]; cbn in Hi |- *.
  - rewrite total_items_from, (total_items_from cart (0 + CartItem.quantity item)). lia.
  - rewrite total_items_from, (IH i Hi), (total_items_from cart (0 + CartItem.quantity item)). lia.
Qed.

(** X14. Adding a quantity of a product to the stored cart raises the item
    count the cart page shows by exactly that quantity, whether the cart
    already has a line for the product or not and whatever the stock; the
    lines of other products stay as and where they were, and the cart gets
    one line longer exactly when it had no line for the product. *)
Theorem addItem_adds_to_the_item_count
    (product : Product.t) (qty : Z) (storage : Storage) :
  Cart.getTotalItems (CartStore.cart_page (CartStore.addItem product qty storage))
    = Cart.getTotalItems (CartStore.cart_page storage) + qty ∧
  (∀ (j : nat) line,
     parse_cart_or_empty storage !! j = Some line →
     CartItem.id line ≠ Product.id product →
     parse_cart_or_empty (CartStore.addItem product qty storage) !! j = Some line) ∧
  ((∀ line, line ∈ parse_cart_or_empty storage → CartItem.id line ≠ Product.id product) →
   length (parse_cart_or_empty (CartStore.addItem product qty storage))
     = S (length (parse_cart_or_empty storage))) ∧
  (∀ line, line ∈ parse_cart_or_empty storage → CartItem.id line = Product.id product →
   length (parse_cart_or_empty (CartStore.addItem product qty storage))
     = length (parse_cart_or_empty storage)).
Proof.
  unfold Cart.getTotalItems. rewrite !cart_page_lines, addItem_run. cbn zeta.
  set (cart := parse_cart_or_empty storage).
  destruct (findIndex_cases cart (Product.id product))
    as [[-> Habsent]|(i & first & -> & Hi & Hid)]; cbn [parse_cart_or_empty].
  - change (-1 <? -1) with false. cbn iota. split; [|split; [|split]].
    + rewrite fold_left_app. reflexivity.
    + intros j line Hj _. apply lookup_app_l_Some, Hj.
    + intros _. rewrite length_app. cbn. lia.
    + intros line Hline Hsame. destruct (Habsent line Hline Hsame).
  - destruct (Z.ltb_spec (-1) (Z.of_nat i)); [|lia]. rewrite Nat2Z.id.
    split; [|split; [|split]].
    + apply (total_items_alter cart i first qty Hi).
    + intros j line Hj Hother. rewrite list_lookup_alter_ne; [exact Hj|].
      intros <-. congruence.
    + intros Habsent. destruct (Habsent first); [apply list_elem_of_lookup; eauto|exact Hid].
    + intros _ _ _. apply length_alter.
Qed.

(** X15. The snapshot of a line is taken at the first add and never
    refreshed: after a product is added to an empty cart, any further adds
    of products with the same id, whatever name, price or stock they carry
    by then, leave a single line that holds the id, name, price, image,
    stock, category and description of the first product and the sum of the
    added quantities. *)
Theorem adds_of_one_product_keep_the_first_snapshot
    (product : Product.t) (qty : Z) (adds : list (Product.t * Z)) :
  (∀ add : Product.t * Z, add ∈ adds → Product.id add.1 = Product.id product) →
  CartStore.addItems adds (CartStore.addItem product qty None)
    = Some [CartItem.mk (Product.id product) (Product.name product)
                        (Product.price product) (Product.image product)
                        (Product.stock product) (Product.category product)
                        (Product.description product)
                        (fold_left (λ total add, total + add.2) adds qty)].
Proof.
  change (CartStore.addItem product qty None) with (Some [CartItem.of_product product qty]).
  change (CartItem.mk (Product.id product) (Product.name product)
                      (Product.price product) (Product.image product)
                      (Product.stock product) (Product.category product)
                      (Product.description product)
                      (fold_left (λ total add, total + add.2) adds qty))
    with (CartItem.of_product product (fold_left (λ total add, total + add.2) adds qty)).
  revert qty. induction adds as [|add adds IH]; intros qty Hids; [reflexivity|].
  cbn [CartStore.addItems fold_left].
  assert (Hid : Product.id add.1 = Product.id product) by apply Hids, list_elem_of_here.
  rewrite (addItem_existing add.1 add.2 [CartItem.of_product product qty] 0
             (CartItem.of_product product qty)); [| apply NoDup_singleton | reflexivity | ].
  - apply IH. intros add' Hadd'. apply Hids, list_elem_of_further, Hadd'.
  - cbn. congruence.
Qed.

Lemma first_snapshot_witness :
  CartStore.addItems [(Case.P1_repriced, 1); (Sample.P1, 3)] (CartStore.addItem Sample.P1 2 None)
    = Some [CartItem.mk "P1" "Rose bouquet" 10 "" 5 "Groceries" "" 6].
Proof.
  apply (adds_of_one_product_keep_the_first_snapshot Sample.P1 2
           [(Case.P1_repriced, 1); (Sample.P1, 3)]).
  intros add Hadd. repeat (apply elem_of_cons in Hadd as [->|Hadd]; [reflexivity|]).
  inversion Hadd.
Defined.

(** ** The product filters *)

Lemma List_filter_elem_of {A} (f : A → bool) (l : list A) (x : A) :
  x ∈ List.filter f l ↔ x ∈ l ∧ f x = true.
Proof. rewrite !list_elem_of_In. apply filter_In. Qed.

Lemma List_filter_sublist {A} (f : A → bool) (l : list A) :
  List.filter f l `sublist_of` l.
Proof.
  induction l as [|x l IH]; cbn; [constructor|].
  destruct (f x); [apply sublist_skip, IH | apply sublist_cons, IH].
Qed.

Lemma isWhiteSpace_toLowerCase_char c :
  isWhiteSpace (toLowerCase_char c) = isWhiteSpace c.
Proof. destruct c as [[] [] [] [] [] [] [] []]; reflexivity. Qed.

Lemma all_space_toLowerCase s : all_space (toLowerCase s) = all_space s.
Proof.
  induction s as [|c s IH]; cbn; [reflexivity|].
  rewrite isWhiteSpace_toLowerCase_char, IH. reflexivity.
Qed.

Lemma append_cons (c : ascii) (s1 s2 : string) :
  (String c s1 ++ s2)%string = String c (s1 ++ s2)%string.
Proof. reflexivity. Qed.

Lemma prefix_spec (sub s : string) :
  String.prefix sub s = true ↔ ∃ post, s = (sub ++ post)%string.
Proof.
  revert sub. induction s as [|b s IH]; intros [|a sub]; cbn [String.prefix].
  - split; [exists EmptyString; reflexivity|reflexivity].
  - split; [discriminate|]. intros [post Hpost]. rewrite append_cons in Hpost. discriminate.
  - split; [|reflexivity]. intros _. exists (String b s). reflexivity.
  - destruct (ascii_dec a b) as [->|Hab].
    + rewrite IH. split; intros [post Hpost]; exists post;
        rewrite append_cons in *; congruence.
    + split; [discriminate|]. intros [post Hpost]. rewrite append_cons in Hpost. congruence.
Qed.

Lemma includes_spec (s sub : string) :
  includes s sub = true ↔ ∃ pre post, s = (pre ++ sub ++ post)%string.
Proof.
  induction s as [|c s IH]; cbn [includes]; rewrite orb_true_iff, prefix_spec.
  - split.
    + intros [[post Hpost]|Hfalse]; [|discriminate]. exists EmptyString, post. exact Hpost.
    + intros ([|c pre] & post & Hpost); [|rewrite append_cons in Hpost; discriminate].
      left. exists post. exact Hpost.
  - rewrite IH. split.
    + intros [[post Hpost]|(pre & post & Hpost)].
      * exists EmptyString, post. exact Hpost.
      * exists (String c pre), post. rewrite append_cons. congruence.
    + intros ([|c' pre] & post & Hpost).
      * left. exists post. exact Hpost.
      * right. exists pre, post. rewrite append_cons in Hpost. congruence.
Qed.

Lemma toLowerCase_char_code (c : ascii) :
  toLowerCase_char c
  = if bool_decide (65 ≤ nat_of_ascii c ≤ 90 ∨ 192 ≤ nat_of_ascii c ≤ 214
                    ∨ 216 ≤ nat_of_ascii c ≤ 222)%nat
    then ascii_of_nat (nat_of_ascii c + 32) else c.
Proof. destruct c as [[] [] [] [] [] [] [] []]; vm_compute; reflexivity. Qed.

Lemma chars_toLowerCase (text : string) :
  String.list_ascii_of_string (toLowerCase text)
  = (λ c, if bool_decide (65 ≤ nat_of_ascii c ≤ 90 ∨ 192 ≤ nat_of_ascii c ≤ 214
                          ∨ 216 ≤ nat_of_ascii c ≤ 222)%nat
          then ascii_of_nat (nat_of_ascii c + 32) else c)
    <$> String.list_ascii_of_string text.
Proof.
  induction text as [|c text IH]; [reflexivity|].
  cbn [toLowerCase String.list_ascii_of_string fmap list_fmap].
  rewrite IH, toLowerCase_char_code. reflexivity.
Qed.

Lemma chars_append (s1 s2 : string) :
  String.list_ascii_of_string (s1 ++ s2)%string
  = String.list_ascii_of_string s1 ++ String.list_ascii_of_string s2.
Proof.
  induction s1 as [|c s1 IH]; [reflexivity|].
  rewrite append_cons. cbn [String.list_ascii_of_string app]. rewrite IH. reflexivity.
Qed.

Lemma occurs_chars (s sub : string) :
  (∃ pre post, s = (pre ++ sub ++ post)%string) ↔
  ∃ pre post : list ascii,
    String.list_ascii_of_string s = pre ++ String.list_ascii_of_string sub ++ post.
Proof.
  split.
  - intros (pre & post & ->).
    exists (String.list_ascii_of_string pre), (String.list_ascii_of_string post).
    rewrite !chars_append. reflexivity.
  - intros (pre & post & Hchars).
    exists (String.string_of_list_ascii pre), (String.string_of_list_ascii post).
    rewrite <- (String.string_of_list_ascii_of_string s), Hchars.
    rewrite <- (String.string_of_list_ascii_of_string
                  (String.string_of_list_ascii pre ++ sub ++ String.string_of_list_ascii post)).
    rewrite !chars_append, !String.list_ascii_of_string_of_list_ascii. reflexivity.
Qed.

(** What [filterProducts] shows, in terms of the two callbacks. *)
Lemma filterProducts_filters (s : ProductsPage.State) :
  let s' := final (ProductsPage.filterProducts s) in
  trace (ProductsPage.filterProducts s) = [] ∧
  ProductsPage.products s' = ProductsPage.products s ∧
  ProductsPage.searchQuery s' = ProductsPage.searchQuery s ∧
  ProductsPage.selectedCategory s' = ProductsPage.selectedCategory s ∧
  ProductsPage.filteredProducts s' `sublist_of` ProductsPage.products s ∧
  (∀ product,
     product ∈ ProductsPage.filteredProducts s' ↔
     product ∈ ProductsPage.products s ∧
     (ProductsPage.selectedCategory s = "All"%string ∨
      Product.category product = ProductsPage.selectedCategory s) ∧
     (all_space (ProductsPage.searchQuery s) = true ∨
      ProductsPage.matches (ProductsPage.searchQuery s) product = true)) ∧
  (ProductsPage.selectedCategory s = "All"%string →
   all_space (ProductsPage.searchQuery s) = true →
   ProductsPage.filteredProducts s' = ProductsPage.products s).
Proof.
  destruct s as [products shown query category].
  unfold ProductsPage.filterProducts, ProductsPage.setFilteredProducts, final, trace. run.
  cbn [fst snd ProductsPage.products ProductsPage.filteredProducts ProductsPage.searchQuery
       ProductsPage.selectedCategory app].
  rewrite truthy_trim.
  repeat (split; [reflexivity|]).
  destruct (decide (category ≠ "All"%string)) as [Hcat|Hcat];
    destruct (all_space query) eqn:Hquery; cbn [negb].
  - split; [apply sublist_filter|]. split.
    + intros product. rewrite list_elem_of_filter. split.
      * intros [Hsame Hin]. auto.
      * intros (Hin & [Hall|Hsame] & _); [contradiction|auto].
    + intros Hall. contradiction.
  - split; [etrans; [apply List_filter_sublist|apply sublist_filter]|]. split.
    + intros product. rewrite List_filter_elem_of, list_elem_of_filter. split.
      * intros [[Hsame Hin] Hmatch]. auto.
      * intros (Hin & [Hall|Hsame] & [Hblank|Hmatch]);
          [contradiction|contradiction|discriminate|auto].
    + intros Hall. contradiction.
  - apply dec_stable in Hcat. split; [reflexivity|]. split; [|reflexivity].
    intros product. split; [auto|]. intros (Hin & _ & _). exact Hin.
  - apply dec_stable in Hcat. split; [apply List_filter_sublist|]. split.
    + intros product. rewrite List_filter_elem_of. split.
      * intros [Hin Hmatch]. auto.
      * intros (Hin & _ & [Hblank|Hmatch]); [discriminate|auto].
    + discriminate.
Qed.

(** X16. [filterProducts] of the product list page changes nothing but the
    list shown, for a query, names and descriptions of code units below
    256. The list shown keeps the order of the fetched products and
    holds exactly those that pass both filters: the category filter, which
    the category "All" switches off, and the search, which a query of
    white space only (code units 9-13, 32 and 160; the empty query
    included) switches off. Otherwise the search keeps a product when the
    characters of the query occur, as a contiguous run, in its name or in
    its description, all three taken in small letters: each capital (A-Z,
    and U+00C0 to U+00DE but for U+00D7) replaced by the code unit 32
    above it. With both filters off, every product is shown. *)
Theorem filterProducts_shows_exactly_the_matches (s : ProductsPage.State) :
  let s' := final (ProductsPage.filterProducts s) in
  let chars := String.list_ascii_of_string in
  let blank :=
    ∀ c, c ∈ chars (ProductsPage.searchQuery s) →
         nat_of_ascii c ∈ [9; 10; 11; 12; 13; 32; 160]%nat in
  let small (c : ascii) :=
    if bool_decide (65 ≤ nat_of_ascii c ≤ 90 ∨ 192 ≤ nat_of_ascii c ≤ 214
                    ∨ 216 ≤ nat_of_ascii c ≤ 222)%nat
    then ascii_of_nat (nat_of_ascii c + 32) else c in
  let occurs_in (text : string) :=
    ∃ pre post : list ascii,
      small <$> chars text = pre ++ (small <$> chars (ProductsPage.searchQuery s)) ++ post in
  trace (ProductsPage.filterProducts s) = [] ∧
  ProductsPage.products s' = ProductsPage.products s ∧
  ProductsPage.searchQuery s' = ProductsPage.searchQuery s ∧
  ProductsPage.selectedCategory s' = ProductsPage.selectedCategory s ∧
  ProductsPage.filteredProducts s' `sublist_of` ProductsPage.products s ∧
  (∀ product,
     product ∈ ProductsPage.filteredProducts s' ↔
     product ∈ ProductsPage.products s ∧
     (ProductsPage.selectedCategory s = "All"%string ∨
      Product.category product = ProductsPage.selectedCategory s) ∧
     (blank ∨ occurs_in (Product.name product) ∨ occurs_in (Product.description product))) ∧
  (ProductsPage.selectedCategory s = "All"%string → blank →
   ProductsPage.filteredProducts s' = ProductsPage.products s).
Proof.
  cbn zeta.
  destruct (filterProducts_filters s) as (Htrace & Hproducts & Hquery & Hcategory & Hsub & Hin & Hall).
  repeat (split; [assumption|]). split.
  - intros product. rewrite Hin, all_space_codes. unfold ProductsPage.matches.
    rewrite orb_true_iff, !includes_spec, !occurs_chars, !chars_toLowerCase. reflexivity.
  - intros Hcat Hblank. apply Hall; [exact Hcat|]. apply all_space_codes, Hblank.
Qed.

(** X17. The search of the product list page does not see letter case:
    two queries that differ only in the case of their letters show the
    same products, whatever the category filter. *)
Theorem search_ignores_letter_case
    (products shown1 shown2 : list Product.t) (query1 query2 category : string) :
  toLowerCase query1 = toLowerCase query2 →
  ProductsPage.filteredProducts
    (final (ProductsPage.filterProducts (ProductsPage.mk products shown1 query1 category)))
  = ProductsPage.filteredProducts
      (final (ProductsPage.filterProducts (ProductsPage.mk products shown2 query2 category))).
Proof.
  intros Hcase.
  unfold ProductsPage.filterProducts, ProductsPage.setFilteredProducts, final. run.
  cbn [fst snd ProductsPage.products ProductsPage.filteredProducts ProductsPage.searchQuery
       ProductsPage.selectedCategory].
  rewrite !truthy_trim, <- (all_space_toLowerCase query1), <- (all_space_toLowerCase query2), Hcase.
  unfold ProductsPage.matches. rewrite Hcase. reflexivity.
Qed.

Lemma search_case_witness :
  ProductsPage.filteredProducts
    (final (ProductsPage.filterProducts
              (ProductsPage.mk [Case.shirt; Case.tea; Case.phone] [] "caMERa" "All")))
  = ProductsPage.filteredProducts
      (final (ProductsPage.filterProducts
                (ProductsPage.mk [Case.shirt; Case.tea; Case.phone] [Case.tea] "camera" "All"))).
Proof.
  apply (search_ignores_letter_case [Case.shirt; Case.tea; Case.phone] [] [Case.tea]
           "caMERa" "camera" "All").
  reflexivity.
Defined.

(** X18. The category filter of the home page works on the featured
    products only: once the products are fetched, what the page shows is
    taken, in order, from the first eight rows received, so never more than
    eight products, and a product is shown exactly when it is among those
    eight and the category is "All" or its own. *)
Theorem home_page_shows_featured_products_only
    (data : list Product.t) (s : HomePage.State) :
  let s' := final (HomePage.received data s) in
  HomePage.products s' = data ∧
  HomePage.filteredProducts s' `sublist_of` take 8 data ∧
  (length (HomePage.filteredProducts s') ≤ 8)%nat ∧
  (∀ product,
     product ∈ HomePage.filteredProducts s' ↔
     product ∈ take 8 data ∧
     (HomePage.selectedCategory s = "All"%string ∨
      Product.category product = HomePage.selectedCategory s)).
Proof.
  unfold HomePage.received, HomePage.filteredProducts, final. run.
  cbn [fst snd HomePage.products HomePage.featuredProducts HomePage.selectedCategory].
  split; [reflexivity|].
  assert (Hsub : (if decide (HomePage.selectedCategory s = "All"%string) then take 8 data
                  else filter (λ product, Product.category product = HomePage.selectedCategory s)
                              (take 8 data)) `sublist_of` take 8 data).
  { destruct (decide _); [reflexivity|apply sublist_filter]. }
  split; [exact Hsub|]. split.
  - apply sublist_length in Hsub. rewrite length_take in Hsub. lia.
  - intros product. destruct (decide _) as [Hall|Hcat].
    + split; [auto|]. intros [Hin _]. exact Hin.
    + rewrite list_elem_of_filter. split.
      * intros [Hsame Hin]. auto.
      * intros [Hin [Hall|Hsame]]; [contradiction|auto].
Qed.

(** ** Stock badges and the vendor dashboard *)

(** X19. The stock badges. The product card shows green ("badge-success")
    for a stock above ten, yellow ("badge-warning") from one to ten and
    red ("badge-danger") at zero or below; the vendor dashboard shows green
    above ten, red at zero and yellow for every other stock at most ten.
    So the two agree as long as the stock is not negative, and part on a
    negative stock, which the card shows as out of stock and the dashboard
    as low stock. The card offers "Add to Cart", when given a handler,
    exactly for a stock above zero, that is when its status is not out of
    stock. *)
Theorem stock_badges_agree_unless_negative (product : Product.t) :
  (ProductCard.stockBadgeClass product = "badge-success"%string ↔ 10 < Product.stock product) ∧
  (ProductCard.stockBadgeClass product = "badge-warning"%string ↔
   0 < Product.stock product ≤ 10) ∧
  (ProductCard.stockBadgeClass product = "badge-danger"%string ↔ Product.stock product ≤ 0) ∧
  (VendorDashboard.getStockStatus (Product.stock product)
     = VendorDashboard.mkStatus "In Stock" "badge-success" ↔ 10 < Product.stock product) ∧
  (VendorDashboard.getStockStatus (Product.stock product)
     = VendorDashboard.mkStatus "Low Stock" "badge-warning" ↔
   Product.stock product ≤ 10 ∧ Product.stock product ≠ 0) ∧
  (VendorDashboard.getStockStatus (Product.stock product)
     = VendorDashboard.mkStatus "Out of Stock" "badge-danger" ↔ Product.stock product = 0) ∧
  (0 ≤ Product.stock product →
   ProductCard.stockBadgeClass product
     = VendorDashboard.class (VendorDashboard.getStockStatus (Product.stock product))) ∧
  (Product.stock product < 0 →
   ProductCard.stockStatus product = "out-of-stock"%string ∧
   ProductCard.stockBadgeClass product = "badge-danger"%string ∧
   VendorDashboard.getStockStatus (Product.stock product)
     = VendorDashboard.mkStatus "Low Stock" "badge-warning") ∧
  (ProductCard.showsAddToCart product true = true ↔ 0 < Product.stock product) ∧
  (ProductCard.showsAddToCart product true = true ↔
   ProductCard.stockStatus product ≠ "out-of-stock"%string).
Proof.
  unfold ProductCard.stockBadgeClass, ProductCard.stockStatus, ProductCard.showsAddToCart,
    VendorDashboard.getStockStatus.
  destruct (Z.ltb_spec 10 (Product.stock product)) as [Hten|Hten];
    destruct (Z.ltb_spec 0 (Product.stock product)) as [Hzero|Hzero];
    destruct (Z.eqb_spec (Product.stock product) 0) as [Hnone|Hnone];
    destruct (Z.leb_spec (Product.stock product) 10) as [Hlow|Hlow];
    try lia; cbn;
    repeat split; intros; try lia; try reflexivity; try congruence;
    match goal with
    | H : _ = _ |- _ => vm_compute in H; congruence
    end.
Qed.

(** X20. The statistics cards of the vendor dashboard against the badges
    of its table, for any list of products: "Out of Stock" counts the rows
    with the red badge; "Low Stock" counts the rows with the yellow badge
    except those of negative stock, which wear the yellow badge and are
    counted in no card but the total; and the total is the number of rows,
    each wearing exactly one of the three badges. *)
Theorem stats_cards_against_the_badges (products : list Product.t) :
  let stats := VendorDashboard.calculate_stats products in
  let badge (label : string) :=
    length (filter (λ p, VendorDashboard.text (VendorDashboard.getStockStatus (Product.stock p))
                         = label) products) in
  VendorDashboard.outOfStock stats = badge "Out of Stock"%string ∧
  (VendorDashboard.lowStock stats + length (filter (λ p, (Product.stock p < 0)%Z) products))%nat
    = badge "Low Stock"%string ∧
  VendorDashboard.totalProducts stats
    = (badge "Out of Stock" + badge "Low Stock" + badge "In Stock")%nat.
Proof.
  cbn zeta. unfold VendorDashboard.calculate_stats.
  cbn [VendorDashboard.outOfStock VendorDashboard.lowStock VendorDashboard.totalProducts].
  induction products as [|p products (IHout & IHlow & IHtotal)]; [repeat split|].
  assert (Hbadge :
    (Product.stock p = 0 ∧
     VendorDashboard.text (VendorDashboard.getStockStatus (Product.stock p))
       = "Out of Stock"%string) ∨
    (Product.stock p ≠ 0 ∧ Product.stock p ≤ 10 ∧
     VendorDashboard.text (VendorDashboard.getStockStatus (Product.stock p))
       = "Low Stock"%string) ∨
    (10 < Product.stock p ∧
     VendorDashboard.text (VendorDashboard.getStockStatus (Product.stock p))
       = "In Stock"%string)).
  { unfold VendorDashboard.getStockStatus.
    destruct (Z.eqb_spec (Product.stock p) 0); [left; split; [assumption|reflexivity]|].
    destruct (Z.leb_spec (Product.stock p) 10); right; [left|right]; repeat split; assumption. }
  rewrite !filter_cons. cbn [List.filter].
  destruct Hbadge as [(Hnone & ->)|[(Hsome & Hlow & ->)|(Hmany & ->)]];
    destruct (Z.eqb_spec (Product.stock p) 0);
    destruct (Z.leb_spec (Product.stock p) 10);
    destruct (Z.ltb_spec 0 (Product.stock p));
    try lia; cbn [andb];
    repeat (case_decide; try discriminate; try congruence; try lia);
    cbn [length]; lia.
Qed.

Lemma cancel_after_typing (typed : list Z) (s : VendorDashboard.State) :
  VendorDashboard.handleCancelEdit
    (fold_left (λ s value, VendorDashboard.setEditingStock value s) typed s)
  = VendorDashboard.handleCancelEdit s.
Proof.
  revert s. induction typed as [|value typed IH]; intros s; [reflexivity|].
  cbn [fold_left]. rewrite IH. reflexivity.
Qed.

(** X21. Editing a stock on the vendor dashboard and saving it, when the
    update and the refresh succeed: the value written is the one typed,
    whatever the stock of the row is by then and whatever the table showed;
    only the stock column changes and only in rows with the product's id;
    the table then shows the rows as stored, the editor is closed, the
    statistics are those of the rows shown, and the one toast is "Stock
    updated". *)
Theorem edit_and_save_writes_the_typed_stock
    (product : Product.t) (value : Z) (s : VendorDashboard.State) :
  let saved :=
    VendorDashboard.handleSaveStock false false (Product.id product)
      (VendorDashboard.setEditingStock value (VendorDashboard.handleEditStock product s)) in
  saved.2 = [VendorDashboard.StockUpdated] ∧
  VendorDashboard.products saved.1 = VendorDashboard.rows saved.1 ∧
  VendorDashboard.editingId saved.1 = None ∧
  VendorDashboard.stats saved.1
    = VendorDashboard.calculate_stats (VendorDashboard.products saved.1) ∧
  length (VendorDashboard.rows saved.1) = length (VendorDashboard.rows s) ∧
  (∀ (i : nat) row,
     VendorDashboard.rows s !! i = Some row →
     ∃ row',
       VendorDashboard.rows saved.1 !! i = Some row' ∧
       VendorDashboard.with_stock 0 row' = VendorDashboard.with_stock 0 row ∧
       Product.stock row' = if decide (Product.id row = Product.id product) then value
                            else Product.stock row).
Proof.
  cbn. repeat (split; [reflexivity|]). split.
  - unfold VendorDashboard.update_rows. apply length_fmap.
  - intros i row Hrow. unfold VendorDashboard.update_rows.
    rewrite list_lookup_fmap, Hrow. cbn [fmap option_fmap option_map].
    eexists. split; [reflexivity|].
    destruct (decide (Product.id row = Product.id product)); split; reflexivity.
Qed.

(** X23. Cancelling an edit discards it: from a dashboard with no edit
    open, opening the editor on a product, typing any values and cancelling
    gives back the dashboard as it was, the stored rows included, but for
    the value of the editor, which is set to 0 whatever it was (a
    successful save leaves the value typed there) and which the page does
    not show while no edit is open. *)
Theorem cancel_discards_the_edit
    (product : Product.t) (typed : list Z) (s : VendorDashboard.State) :
  VendorDashboard.editingId s = None →
  VendorDashboard.handleCancelEdit
    (fold_left (λ s value, VendorDashboard.setEditingStock value s) typed
               (VendorDashboard.handleEditStock product s))
  = VendorDashboard.mk (VendorDashboard.products s) (VendorDashboard.editingId s) 0
                       (VendorDashboard.isLoading s) (VendorDashboard.stats s)
                       (VendorDashboard.rows s) ∧
  (VendorDashboard.editingStock s = 0 →
   VendorDashboard.handleCancelEdit
     (fold_left (λ s value, VendorDashboard.setEditingStock value s) typed
                (VendorDashboard.handleEditStock product s))
   = s).
Proof.
  intros Hid. rewrite cancel_after_typing.
  destruct s as [products editing stock loading stats rows]. cbn in Hid. subst.
  split; [reflexivity|]. cbn. intros ->. reflexivity.
Qed.

Lemma cancel_witness :
  VendorDashboard.handleCancelEdit
    (fold_left (λ s value, VendorDashboard.setEditingStock value s) [5; -2]
               (VendorDashboard.handleEditStock Case.shirt Case.dashboard_after_save))
  = VendorDashboard.mk [Case.shirt; VendorDashboard.with_stock 9 Case.tea; Case.phone] None 0 false
      (VendorDashboard.calculate_stats
         [Case.shirt; VendorDashboard.with_stock 9 Case.tea; Case.phone])
      [Case.shirt; VendorDashboard.with_stock 9 Case.tea; Case.phone].
Proof.
  apply (cancel_discards_the_edit Case.shirt [5; -2] Case.dashboard_after_save).
  reflexivity.
Defined.
